(** * PN532 host driver: frame codec, link transport, register access

    A shallow embedding of [testutils/pn532/pn532.py].  Bytes are integers
    in [0, 256); Python's unbounded integers are [Z], so every mask the
    source applies ([& 0xFF], [& 0xFFFF]) is written out.  The driver object
    is a record threaded through a state-and-exception monad; the serial
    port behind [self.device] is an interface with one buffered instance. *)

From Stdlib Require Import QArith Qpower.
From Stdlib Require Import Floats.SpecFloat.
From stdpp Require Import gmap list strings.

Local Open Scope Z_scope.

(** ** Python values and failures *)

Definition is_byte (b : Z) : bool := (0 <=? b) && (b <? 256).

(** The exceptions the modelled code can raise.  A [RuntimeError] carries
    the message template of the source and the values interpolated in it. *)
Inductive exn : Type :=
| RuntimeError (msg : string) (args : list Z)
| IndexError
| TypeError
| ValueError
| KeyError
| StructError
| NameError (name : string).

Inductive result (A : Type) : Type :=
| Ok (a : A)
| Raise (e : exn).
Arguments Ok {A} a.
Arguments Raise {A} e.

Inductive level : Type := DEBUG | ERROR.

Record log_record : Type := LogRecord {
  log_level : level;
  log_msg : string;
  log_args : list Z
}.

(** [sum(xs)] *)
Definition sum (xs : list Z) : Z := foldr Z.add 0 xs.

(** [xs[0:stop]] with Python's reading of a negative [stop]. *)
Definition slice_to (stop : Z) (xs : list Z) : list Z :=
  if stop <? 0 then take (length xs - Z.to_nat (- stop)) xs
  else take (Z.to_nat stop) xs.

(** [del xs[0:stop]] *)
Definition del_slice_to (stop : Z) (xs : list Z) : list Z :=
  if stop <? 0 then drop (length xs - Z.to_nat (- stop)) xs
  else drop (Z.to_nat stop) xs.

(** [struct.pack(">H", r)] and [struct.pack(">HB", r, v)] *)
Definition pack_H (r : Z) : result (list Z) :=
  if (0 <=? r) && (r <? 65536) then Ok [Z.shiftr r 8; Z.land r 0xFF]
  else Raise StructError.

Definition pack_HB (r v : Z) : result (list Z) :=
  if (0 <=? r) && (r <? 65536) && is_byte v
  then Ok [Z.shiftr r 8; Z.land r 0xFF; v]
  else Raise StructError.

(** ** Module constants *)

Definition _BITRATE : list (Z * Z) := [(106, 0); (212, 1); (424, 2); (848, 3)].

Definition _FRAMING : list (string * Z) :=
  [("A"%string, 0); ("DEP"%string, 1); ("F"%string, 2); ("B"%string, 3)].

(** [{n: 100 * 2 ** (n - 1) for n in range(0x01, 0x10)}], in insertion order *)
Definition _TIMEOUT : list (Z * Z) :=
  map (fun n => (n, 100 * 2 ^ (n - 1))) (seqZ 1 15).

Definition assoc {K V : Type} `{EqDecision K} (k : K) (d : list (K * V)) : option V :=
  snd <$> List.find (fun kv => bool_decide (fst kv = k)) d.

Module Command.
Definition GET_FIRMWARE_VERSION : Z := 0x02.
Definition READ_REGISTER : Z := 0x06.
Definition WRITE_REGISTER : Z := 0x08.
Definition SAM_CONFIGURATION : Z := 0x14.
Definition RF_CONFIGURATION : Z := 0x32.
Definition IN_LIST_PASSIVE_TARGET : Z := 0x4A.
Definition IN_DATA_EXCHANGE : Z := 0x40.
Definition IN_COMMUNICATE_THRU : Z := 0x42.
End Command.

Module REG.
Definition COMMAND : Z := 0x6331.
Definition COMM_I_EN : Z := 0x6332.
Definition DIV_I_EN : Z := 0x6333.
Definition COMM_I_RQ : Z := 0x6334.
Definition DIV_I_RQ : Z := 0x6335.
Definition ERROR : Z := 0x6336.
Definition WATER_LEVEL : Z := 0x633B.
Definition CONTROL : Z := 0x633C.
Definition BIT_FRAMING : Z := 0x633D.
Definition COLL : Z := 0x633E.
Definition MODE : Z := 0x6301.
Definition TX_MODE : Z := 0x6302.
Definition RX_MODE : Z := 0x6303.
Definition TX_CONTROL : Z := 0x6304.
Definition TX_AUTO : Z := 0x6305.
Definition TX_SEL : Z := 0x6306.
Definition RX_SEL : Z := 0x6307.
Definition RX_THRESHOLD : Z := 0x6308.
Definition DEMOD : Z := 0x6309.
Definition MANUAL_RCV : Z := 0x630D.
Definition TYPE_B : Z := 0x630E.
Definition GS_N_OFF : Z := 0x6313.
Definition MOD_WIDTH : Z := 0x6314.
Definition TX_BIT_PHASE : Z := 0x6315.
Definition RF_CFG : Z := 0x6316.
Definition GS_N_ON : Z := 0x6317.
Definition CWG_S_P : Z := 0x6318.
Definition MOD_GS_P : Z := 0x6319.

Definition members : list Z :=
  [COMMAND; COMM_I_EN; DIV_I_EN; COMM_I_RQ; DIV_I_RQ; ERROR; WATER_LEVEL;
   CONTROL; BIT_FRAMING; COLL; MODE; TX_MODE; RX_MODE; TX_CONTROL; TX_AUTO;
   TX_SEL; RX_SEL; RX_THRESHOLD; DEMOD; MANUAL_RCV; TYPE_B; GS_N_OFF;
   MOD_WIDTH; TX_BIT_PHASE; RF_CFG; GS_N_ON; CWG_S_P; MOD_GS_P].
End REG.

(** [Register(x)] succeeds exactly on the addresses of the enumeration. *)
Definition is_Register (x : Z) : bool := bool_decide (x ∈ REG.members).

Module RFConfigItem.
Definition RF_FIELD : Z := 0x01.
Definition VARIOUS_TIMINGS : Z := 0x02.
Definition MAX_RTY_COM : Z := 0x04.
Definition MAX_RETRIES : Z := 0x05.
End RFConfigItem.

Definition _REGISTER_CONFIGURATION_FOR_TYPE : list (string * list (Z * Z)) :=
  [("A"%string,
    [(REG.CONTROL, 0x10); (REG.TX_CONTROL, 0x83); (REG.RX_THRESHOLD, 0x85);
     (REG.DEMOD, 0x4D); (REG.GS_N_OFF, 0x6F); (REG.TX_BIT_PHASE, 0x87);
     (REG.RF_CFG, 0x59); (REG.GS_N_ON, 0xF4); (REG.CWG_S_P, 0x3F);
     (REG.MOD_GS_P, 0x11)]);
   ("B"%string,
    [(REG.CONTROL, 0x10); (REG.TX_CONTROL, 0x83); (REG.RX_THRESHOLD, 0x85);
     (REG.DEMOD, 0x4D); (REG.GS_N_OFF, 0x6F); (REG.RF_CFG, 0x59);
     (REG.GS_N_ON, 0xFF); (REG.CWG_S_P, 0x3F); (REG.MOD_GS_P, 0x17)]);
   ("F"%string,
    [(REG.CONTROL, 0x10); (REG.TX_CONTROL, 0x83); (REG.RX_THRESHOLD, 0x85);
     (REG.DEMOD, 0x41); (REG.GS_N_OFF, 0x6F); (REG.TX_BIT_PHASE, 0x8F);
     (REG.RF_CFG, 0x69); (REG.GS_N_ON, 0xFF); (REG.CWG_S_P, 0x3F);
     (REG.MOD_GS_P, 0x11)])].

(** ** CRC_A *)

Definition crc16a_step (w_crc byte : Z) : Z :=
  let byte := Z.lxor byte (Z.land w_crc 0x00FF) in
  let byte := Z.land (Z.lxor byte (Z.shiftl byte 4)) 0xFF in
  Z.land
    (Z.lxor (Z.lxor (Z.lxor (Z.shiftr w_crc 8) (Z.shiftl byte 8))
                    (Z.shiftl byte 3))
            (Z.shiftr byte 4))
    0xFFFF.

Definition crc16a (data : list Z) : list Z :=
  let w_crc := fold_left crc16a_step data 0x6363 in
  [Z.land w_crc 0xFF; Z.land (Z.shiftr w_crc 8) 0xFF].

(** [bytes(data) + crc16a(data)]; [bytes] refuses a value outside a byte. *)
Definition with_crc16a (data : list Z) : result (list Z) :=
  if forallb is_byte data then Ok (data ++ crc16a data) else Raise ValueError.

(** ** Register bit fields

    The masked updates of [transceive_raw], one definition per source line. *)

(** [(mode & 0b1_000_1_1_11) | (speed << 4)] *)
Definition set_speed (mode speed : Z) : Z :=
  Z.lor (Z.land mode 0x8F) (Z.shiftl speed 4).

(** [(mode & 0b1_111_1_1_00) | framing] *)
Definition set_framing (mode framing : Z) : Z :=
  Z.lor (Z.land mode 0xFC) framing.

(** [(mode & 0b0_111_1_1_11) | (crc << 7)] *)
Definition set_crc_en (mode : Z) (crc : bool) : Z :=
  Z.lor (Z.land mode 0x7F) (Z.shiftl (Z.b2z crc) 7).

(** [(tx_auto & 0b1_0_1_1_1_1_1_1) | ((type_ == "A") << 6)] *)
Definition set_force_100_ask (tx_auto : Z) (type_ : string) : Z :=
  Z.lor (Z.land tx_auto 0xBF) (Z.shiftl (Z.b2z (bool_decide (type_ = "A"%string))) 6).

(** [(bit_frm & 0b1_111_1_000) | (bits & 0b111)] *)
Definition set_tx_last_bits (bit_frm bits : Z) : Z :=
  Z.lor (Z.land bit_frm 0xF8) (Z.land bits 0x07).

(** ** Numbers and the response timeout

    [transceive_raw] receives its timeout in seconds as a Python number:
    the default [1] is an [int], the polling-frame callers pass [float]
    values.  A float is an IEEE 754 binary64 value ([spec_float] at
    precision 53, exponent bound 1024); its arithmetic is the rounding
    arithmetic of [SpecFloat]. *)
Inductive number : Type :=
| PyInt (z : Z)
| PyFloat (f : spec_float).

(** [float(z)]: the nearest double, [z] itself when [|z| <= 2 ** 53], as
    for the constant 1000000 and every value of [_TIMEOUT].  (Past the
    range of the doubles Python raises OverflowError; no integer converted
    here is that large.) *)
Definition float_of_int (z : Z) : spec_float := binary_normalize 53 1024 z 0 false.

(** [x * k] for an integer [k]: the exact product on an [int]; on a
    [float] the integer is converted to a double and the product is the
    IEEE 754 one, rounded to nearest, ties to even. *)
Definition number_mul_int (x : number) (k : Z) : number :=
  match x with
  | PyInt z => PyInt (z * k)
  | PyFloat f => PyFloat (SFmul 53 1024 f (float_of_int k))
  end.

(** [t >= x] for an integer [t]: exact against an [int]; against a [float]
    it is [x <= float(t)] on doubles ([t] being one exactly), false when
    [x] is a NaN. *)
Definition int_ge (t : Z) (x : number) : bool :=
  match x with
  | PyInt z => z <=? t
  | PyFloat f => SFleb f (float_of_int t)
  end.

(** The rational a number denotes; an infinity or a NaN denotes none. *)
Definition number_value (x : number) : option Q :=
  match x with
  | PyInt z => Some (inject_Z z)
  | PyFloat (S754_zero _) => Some 0%Q
  | PyFloat (S754_finite s m e) => Some (inject_Z (cond_Zopp s (Z.pos m)) * 2 ^ e)%Q
  | PyFloat _ => None
  end.

(** [next((idx for idx, t in _TIMEOUT.items() if t >= timeout * 1000000), 0x10)] *)
Definition timeout_index (timeout : number) : Z :=
  match List.find (fun it => int_ge (snd it) (number_mul_int timeout 1000000)) _TIMEOUT with
  | Some it => fst it
  | None => 0x10
  end.

(** The doubles the literals [0.00005], [0.0001] and [5.0] denote. *)
Definition float_0_00005 : spec_float := S754_finite false 7378697629483821 (-67).
Definition float_0_0001 : spec_float := S754_finite false 7378697629483821 (-66).
Definition float_5_0 : spec_float := S754_finite false 5629499534213120 (-50).

(** A number that Python can hold: any int, and a float that is a binary64
    value (a mantissa of 53 bits, or fewer at the least exponent -1074). *)
Definition number_valid (x : number) : bool :=
  match x with
  | PyInt _ => true
  | PyFloat f => valid_binary 53 1024 f
  end.

(** The value of a finite number in units of [2 ^ -1200]. *)
Definition number_units (x : number) : Z :=
  match x with
  | PyInt z => z * 2 ^ 1200
  | PyFloat (S754_finite s m e) => cond_Zopp s (Z.pos m) * 2 ^ (e + 1200)
  | PyFloat _ => 0
  end.

(** ** Rounding to a double

    What [SpecFloat] computes when it rounds, in closed form. *)

(** Rounding [M / 2 ^ n] to the nearest integer, ties to even. *)
Definition round_half_even (M n : Z) : Z :=
  let q := M / 2 ^ n in
  match 2 * (M mod 2 ^ n) ?= 2 ^ n with
  | Lt => q
  | Eq => if Z.even q then q else q + 1
  | Gt => q + 1
  end.

(** What [binary_round_aux] returns for a positive mantissa of at least 53
    bits: the mantissa is shifted down to 53 bits (or to the exponent
    -1074 of the subnormals), rounded half to even, and renormalised when
    the rounding carried into a 54th bit. *)
Definition round_binary64 (sx : bool) (M E : Z) : spec_float :=
  let n := Z.max (Zdigits2 M - 53) (-1074 - E) in
  let m := round_half_even M n in
  if m =? 0 then S754_zero sx
  else if m <? 2 ^ 53 then
    if E + n <=? 971 then S754_finite sx (Z.to_pos m) (E + n) else S754_infinity sx
  else
    if E + n + 1 <=? 971 then S754_finite sx (Z.to_pos (2 ^ 52)) (E + n + 1)
    else S754_infinity sx.

(** ** The serial port and the driver object *)

(** What the driver asks of [self.device]: [read(size)] returns at most
    [size] bytes (fewer when the timeout expires), [write(data)], and the
    assignment to [timeout]. *)
Class SerialPort (P : Type) : Type := {
  port_read : Z -> P -> list Z * P;
  port_write : list Z -> P -> P;
  port_set_timeout : Q -> P -> P
}.

Record PN532 (P : Type) : Type := mkPN532 {
  device : P;
  register_cache : gmap Z Z;
  rf_configuration_cache : gmap Z (list Z);
  log : list log_record
}.
Arguments mkPN532 {P} _ _ _ _.
Arguments device {P} _.
Arguments register_cache {P} _.
Arguments rf_configuration_cache {P} _.
Arguments log {P} _.

(** [tag.TypeATag(self, target_id, sense_res, sel_res, nfcid, ats)] and
    [tag.TypeBTag(self, target_id, sensb_res)]: the fields handed to the tag
    objects (the reference to the driver is left out). *)
Record TypeATag : Type := mkTypeATag {
  target_id : Z;
  sense_res : list Z;
  sel_res : Z;
  nfcid : list Z;
  ats : list Z
}.

Record TypeBTag : Type := mkTypeBTag {
  target_id_b : Z;
  sensb_res : list Z
}.

(** A method of the driver: it runs on the object, returns or raises, and
    leaves the object as mutated up to that point. *)
Definition M (P A : Type) : Type := PN532 P -> result A * PN532 P.

#[global] Instance M_ret {P} : MRet (M P) := fun A a s => (Ok a, s).

#[global] Instance M_bind {P} : MBind (M P) := fun A B f m s =>
  match m s with
  | (Ok a, s') => f a s'
  | (Raise e, s') => (Raise e, s')
  end.

Definition raise {P A} (e : exn) : M P A := fun s => (Raise e, s).

Definition lift {P A} (r : result A) : M P A := fun s => (r, s).

Definition when {P} (b : bool) (m : M P ()) : M P () := if b then m else mret ().

(** [not rsp] for a response that is [None] or a bytearray *)
Definition falsy (rsp : option (list Z)) : bool :=
  match rsp with
  | None | Some [] => true
  | Some (_ :: _) => false
  end.

Definition ACK : list Z := [0x00; 0x00; 0xFF; 0x00; 0xFF; 0x00].

Section Driver.
Context {P : Type} `{SerialPort P}.

Definition log_emit (l : level) (msg : string) (args : list Z) : M P () :=
  fun s => (Ok (), mkPN532 (device s) (register_cache s) (rf_configuration_cache s)
                           (log s ++ [LogRecord l msg args])).

Definition log_debug := log_emit DEBUG.
Definition log_error := log_emit ERROR.

Definition device_read (size : Z) : M P (list Z) :=
  fun s => let '(bs, d) := port_read size (device s) in
           (Ok bs, mkPN532 d (register_cache s) (rf_configuration_cache s) (log s)).

Definition device_write (data : list Z) : M P () :=
  fun s => (Ok (), mkPN532 (port_write data (device s)) (register_cache s)
                           (rf_configuration_cache s) (log s)).

Definition device_set_timeout (t : Q) : M P () :=
  fun s => (Ok (), mkPN532 (port_set_timeout t (device s)) (register_cache s)
                           (rf_configuration_cache s) (log s)).

Definition get_register_cache : M P (gmap Z Z) := fun s => (Ok (register_cache s), s).

Definition set_register_cache (c : gmap Z Z) : M P () :=
  fun s => (Ok (), mkPN532 (device s) c (rf_configuration_cache s) (log s)).

Definition get_rf_configuration_cache : M P (gmap Z (list Z)) :=
  fun s => (Ok (rf_configuration_cache s), s).

Definition set_rf_configuration_cache (c : gmap Z (list Z)) : M P () :=
  fun s => (Ok (), mkPN532 (device s) (register_cache s) c (log s)).

(** [xs[i]] for [i >= 0] *)
Definition index (xs : list Z) (i : nat) : M P Z :=
  match xs !! i with
  | Some x => mret x
  | None => raise IndexError
  end.

(** [rsp[i]] where [rsp] may be [None] *)
Definition index_opt (rsp : option (list Z)) (i : nat) : M P Z :=
  match rsp with
  | None => raise TypeError
  | Some xs => index xs i
  end.

(** [del xs[0]] *)
Definition del0 (xs : list Z) : M P (list Z) :=
  match xs with
  | [] => raise IndexError
  | _ :: xs' => mret xs'
  end.

Definition construct_frame (data : list Z) : M P (list Z) :=
  let n := Z.of_nat (length data) in
  let frame :=
    [0x00; 0x00; 0xFF;
     Z.land (n + 1) 0xFF;
     Z.land (Z.land (Z.lnot (n + 1)) 0xFF + 0x01) 0xFF;
     0xD4] in
  let data_sum := 0xD4 in
  let '(data_sum, frame) :=
    fold_left (fun acc b => (fst acc + b, snd acc ++ [b])) data (data_sum, frame) in
  let frame := frame ++ [Z.land (Z.land (Z.lnot data_sum) 0xFF + 0x01) 0xFF] in
  let frame := frame ++ [0x00] in
  if forallb is_byte frame
  then log_debug "Constructed frame %s" frame;; mret frame
  else raise ValueError.

Definition get_device_response (timeout : Q) : M P (option (list Z)) :=
  device_set_timeout timeout;;
  frame ← device_read 6;
  if bool_decide (length frame = 0%nat)
  then log_error "Did not get response from PN532" [];; mret None
  else
    when (bool_decide (frame ≠ ACK))
         (log_error "Did not get ACK frame, got %s" frame);;
    frame ← device_read 6;
    if bool_decide (length frame = 0%nat) then mret None
    else
      when (bool_decide (take 3 frame ≠ [0x00; 0x00; 0xFF]))
           (log_error "Unexpected start to frame, got %s" (take 3 frame));;
      data_len ← index frame 3;
      length_checksum ← index frame 4;
      if bool_decide (Z.land (length_checksum + data_len) 0xFF ≠ 0)
      then log_error "Frame failed length checksum" [];; mret None
      else
        tfi ← index frame 5;
        if bool_decide (tfi ≠ 0xD5)
        then log_error "Unexpected TFI byte when performing read, got %02x" [tfi];;
             mret None
        else
          data_packet ← device_read (data_len - 1);
          cs ← device_read 1;
          data_checksum ← index cs 0;
          when (bool_decide (Z.land (tfi + sum data_packet + data_checksum) 0xFF ≠ 0))
               (log_error "Frame failed data checksum" []);;
          pa ← device_read 1;
          postamble ← index pa 0;
          when (bool_decide (postamble ≠ 0x00) && bool_decide (tfi ≠ 0xD5))
               (length_checksum ← index frame 4;
                log_error "Unexpected postamble byte when performing read, got %02x"
                          [length_checksum]);;
          device_set_timeout (1 # 2);;
          device_write ACK;;
          log_debug "Received frame %s%s" (frame ++ data_packet);;
          mret (Some data_packet).

Definition send_frame (frame : list Z) (timeout : Q) : M P (option (list Z)) :=
  device_write frame;;
  get_device_response timeout.

Definition execute_command (command : Z) (data : list Z) (timeout : Q)
  : M P (option (list Z)) :=
  frame ← construct_frame (command :: data);
  rsp ← send_frame frame timeout;
  if falsy rsp then mret None
  else
    code ← index_opt rsp 0;
    if bool_decide (code ≠ command + 1)
    then raise (RuntimeError "Response code {rsp[0]} does not match the command {command}"
                             [code; command])
    else
      rsp ← del0 (default [] rsp);
      mret (Some rsp).
End Driver.

(** ** Register access, RF configuration, raw exchange, polling *)

(** [all(Register(register) in cache for register in registers)]:
    evaluated left to right, it stops at the first miss and raises
    [ValueError] on an address that is no member of [Register]. *)
Fixpoint all_in_cache (c : gmap Z Z) (registers : list Z) : result bool :=
  match registers with
  | [] => Ok true
  | r :: rs =>
      if is_Register r
      then if bool_decide (is_Some (c !! r)) then all_in_cache c rs else Ok false
      else Raise ValueError
  end.

(** [[cache[register] for register in registers]] *)
Fixpoint lookup_all (c : gmap Z Z) (registers : list Z) : result (list Z) :=
  match registers with
  | [] => Ok []
  | r :: rs =>
      match c !! r with
      | None => Raise KeyError
      | Some v =>
          match lookup_all c rs with
          | Ok vs => Ok (v :: vs)
          | Raise e => Raise e
          end
      end
  end.

(** [b''.join(struct.pack(">H", register) for register in registers)] *)
Fixpoint join_pack_H (registers : list Z) : result (list Z) :=
  match registers with
  | [] => Ok []
  | r :: rs =>
      match pack_H r with
      | Raise e => Raise e
      | Ok bs =>
          match join_pack_H rs with
          | Ok rest => Ok (bs ++ rest)
          | Raise e => Raise e
          end
      end
  end.

(** [b''.join(struct.pack(">HB", reg, val) for reg, val in difference.items())] *)
Fixpoint join_pack_HB (items : list (Z * Z)) : result (list Z) :=
  match items with
  | [] => Ok []
  | rv :: rest =>
      match pack_HB (fst rv) (snd rv) with
      | Raise e => Raise e
      | Ok bs =>
          match join_pack_HB rest with
          | Ok more => Ok (bs ++ more)
          | Raise e => Raise e
          end
      end
  end.

(** [{**cache, **registers}] *)
Definition merge_registers (c : gmap Z Z) (registers : list (Z * Z)) : gmap Z Z :=
  foldl (fun m rv => <[fst rv := snd rv]> m) c registers.

Section Protocol.
Context {P : Type} `{SerialPort P}.

Definition send_broadcast (broadcast : list Z) : M P () :=
  log_debug "Sending broadcast %s" broadcast;;
  frame ← construct_frame [Command.WRITE_REGISTER; 0x63; 0x3D; 0x00];
  send_frame frame (1 # 2);;
  payload ← lift (with_crc16a broadcast);
  frame ← construct_frame (Command.IN_COMMUNICATE_THRU :: payload);
  rsp ← send_frame frame (1 # 2);
  if falsy rsp then raise (RuntimeError "No response for send broadcast." [])
  else mret ().

(** A dict argument is the list of its items in insertion order. *)
Definition read_registers (registers : list Z) (cache : bool) : M P (list Z) :=
  c ← get_register_cache;
  hit ← (if cache then lift (all_in_cache c registers) else mret false);
  if hit : bool then lift (lookup_all c registers)
  else
    data ← lift (join_pack_H registers);
    rsp ← execute_command Command.READ_REGISTER data (1 # 2);
    if falsy rsp then raise (NameError "args")
    else mret (default [] rsp).

Definition write_registers (registers : list (Z * Z)) (cache : bool) : M P () :=
  c ← get_register_cache;
  let difference :=
    List.filter (fun rv => negb cache || bool_decide (c !! fst rv ≠ Some (snd rv)))
                registers in
  match difference with
  | [] => mret ()
  | _ :: _ =>
      data ← lift (join_pack_HB difference);
      execute_command Command.WRITE_REGISTER data (1 # 2);;
      c ← get_register_cache;
      set_register_cache (merge_registers c registers)
  end.

Definition rf_configuration (cfg_item : Z) (value : list Z) (cache : bool) : M P () :=
  c ← get_rf_configuration_cache;
  if cache && bool_decide (c !! cfg_item = Some value) then mret ()
  else
    execute_command Command.RF_CONFIGURATION (cfg_item :: value) (1 # 2);;
    c ← get_rf_configuration_cache;
    set_rf_configuration_cache (<[cfg_item := value]> c).

Definition key {K V : Type} `{EqDecision K} (d : list (K * V)) (k : K) : M P V :=
  match assoc k d with
  | Some v => mret v
  | None => raise KeyError
  end.

(** [transceive_raw] up to the dispatch of the exchange: the RF timing,
    the four mode registers recomputed field by field, the batched write,
    and the FeliCa length prefix.  It returns the bytes to send. *)
Definition transceive_raw_configure (data : list Z) (type_ : string) (crc : bool)
    (bits bitrate : Z) (timeout : number) (cache_configuration : bool) : M P (list Z) :=
  let timeout_index := timeout_index timeout in
  rf_configuration RFConfigItem.VARIOUS_TIMINGS [0x00; 0x0B; timeout_index]
                   cache_configuration;;
  regs ← read_registers [REG.TX_MODE; REG.RX_MODE; REG.TX_AUTO; REG.BIT_FRAMING]
                        cache_configuration;
  match regs with
  | [tx_mode; rx_mode; tx_auto; bit_frm] =>
      speed ← key _BITRATE bitrate;
      let tx_mode := set_speed tx_mode speed in
      let rx_mode := set_speed rx_mode speed in
      framing ← key _FRAMING type_;
      let tx_mode := set_framing tx_mode framing in
      let rx_mode := set_framing rx_mode framing in
      let tx_mode := set_crc_en tx_mode crc in
      let rx_mode := set_crc_en rx_mode crc in
      let tx_auto := set_force_100_ask tx_auto type_ in
      let bit_frm := set_tx_last_bits bit_frm bits in
      preset ← key _REGISTER_CONFIGURATION_FOR_TYPE type_;
      write_registers
        ([(REG.TX_MODE, tx_mode); (REG.RX_MODE, rx_mode); (REG.TX_AUTO, tx_auto);
          (REG.BIT_FRAMING, bit_frm)] ++ preset)
        cache_configuration;;
      mret (if bool_decide (type_ = "F"%string)
            then (Z.of_nat (length data) + 1) :: data
            else data)
  | _ => raise ValueError
  end.

Definition transceive_raw (data : list Z) (type_ : string) (crc : bool)
    (bits bitrate : Z) (timeout : number) (cache_configuration : bool)
  : M P (option (list Z)) :=
  data ← transceive_raw_configure data type_ crc bits bitrate timeout cache_configuration;
  rsp ← execute_command Command.IN_COMMUNICATE_THRU data (1 # 2);
  status ← index_opt rsp 0;
  if bool_decide (status ≠ 0) then mret None
  else
    rsp ← del0 (default [] rsp);
    mret (Some rsp).

Definition poll_a : M P (option TypeATag) :=
  log_debug "Polling A" [];;
  frame ← construct_frame [Command.IN_LIST_PASSIVE_TARGET; 0x01; 0x00];
  rsp ← send_frame frame (1 # 2);
  if falsy rsp then raise (RuntimeError "No response for send poll_a frame." [])
  else
    let rsp := default [] rsp in
    code ← index rsp 0;
    when (bool_decide (code ≠ Command.IN_LIST_PASSIVE_TARGET + 1))
         (log_error "Got unexpected command code in response" []);;
    rsp ← del0 rsp;
    num_targets ← index rsp 0;
    if bool_decide (num_targets = 0) then mret None
    else
      rsp ← del0 rsp;
      target_id ← index rsp 0;
      rsp ← del0 rsp;
      let sense_res := slice_to 2 rsp in
      let rsp := del_slice_to 2 rsp in
      sel_res ← index rsp 0;
      log_debug "Got tag, SEL_RES is %02x" [sel_res];;
      rsp ← del0 rsp;
      nfcid_len ← index rsp 0;
      rsp ← del0 rsp;
      let nfcid := slice_to nfcid_len rsp in
      let rsp := del_slice_to nfcid_len rsp in
      ats_len ← index rsp 0;
      rsp ← del0 rsp;
      let ats := slice_to (ats_len - 1) rsp in
      mret (Some (mkTypeATag target_id sense_res sel_res nfcid ats)).

Definition poll_b : M P TypeBTag :=
  log_debug "Polling B" [];;
  frame ← construct_frame [Command.IN_LIST_PASSIVE_TARGET; 0x01; 0x03; 0x00];
  rsp ← send_frame frame (1 # 2);
  if falsy rsp then raise (RuntimeError "No response for send poll_b frame." [])
  else
    let rsp := default [] rsp in
    code ← index rsp 0;
    when (bool_decide (code ≠ Command.IN_LIST_PASSIVE_TARGET + 1))
         (log_error "Got unexpected command code in response" []);;
    rsp ← del0 rsp;
    afi ← index rsp 0;
    let deselect_command := 0xC2 in
    send_broadcast (replicate (Z.to_nat deselect_command) 0x00);;
    let wupb_command := [0x05; afi; 0x08] in
    frame ← construct_frame [Command.WRITE_REGISTER; 0x63; 0x3D; 0x00];
    send_frame frame (1 # 2);;
    payload ← lift (with_crc16a wupb_command);
    frame ← construct_frame (Command.IN_COMMUNICATE_THRU :: payload);
    rsp ← send_frame frame (1 # 2);
    if falsy rsp then raise (RuntimeError "No response for WUPB command" [])
    else mret (mkTypeBTag 0x03 (default [] rsp)).
End Protocol.

(** ** A buffered port

    The bytes the device has put on the line are [rx]; a read takes up to
    [size] of them.  Every write is recorded in [tx]. *)
Record BufferedPort : Type := mkBufferedPort {
  rx : list Z;
  tx : list (list Z);
  timeout : Q
}.

#[global] Instance BufferedPort_serial : SerialPort BufferedPort := {
  port_read size p :=
    (take (Z.to_nat size) (rx p),
     mkBufferedPort (drop (Z.to_nat size) (rx p)) (tx p) (timeout p));
  port_write data p := mkBufferedPort (rx p) (tx p ++ [data]) (timeout p);
  port_set_timeout t p := mkBufferedPort (rx p) (tx p) t
}.

(** A driver as [__init__] leaves its caches, on a port holding [bytes]. *)
Definition fresh (bytes : list Z) : PN532 BufferedPort :=
  mkPN532 (mkBufferedPort bytes [] (1 # 2)) ∅ ∅ [].

(** The frames on the wire that carry the host marker and command [cmd]. *)
Definition is_command_frame (cmd : Z) (frame : list Z) : bool :=
  bool_decide (frame !! 5%nat = Some 0xD4 ∧ frame !! 6%nat = Some cmd).

Definition commands_issued (cmd : Z) (s : PN532 BufferedPort) : nat :=
  length (List.filter (is_command_frame cmd) (tx (device s))).

(** The bytes of a constructed frame in closed form; [construct_frame_run]
    shows that these are the bytes the loop of [construct_frame] builds. *)
Definition frame_layout (data : list Z) : list Z :=
  [0x00; 0x00; 0xFF;
   (Z.of_nat (length data) + 1) mod 256;
   (- (Z.of_nat (length data) + 1)) mod 256;
   0xD4]
  ++ data ++ [(- (0xD4 + sum data)) mod 256; 0x00].

(** A driver whose cache holds the four mode registers, on a silent port. *)
Definition configured_silent : PN532 BufferedPort :=
  mkPN532 (mkBufferedPort [] [] (1 # 2))
          (list_to_map [(REG.TX_MODE, 0x80); (REG.RX_MODE, 0x80);
                        (REG.TX_AUTO, 0x40); (REG.BIT_FRAMING, 0x00)])
          ∅ [].

(** ** Tactics for the link transport *)

Ltac unfold_link :=
  cbv [send_frame get_device_response mbind M_bind mret M_ret raise when
       device_write device_set_timeout device_read log_error log_debug log_emit
       index index_opt del0];
  cbn [device register_cache rf_configuration_cache log fst snd].

Ltac simpl_state :=
  cbn [device register_cache rf_configuration_cache log fst snd].

(** Case analysis on every read, test and index of the parser. *)
Ltac split_link :=
  repeat first
    [ progress simpl_state
    | match goal with
      | |- context [port_read ?n ?d] =>
          let bs := fresh "bs" in
          let d' := fresh "d" in
          destruct (port_read n d) as [bs d'] eqn:?
      | |- context [bool_decide ?Q] => destruct (bool_decide Q) eqn:?
      | |- context [@lookup nat Z (list Z) _ ?i ?l] => destruct (l !! i) eqn:?
      end ].

Ltac close_log := eexists; rewrite <- ?app_assoc; reflexivity.

(** ** Firmware check, data exchange, field control *)

Definition _LONG_PREAMBLE : list Z := replicate 20 0x00.

Section Session.
Context {P : Type} `{SerialPort P}.

Definition verify_firmware_version : M P bool :=
  log_debug "Checking firmware version" [];;
  frame ← construct_frame [Command.GET_FIRMWARE_VERSION];
  rsp ← send_frame (_LONG_PREAMBLE ++ frame) (1 # 2);
  if falsy rsp then raise (RuntimeError "No response for GetFirmwareVersion" [])
  else
    let rsp := default [] rsp in
    code ← index rsp 0;
    if bool_decide (code ≠ Command.GET_FIRMWARE_VERSION + 1)
       || bool_decide (length rsp ≠ 5%nat)
    then log_error "Got unexpected response for GetFirmwareVersion" [];; mret false
    else
      version ← index rsp 1;
      mret (bool_decide (version = 0x32)).

Definition transceive (data : list Z) : M P (option (list Z)) :=
  log_debug "Transceive" [];;
  frame ← construct_frame (Command.IN_DATA_EXCHANGE :: data);
  rsp ← send_frame frame 5;
  if falsy rsp then mret None
  else
    let rsp := default [] rsp in
    code ← index rsp 0;
    when (bool_decide (code ≠ Command.IN_DATA_EXCHANGE + 1))
         (log_error "Got unexpected command code in response" []);;
    rsp ← del0 rsp;
    status ← index rsp 0;
    if bool_decide (status ≠ 0)
    then log_error "Got error exchanging data" [];; mret None
    else
      rsp ← del0 rsp;
      mret (Some rsp).

Definition mute : M P () :=
  log_debug "Muting" [];;
  rf_configuration RFConfigItem.RF_FIELD [0x02] false.

Definition unmute : M P () :=
  log_debug "Unmuting" [];;
  rf_configuration RFConfigItem.RF_FIELD [0x03] false.
End Session.

(** The frames the driver has written, the ACKs it wrote back left out. *)
Definition frames_sent (s : PN532 BufferedPort) : list (list Z) :=
  List.filter (fun frame => negb (bool_decide (frame = ACK))) (tx (device s)).

(** The bytes a device answers with during a type B poll that finds a
    target with AFI 0x01: to the poll, to each BIT_FRAMING write, to the
    broadcast and to WUPB. *)
Definition type_b_session : list Z :=
  ACK ++ [0x00; 0x00; 0xFF; 0x03; 0xFD; 0xD5; 0x4B; 0x01; 0xDF; 0x00]
  ++ ACK ++ [0x00; 0x00; 0xFF; 0x02; 0xFE; 0xD5; 0x09; 0x22; 0x00]
  ++ ACK ++ [0x00; 0x00; 0xFF; 0x03; 0xFD; 0xD5; 0x43; 0x00; 0xE8; 0x00]
  ++ ACK ++ [0x00; 0x00; 0xFF; 0x02; 0xFE; 0xD5; 0x09; 0x22; 0x00]
  ++ ACK ++ [0x00; 0x00; 0xFF; 0x03; 0xFD; 0xD5; 0x43; 0x00; 0xE8; 0x00].

(** * Properties *)

(** ** Running a method *)

Lemma run_bind {P A B} (m : M P A) (f : A -> M P B) (s : PN532 P) :
  (m ≫= f) s =
  match m s with
  | (Ok a, s') => f a s'
  | (Raise e, s') => (Raise e, s')
  end.
Proof. reflexivity. Qed.

Lemma run_bind_ok {P A B} (m : M P A) (f : A -> M P B) (s s' : PN532 P) (a : A) :
  m s = (Ok a, s') -> (m ≫= f) s = f a s'.
Proof. intros E. rewrite run_bind, E. reflexivity. Qed.

Lemma run_bind_raise {P A B} (m : M P A) (f : A -> M P B) (s s' : PN532 P) (e : exn) :
  m s = (Raise e, s') -> (m ≫= f) s = (Raise e, s').
Proof. intros E. rewrite run_bind, E. reflexivity. Qed.

(** ** Bytes and masks *)

Lemma is_byte_spec (b : Z) : is_byte b = true <-> 0 <= b < 256.
Proof. unfold is_byte. rewrite andb_true_iff, Z.leb_le, Z.ltb_lt. reflexivity. Qed.

Lemma land_255 (a : Z) : Z.land a 0xFF = a mod 256.
Proof. change 0xFF with (Z.ones 8). rewrite Z.land_ones by lia. reflexivity. Qed.

(** [((~a & 0xFF) + 1) & 0xFF] is the two's complement of [a] in a byte. *)
Lemma complement_byte (a : Z) :
  Z.land (Z.land (Z.lnot a) 0xFF + 0x01) 0xFF = (- a) mod 256.
Proof.
  rewrite !land_255. unfold Z.lnot. rewrite Zplus_mod_idemp_l.
  f_equal. unfold Z.pred. lia.
Qed.

Lemma complement_byte_cancels (a : Z) : ((- a) mod 256 + a) mod 256 = 0.
Proof. rewrite Zplus_mod_idemp_l. replace (- a + a) with 0 by lia. reflexivity. Qed.

Lemma forallb_is_byte (xs : list Z) :
  forallb is_byte xs = true <-> Forall (fun b => 0 <= b < 256) xs.
Proof.
  rewrite forallb_forall, Forall_forall.
  split; intros Hall b Hb.
  - apply is_byte_spec, Hall, list_elem_of_In, Hb.
  - apply is_byte_spec, Hall, list_elem_of_In, Hb.
Qed.

(** ** The layout of a constructed frame *)

Lemma frame_loop (data : list Z) (data_sum : Z) (frame : list Z) :
  fold_left (fun acc b => (fst acc + b, snd acc ++ [b])) data (data_sum, frame)
  = (data_sum + sum data, frame ++ data).
Proof.
  revert data_sum frame.
  induction data as [|b data IH]; intros data_sum frame; simpl.
  - rewrite Z.add_0_r, app_nil_r. reflexivity.
  - rewrite IH. simpl. rewrite <- app_assoc. simpl. f_equal. lia.
Qed.

Lemma frame_layout_bytes (data : list Z) :
  Forall (fun b => 0 <= b < 256) data ->
  forallb is_byte (frame_layout data) = true.
Proof.
  intros Hdata. apply forallb_is_byte. unfold frame_layout.
  repeat (apply Forall_cons; split; [try lia; apply Z.mod_pos_bound; lia|]).
  apply Forall_app; split; [exact Hdata|].
  repeat (apply Forall_cons; split; [try lia; apply Z.mod_pos_bound; lia|]).
  apply Forall_nil. exact I.
Qed.

Section FrameCodec.
Context {P : Type} `{SerialPort P}.

Lemma construct_frame_run (data : list Z) (s : PN532 P) :
  construct_frame data s =
  if forallb is_byte (frame_layout data)
  then (Ok (frame_layout data),
        mkPN532 (device s) (register_cache s) (rf_configuration_cache s)
                (log s ++ [LogRecord DEBUG "Constructed frame %s" (frame_layout data)]))
  else (Raise ValueError, s).
Proof.
  unfold construct_frame. rewrite frame_loop. cbv zeta.
  rewrite !complement_byte, land_255.
  assert (Hlayout :
    (([0x00; 0x00; 0xFF; (Z.of_nat (length data) + 1) mod 256;
       (- (Z.of_nat (length data) + 1)) mod 256; 0xD4] ++ data)
       ++ [(- (0xD4 + sum data)) mod 256]) ++ [0x00] = frame_layout data).
  { unfold frame_layout. rewrite <- !app_assoc. reflexivity. }
  rewrite Hlayout.
  destruct (forallb is_byte (frame_layout data)); reflexivity.
Qed.

Lemma construct_frame_ok (data : list Z) (s : PN532 P) :
  Forall (fun b => 0 <= b < 256) data ->
  construct_frame data s =
  (Ok (frame_layout data),
   mkPN532 (device s) (register_cache s) (rf_configuration_cache s)
           (log s ++ [LogRecord DEBUG "Constructed frame %s" (frame_layout data)])).
Proof.
  intros Hdata. rewrite construct_frame_run, frame_layout_bytes by exact Hdata.
  reflexivity.
Qed.
End FrameCodec.

(** ** Frame checksums and length byte *)

(** C7: for every payload of bytes, the frame [construct_frame] builds has a
    length checksum that cancels the length byte modulo 256, and a data
    checksum that cancels the host marker 0xD4 plus the sum of the payload
    modulo 256. *)
Theorem construct_frame_checksums {P : Type} `{SerialPort P}
    (p : list Z) (s : PN532 P) :
  Forall (fun b => 0 <= b < 256) p ->
  exists frame len lcs dcs,
    fst (construct_frame p s) = Ok frame /\
    frame !! 3%nat = Some len /\
    frame !! 4%nat = Some lcs /\
    frame !! (6 + length p)%nat = Some dcs /\
    (lcs + len) mod 256 = 0 /\
    (dcs + (0xD4 + sum p)) mod 256 = 0.
Proof.
  intros Hp. rewrite construct_frame_ok by exact Hp.
  exists (frame_layout p), ((Z.of_nat (length p) + 1) mod 256)%Z,
         ((- (Z.of_nat (length p) + 1)) mod 256)%Z, ((- (0xD4 + sum p)) mod 256)%Z.
  repeat split.
  - unfold frame_layout.
    rewrite app_assoc. apply list_lookup_middle.
    rewrite length_app. reflexivity.
  - rewrite Zplus_mod_idemp_r. apply complement_byte_cancels.
  - apply complement_byte_cancels.
Qed.

Lemma construct_frame_checksums_poll :
  exists frame len lcs dcs,
    fst (construct_frame [0x4A; 0x01; 0x00] (fresh [])) = Ok frame /\
    frame !! 3%nat = Some len /\
    frame !! 4%nat = Some lcs /\
    frame !! (6 + length [0x4A; 0x01; 0x00])%nat = Some dcs /\
    (lcs + len) mod 256 = 0 /\
    (dcs + (0xD4 + sum [0x4A; 0x01; 0x00])) mod 256 = 0.
Proof.
  apply (construct_frame_checksums [0x4A; 0x01; 0x00] (fresh [])).
  repeat (apply Forall_cons; split; [lia|]). apply Forall_nil. exact I.
Defined.

(** C8, as stated, fails on a payload of 255 bytes: the length byte is
    masked to eight bits and reads 0, not 256. *)
Lemma construct_frame_len_wraps :
  exists frame,
    fst (construct_frame (replicate 255 0x00) (fresh [])) = Ok frame /\
    frame !! 3%nat = Some 0 /\
    frame !! 3%nat <> Some (Z.of_nat (length (replicate 255 0x00)) + 1).
Proof.
  eexists. split; [vm_compute; reflexivity|].
  split; [reflexivity|]. vm_compute. discriminate.
Qed.

(** C8, amended: for every payload of bytes the length byte is
    [len(payload) + 1] reduced modulo 256; it equals [len(payload) + 1]
    for payloads of at most 254 bytes. *)
Theorem construct_frame_len {P : Type} `{SerialPort P} (p : list Z) (s : PN532 P) :
  Forall (fun b => 0 <= b < 256) p ->
  exists frame,
    fst (construct_frame p s) = Ok frame /\
    frame !! 3%nat = Some ((Z.of_nat (length p) + 1) mod 256) /\
    ((length p <= 254)%nat -> frame !! 3%nat = Some (Z.of_nat (length p) + 1)).
Proof.
  intros Hp. rewrite construct_frame_ok by exact Hp.
  exists (frame_layout p). repeat split.
  intros Hlen. simpl. rewrite Z.mod_small by lia. reflexivity.
Qed.

Lemma construct_frame_len_poll :
  exists frame,
    fst (construct_frame [0x4A; 0x01; 0x00] (fresh [])) = Ok frame /\
    frame !! 3%nat = Some ((Z.of_nat (length [0x4A; 0x01; 0x00]) + 1) mod 256) /\
    ((length [0x4A; 0x01; 0x00] <= 254)%nat ->
     frame !! 3%nat = Some (Z.of_nat (length [0x4A; 0x01; 0x00]) + 1)).
Proof.
  apply (construct_frame_len [0x4A; 0x01; 0x00] (fresh [])).
  repeat (apply Forall_cons; split; [lia|]). apply Forall_nil. exact I.
Defined.

(** ** Masked register updates *)

Lemma set_speed_keeps_other_bits (mode speed i : Z) :
  0 <= mode < 256 -> 0 <= speed < 8 -> 0 <= i -> ~ (4 <= i <= 6) ->
  Z.testbit (set_speed mode speed) i = Z.testbit mode i.
Proof.
  intros Hmode Hspeed Hi Hout. unfold set_speed.
  rewrite Z.lor_spec, Z.land_spec, Z.shiftl_spec by lia.
  destruct (decide (i < 4)) as [Hlow|Hhigh].
  - rewrite (Z.testbit_neg_r speed) by lia. rewrite orb_false_r.
    assert (Hcases : i = 0 \/ i = 1 \/ i = 2 \/ i = 3) by lia.
    destruct Hcases as [-> | [-> | [-> | ->]]]; simpl; apply andb_true_r.
  - assert (Hspeed_high : Z.testbit speed (i - 4) = false).
    { destruct (decide (speed = 0)) as [-> | Hnz]; [apply Z.bits_0|].
      apply Z.bits_above_log2; [lia|].
      assert (Z.log2 speed < 3) by (apply Z.log2_lt_pow2; lia). lia. }
    rewrite Hspeed_high, orb_false_r.
    destruct (decide (i = 7)) as [-> | Hne]; [simpl; apply andb_true_r|].
    assert (Hmode_high : Z.testbit mode i = false).
    { destruct (decide (mode = 0)) as [-> | Hnz]; [apply Z.bits_0|].
      apply Z.bits_above_log2; [lia|].
      assert (Z.log2 mode < 8) by (apply Z.log2_lt_pow2; lia). lia. }
    rewrite Hmode_high. reflexivity.
Qed.

(** C3, as stated, fails: the masked update of 0b10100101 with bit-rate
    field 0b001 is not 0b10011101, which would also flip bit 3. *)
Lemma set_speed_example_differs : set_speed 0xA5 0x01 <> 0x9D.
Proof. vm_compute. discriminate. Qed.

(** C3, amended: starting from TX_MODE = 0b10100101, setting the 3-bit
    bit-rate field to 0b001 gives 0b10010101; bits 4-6 hold the new field
    and every other bit is the one of the starting value. *)
Theorem set_speed_example :
  set_speed 0xA5 0x01 = 0x95 /\
  Z.land (Z.shiftr (set_speed 0xA5 0x01) 4) 0x07 = 0x01 /\
  forall i, 0 <= i -> ~ (4 <= i <= 6) ->
            Z.testbit (set_speed 0xA5 0x01) i = Z.testbit 0xA5 i.
Proof.
  split; [reflexivity|]. split; [reflexivity|].
  intros i Hi Hout. apply set_speed_keeps_other_bits; lia.
Qed.

Lemma set_speed_example_bit3 :
  Z.testbit (set_speed 0xA5 0x01) 3 = Z.testbit 0xA5 3.
Proof.
  apply (proj2 (proj2 set_speed_example) 3); lia.
Defined.

(** ** Timeout index *)

Lemma find_first {A : Type} (p : A -> bool) (l : list A) (x : A) :
  List.find p l = Some x ->
  exists i : nat,
    l !! i = Some x /\ p x = true /\
    forall (j : nat) (y : A), (j < i)%nat -> l !! j = Some y -> p y = false.
Proof.
  induction l as [|a l IH]; simpl; [discriminate|].
  destruct (p a) eqn:Ha.
  - intros [= ->]. exists 0%nat. repeat split; [exact Ha|]. intros j y Hj. lia.
  - intros Hfind. destruct (IH Hfind) as (i & Hi & Hx & Hbefore).
    exists (S i). repeat split; [exact Hi|exact Hx|].
    intros [|j] y Hj; simpl.
    + intros [= <-]. exact Ha.
    + apply Hbefore. lia.
Qed.

Lemma find_nowhere {A : Type} (p : A -> bool) (l : list A) :
  List.find p l = None ->
  forall (j : nat) (y : A), l !! j = Some y -> p y = false.
Proof.
  induction l as [|a l IH]; simpl; [intros _ j y; rewrite lookup_nil; discriminate|].
  destruct (p a) eqn:Ha; [discriminate|].
  intros Hfind [|j] y; simpl.
  - intros [= <-]. exact Ha.
  - apply IH, Hfind.
Qed.

(** The table holds the entries n = 1 .. 15. *)
Lemma _TIMEOUT_lookup (i : nat) :
  (i < 15)%nat ->
  _TIMEOUT !! i = Some (Z.of_nat i + 1, 100 * 2 ^ Z.of_nat i).
Proof.
  intros Hi. unfold _TIMEOUT.
  change (map ?f ?l) with (f <$> l). rewrite list_lookup_fmap.
  rewrite lookup_seqZ_lt by lia. simpl.
  replace (1 + Z.of_nat i - 1) with (Z.of_nat i) by lia.
  replace (1 + Z.of_nat i) with (Z.of_nat i + 1) by lia.
  reflexivity.
Qed.

Lemma _TIMEOUT_length : length _TIMEOUT = 15%nat.
Proof. reflexivity. Qed.

(** C4, as stated, fails at the double nearest 0.0001 s.  Its value is a
    little above 1/10000, so the timeout in microseconds exceeds the table
    value 100 of index 1 and the least n with 100 * 2^(n-1) >= t * 10^6 is
    2; the code compares with the product rounded to the double 100.0 and
    selects index 1. *)
Lemma timeout_index_rounds_product :
  valid_binary 53 1024 float_0_0001 = true /\
  number_value (PyFloat float_0_0001)
  = Some (7378697629483821 # 73786976294838206464) /\
  ~ ((7378697629483821 # 73786976294838206464) * 1000000
     <= inject_Z (100 * 2 ^ (1 - 1)))%Q /\
  ((7378697629483821 # 73786976294838206464) * 1000000
   <= inject_Z (100 * 2 ^ (2 - 1)))%Q /\
  number_mul_int (PyFloat float_0_0001) 1000000 = PyFloat (float_of_int 100) /\
  timeout_index (PyFloat float_0_0001) = 1.
Proof.
  split; [reflexivity|]. split; [reflexivity|].
  split; [intros Hle; vm_compute in Hle; apply Hle; reflexivity|].
  split; [vm_compute; discriminate|].
  split; reflexivity.
Qed.

(** C4, amended: for every timeout [t], a Python int or float, the index
    [transceive_raw] selects lies in 1..16; it is the least n in 1..16
    whose table value 100 * 2^(n-1) is at least the product [t * 1000000]
    as the code computes it (the exact integer for an int, the product
    rounded to the nearest double for a float), and it is 16 when there is
    no such n, as for a NaN.  For an int [z] the comparison is the exact
    one, z * 10^6 <= 100 * 2^(n-1).  The float 0.00005 selects 1, the float
    5.0 and the int 5 select 16. *)
Theorem timeout_index_least (t : number) :
  1 <= timeout_index t <= 16 /\
  (forall m : Z,
      1 <= m <= 16 ->
      int_ge (100 * 2 ^ (m - 1)) (number_mul_int t 1000000) = true ->
      timeout_index t <= m /\
      int_ge (100 * 2 ^ (timeout_index t - 1)) (number_mul_int t 1000000) = true) /\
  ((forall m : Z,
       1 <= m <= 16 -> int_ge (100 * 2 ^ (m - 1)) (number_mul_int t 1000000) = false) ->
   timeout_index t = 16) /\
  (forall z m : Z,
      t = PyInt z ->
      int_ge (100 * 2 ^ (m - 1)) (number_mul_int t 1000000) = true <->
      z * 1000000 <= 100 * 2 ^ (m - 1)) /\
  timeout_index (PyFloat float_0_00005) = 1 /\
  timeout_index (PyFloat float_5_0) = 16 /\
  timeout_index (PyInt 5) = 16 /\
  timeout_index (PyFloat S754_nan) = 16.
Proof.
  assert (Hint : forall z m : Z,
             t = PyInt z ->
             int_ge (100 * 2 ^ (m - 1)) (number_mul_int t 1000000) = true <->
             z * 1000000 <= 100 * 2 ^ (m - 1)).
  { intros z m ->. simpl. apply Z.leb_le. }
  assert (Hexamples : timeout_index (PyFloat float_0_00005) = 1 /\
                      timeout_index (PyFloat float_5_0) = 16 /\
                      timeout_index (PyInt 5) = 16 /\
                      timeout_index (PyFloat S754_nan) = 16).
  { repeat split; reflexivity. }
  unfold timeout_index at 1 2 3 4 5.
  destruct (List.find (fun it => int_ge (snd it) (number_mul_int t 1000000)) _TIMEOUT)
    as [it|] eqn:Hfind.
  - apply find_first in Hfind as (i & Hi & Hfits & Hbefore).
    assert (Hlt : (i < 15)%nat).
    { rewrite <- _TIMEOUT_length. eapply lookup_lt_Some, Hi. }
    rewrite _TIMEOUT_lookup in Hi by exact Hlt. injection Hi as <-.
    cbn [fst snd] in Hfits |- *.
    replace (Z.of_nat i + 1 - 1) with (Z.of_nat i) by lia.
    split; [lia|]. split; [|split; [|split; [exact Hint|exact Hexamples]]].
    + intros m Hm Hge. split; [|exact Hfits].
      destruct (decide (Z.of_nat i + 1 <= m)) as [Hok|Hsmall]; [exact Hok|].
      exfalso.
      assert (Hj : (Z.to_nat (m - 1) < i)%nat) by lia.
      assert (Hj15 : (Z.to_nat (m - 1) < 15)%nat) by lia.
      assert (Hfalse := Hbefore _ _ Hj (_TIMEOUT_lookup _ Hj15)).
      cbn [fst snd] in Hfalse. rewrite Z2Nat.id in Hfalse by lia.
      congruence.
    + intros Hnone. exfalso.
      assert (Hi1 : 1 <= Z.of_nat i + 1 <= 16) by lia.
      assert (Hfalse := Hnone (Z.of_nat i + 1) Hi1).
      replace (Z.of_nat i + 1 - 1) with (Z.of_nat i) in Hfalse by lia.
      congruence.
  - split; [lia|]. split; [|split; [|split; [exact Hint|exact Hexamples]]].
    + intros m Hm Hge.
      destruct (decide (m = 16)) as [-> | Hne]; [split; [lia|exact Hge]|].
      exfalso.
      assert (Hj15 : (Z.to_nat (m - 1) < 15)%nat) by lia.
      assert (Hfalse := find_nowhere _ _ Hfind _ _ (_TIMEOUT_lookup _ Hj15)).
      cbn [fst snd] in Hfalse. rewrite Z2Nat.id in Hfalse by lia.
      congruence.
    + reflexivity.
Qed.

Lemma timeout_index_one_second :
  timeout_index (PyInt 1) <= 15 /\
  int_ge (100 * 2 ^ (timeout_index (PyInt 1) - 1)) (number_mul_int (PyInt 1) 1000000) = true.
Proof.
  apply (proj1 (proj2 (timeout_index_least (PyInt 1))) 15); [lia|].
  reflexivity.
Defined.

(** ** Link transport *)


Section Link.
Context {P : Type} `{SerialPort P}.

(** What the parser returns, and the port it leaves, depend on the port
    alone: not on the caches, not on the log. *)
Lemma get_device_response_device (t : Q) (s s' : PN532 P) :
  device s = device s' ->
  fst (get_device_response t s) = fst (get_device_response t s') /\
  device (snd (get_device_response t s)) = device (snd (get_device_response t s')).
Proof.
  destruct s as [d rc rfc l], s' as [d' rc' rfc' l']. simpl. intros <-.
  unfold_link. split_link; split; reflexivity.
Qed.

Lemma send_frame_device (frame : list Z) (t : Q) (s s' : PN532 P) :
  device s = device s' ->
  fst (send_frame frame t s) = fst (send_frame frame t s') /\
  device (snd (send_frame frame t s)) = device (snd (send_frame frame t s')).
Proof.
  intros Hdev. unfold send_frame. rewrite !run_bind.
  unfold device_write. apply get_device_response_device. simpl. congruence.
Qed.

(** The parser touches neither cache. *)
Lemma get_device_response_caches (t : Q) (s : PN532 P) :
  register_cache (snd (get_device_response t s)) = register_cache s /\
  rf_configuration_cache (snd (get_device_response t s)) = rf_configuration_cache s.
Proof.
  destruct s as [d rc rfc l]. unfold_link. split_link; split; reflexivity.
Qed.

Lemma send_frame_caches (frame : list Z) (t : Q) (s : PN532 P) :
  register_cache (snd (send_frame frame t s)) = register_cache s /\
  rf_configuration_cache (snd (send_frame frame t s)) = rf_configuration_cache s.
Proof.
  unfold send_frame. rewrite run_bind. unfold device_write.
  apply (get_device_response_caches t
           (mkPN532 (port_write frame (device s)) (register_cache s)
                    (rf_configuration_cache s) (log s))).
Qed.

(** The path on which a frame is accepted. *)
Lemma get_device_response_success (t : Q) (s : PN532 P)
    (ack frame pkt cs pa : list Z) (d1 d2 d3 d4 d5 : P)
    (data_len length_checksum data_checksum postamble : Z) :
  port_read 6 (port_set_timeout t (device s)) = (ack, d1) ->
  ack <> [] ->
  port_read 6 d1 = (frame, d2) ->
  frame !! 3%nat = Some data_len ->
  frame !! 4%nat = Some length_checksum ->
  frame !! 5%nat = Some 0xD5 ->
  (length_checksum + data_len) mod 256 = 0 ->
  port_read (data_len - 1) d2 = (pkt, d3) ->
  port_read 1 d3 = (cs, d4) ->
  cs !! 0%nat = Some data_checksum ->
  port_read 1 d4 = (pa, d5) ->
  pa !! 0%nat = Some postamble ->
  exists l,
    get_device_response t s =
    (Ok (Some pkt),
     mkPN532 (port_write ACK (port_set_timeout (1 # 2) d5))
             (register_cache s) (rf_configuration_cache s) (log s ++ l)).
Proof.
  intros Hack Hne Hframe H3 H4 H5 Hsum Hpkt Hcs Hdcs Hpa Hpost.
  destruct s as [d rc rfc l]. simpl in Hack.
  unfold_link. rewrite Hack.
  rewrite (bool_decide_false (length ack = 0%nat))
    by (destruct ack; [contradiction|discriminate]).
  simpl_state.
  destruct (bool_decide (ack ≠ ACK)); simpl_state; rewrite Hframe;
    (rewrite (bool_decide_false (length frame = 0%nat))
      by (destruct frame; discriminate));
    (destruct (bool_decide (take 3 frame ≠ [0; 0; 255])); simpl_state;
     rewrite H3, H4, H5; simpl_state;
     rewrite land_255, Hsum;
     rewrite (bool_decide_false (0 ≠ 0)) by congruence;
     rewrite (bool_decide_false (0xD5 ≠ 0xD5)) by congruence;
     simpl_state; rewrite Hpkt; simpl_state; rewrite Hcs; simpl_state;
     rewrite Hdcs;
     (destruct (bool_decide (Z.land (0xD5 + sum pkt + data_checksum) 0xFF ≠ 0));
      simpl_state; rewrite Hpa; simpl_state; rewrite Hpost;
      rewrite andb_false_r; simpl_state; close_log)).
Qed.

(** No byte within the timeout: no response. *)
Lemma get_device_response_silent (t : Q) (s : PN532 P) :
  fst (port_read 6 (port_set_timeout t (device s))) = [] ->
  fst (get_device_response t s) = Ok None.
Proof.
  intros Hsilent. destruct s as [d rc rfc l]. simpl in Hsilent.
  unfold_link. destruct (port_read 6 _) as [ack d1].
  simpl in Hsilent. subst ack. reflexivity.
Qed.
End Link.

(** ** Length checksum *)

(** C6, as stated, fails: on a response head whose length checksum is wrong
    (2 + 0xFF is 1 modulo 256) the parser stops and returns [None]; the
    payload [0x03], its valid checksum and the postamble stay unread and no
    ACK is written.  With the right checksum 0xFE the same bytes parse. *)
Lemma length_checksum_failure_aborts_example :
  let bad := fresh (ACK ++ [0x00; 0x00; 0xFF; 0x02; 0xFF; 0xD5; 0x03; 0x28; 0x00]) in
  let good := fresh (ACK ++ [0x00; 0x00; 0xFF; 0x02; 0xFE; 0xD5; 0x03; 0x28; 0x00]) in
  fst (get_device_response (1 # 2) good) = Ok (Some [0x03]) /\
  fst (get_device_response (1 # 2) bad) = Ok None /\
  fst (get_device_response (1 # 2) bad) <> Ok (Some [0x03]) /\
  rx (device (snd (get_device_response (1 # 2) bad))) = [0x03; 0x28; 0x00] /\
  tx (device (snd (get_device_response (1 # 2) bad))) = [].
Proof.
  repeat split; try reflexivity. vm_compute. discriminate.
Qed.

(** C6, amended: during response parsing a length-checksum failure (length
    byte plus length-checksum byte not 0 modulo 256) raises nothing; it is
    logged and it ends the parse: [get_device_response] returns [None]
    having read only the six bytes of the head, and writes no ACK. *)
Theorem length_checksum_failure_aborts {P : Type} `{SerialPort P}
    (t : Q) (s : PN532 P) (ack frame : list Z) (d1 d2 : P)
    (data_len length_checksum : Z) :
  port_read 6 (port_set_timeout t (device s)) = (ack, d1) ->
  ack <> [] ->
  port_read 6 d1 = (frame, d2) ->
  frame !! 3%nat = Some data_len ->
  frame !! 4%nat = Some length_checksum ->
  (length_checksum + data_len) mod 256 <> 0 ->
  exists l,
    get_device_response t s =
    (Ok None,
     mkPN532 d2 (register_cache s) (rf_configuration_cache s)
             (log s ++ l ++ [LogRecord ERROR "Frame failed length checksum" []])).
Proof.
  intros Hack Hne Hframe H3 H4 Hsum.
  destruct s as [d rc rfc l]. simpl in Hack.
  unfold_link. rewrite Hack.
  rewrite (bool_decide_false (length ack = 0%nat))
    by (destruct ack; [contradiction|discriminate]).
  simpl_state.
  destruct (bool_decide (ack ≠ ACK)); simpl_state; rewrite Hframe;
    (rewrite (bool_decide_false (length frame = 0%nat))
      by (destruct frame; discriminate));
    (destruct (bool_decide (take 3 frame ≠ [0; 0; 255])); simpl_state;
     rewrite H3, H4; simpl_state;
     rewrite land_255;
     rewrite (bool_decide_true ((length_checksum + data_len) mod 256 ≠ 0)) by exact Hsum;
     simpl_state).
  - exists [LogRecord ERROR "Did not get ACK frame, got %s" ack;
            LogRecord ERROR "Unexpected start to frame, got %s" (take 3 frame)].
    rewrite <- !app_assoc. reflexivity.
  - exists [LogRecord ERROR "Did not get ACK frame, got %s" ack].
    rewrite <- !app_assoc. reflexivity.
  - exists [LogRecord ERROR "Unexpected start to frame, got %s" (take 3 frame)].
    rewrite <- !app_assoc. reflexivity.
  - exists []. reflexivity.
Qed.

Lemma length_checksum_failure_on_bad_head :
  exists l,
    get_device_response (1 # 2)
      (fresh (ACK ++ [0x00; 0x00; 0xFF; 0x02; 0xFF; 0xD5; 0x03; 0x28; 0x00])) =
    (Ok None,
     mkPN532 (mkBufferedPort [0x03; 0x28; 0x00] [] (1 # 2)) ∅ ∅
             ([] ++ l ++ [LogRecord ERROR "Frame failed length checksum" []])).
Proof.
  apply (length_checksum_failure_aborts (1 # 2)
           (fresh (ACK ++ [0x00; 0x00; 0xFF; 0x02; 0xFF; 0xD5; 0x03; 0x28; 0x00]))
           ACK [0x00; 0x00; 0xFF; 0x02; 0xFF; 0xD5]
           (mkBufferedPort [0x00; 0x00; 0xFF; 0x02; 0xFF; 0xD5; 0x03; 0x28; 0x00] [] (1 # 2))
           (mkBufferedPort [0x03; 0x28; 0x00] [] (1 # 2))
           0x02 0xFF).
  - reflexivity.
  - discriminate.
  - reflexivity.
  - reflexivity.
  - reflexivity.
  - vm_compute. discriminate.
Defined.

(** ** Round trip through the frame codec *)

Section Marker.
Context {P : Type} `{SerialPort P}.

(** A head whose marker is not the device marker 0xD5 ends the parse. *)
Lemma get_device_response_other_marker (t : Q) (s : PN532 P)
    (ack frame : list Z) (d1 d2 : P) (data_len length_checksum tfi : Z) :
  port_read 6 (port_set_timeout t (device s)) = (ack, d1) ->
  ack <> [] ->
  port_read 6 d1 = (frame, d2) ->
  frame !! 3%nat = Some data_len ->
  frame !! 4%nat = Some length_checksum ->
  frame !! 5%nat = Some tfi ->
  (length_checksum + data_len) mod 256 = 0 ->
  tfi <> 0xD5 ->
  fst (get_device_response t s) = Ok None /\
  device (snd (get_device_response t s)) = d2.
Proof.
  intros Hack Hne Hframe H3 H4 H5 Hsum Htfi.
  destruct s as [d rc rfc l]. simpl in Hack.
  unfold_link. rewrite Hack.
  rewrite (bool_decide_false (length ack = 0%nat))
    by (destruct ack; [contradiction|discriminate]).
  simpl_state.
  destruct (bool_decide (ack ≠ ACK)); simpl_state; rewrite Hframe;
    (rewrite (bool_decide_false (length frame = 0%nat))
      by (destruct frame; discriminate));
    (destruct (bool_decide (take 3 frame ≠ [0; 0; 255])); simpl_state;
     rewrite H3, H4, H5; simpl_state;
     rewrite land_255, Hsum;
     rewrite (bool_decide_false (0 ≠ 0)) by congruence;
     rewrite (bool_decide_true (tfi ≠ 0xD5)) by exact Htfi;
     simpl_state; split; reflexivity).
Qed.
End Marker.

Lemma buffered_read (size : Z) (bytes : list Z) (txs : list (list Z)) (to : Q) :
  port_read size (mkBufferedPort bytes txs to) =
  (take (Z.to_nat size) bytes, mkBufferedPort (drop (Z.to_nat size) bytes) txs to).
Proof. reflexivity. Qed.

(** C1, as stated, fails: the bytes [construct_frame] builds for the
    payload [0x02] do not parse back to it.  Fed as they are, the first six
    are taken for the ACK and the head read runs short ([IndexError]); fed
    after an ACK, the frame is refused for its host marker 0xD4. *)
Lemma construct_frame_does_not_parse_back :
  exists frame,
    fst (construct_frame [0x02] (fresh [])) = Ok frame /\
    fst (get_device_response (1 # 2) (fresh frame)) = Raise IndexError /\
    fst (get_device_response (1 # 2) (fresh (ACK ++ frame))) = Ok None /\
    fst (get_device_response (1 # 2) (fresh frame)) <> Ok (Some [0x02]) /\
    fst (get_device_response (1 # 2) (fresh (ACK ++ frame))) <> Ok (Some [0x02]).
Proof.
  exists [0x00; 0x00; 0xFF; 0x02; 0xFE; 0xD4; 0x02; 0x2A; 0x00].
  repeat split; try reflexivity; vm_compute; discriminate.
Qed.

(** C1, amended: for every payload of 1 to 250 bytes, the response parser
    fed an ACK followed by the frame [construct_frame] builds for that
    payload, with the host marker 0xD4 replaced by the device marker 0xD5,
    returns exactly that payload, consumes exactly these bytes and writes
    the ACK back; fed the frame as built, it returns [None]. *)
Theorem frame_roundtrip_with_device_marker
    (p rest frame : list Z) (t to : Q) (txs : list (list Z))
    (rc : gmap Z Z) (rfc : gmap Z (list Z)) (l : list log_record) :
  let on bytes := mkPN532 (mkBufferedPort bytes txs to) rc rfc l in
  Forall (fun b => 0 <= b < 256) p ->
  (1 <= length p <= 250)%nat ->
  fst (construct_frame p (on [])) = Ok frame ->
  (fst (get_device_response t (on (ACK ++ <[5%nat := 0xD5]> frame ++ rest))) = Ok (Some p) /\
   device (snd (get_device_response t (on (ACK ++ <[5%nat := 0xD5]> frame ++ rest))))
   = mkBufferedPort rest (txs ++ [ACK]) (1 # 2)) /\
  fst (get_device_response t (on (ACK ++ frame ++ rest))) = Ok None.
Proof.
  intros on Hp Hlen Hframe.
  rewrite construct_frame_ok in Hframe by exact Hp.
  injection Hframe as <-.
  assert (Hmod : (Z.of_nat (length p) + 1) mod 256 = Z.of_nat (length p) + 1)
    by (apply Z.mod_small; lia).
  split.
  - destruct (get_device_response_success t
               (on (ACK ++ <[5%nat := 0xD5]> (frame_layout p) ++ rest))
               ACK
               [0x00; 0x00; 0xFF; (Z.of_nat (length p) + 1) mod 256;
                (- (Z.of_nat (length p) + 1)) mod 256; 0xD5]
               p [(- (0xD4 + sum p)) mod 256] [0x00]
               (mkBufferedPort (<[5%nat := 0xD5]> (frame_layout p) ++ rest) txs t)
               (mkBufferedPort (p ++ [(- (0xD4 + sum p)) mod 256; 0x00] ++ rest) txs t)
               (mkBufferedPort ([(- (0xD4 + sum p)) mod 256; 0x00] ++ rest) txs t)
               (mkBufferedPort ([0x00] ++ rest) txs t)
               (mkBufferedPort rest txs t)
               ((Z.of_nat (length p) + 1) mod 256)
               ((- (Z.of_nat (length p) + 1)) mod 256)
               ((- (0xD4 + sum p)) mod 256) 0x00) as [l' Hrun].
    + reflexivity.
    + discriminate.
    + unfold frame_layout. simpl. rewrite <- app_assoc. reflexivity.
    + reflexivity.
    + reflexivity.
    + reflexivity.
    + rewrite Zplus_mod_idemp_r. apply complement_byte_cancels.
    + rewrite buffered_read, Hmod.
      replace (Z.to_nat (Z.of_nat (length p) + 1 - 1)) with (length p) by lia.
      rewrite take_app_length, drop_app_length. reflexivity.
    + reflexivity.
    + reflexivity.
    + reflexivity.
    + reflexivity.
    + rewrite Hrun. split; reflexivity.
  - apply (get_device_response_other_marker t
             (on (ACK ++ frame_layout p ++ rest))
             ACK
             [0x00; 0x00; 0xFF; (Z.of_nat (length p) + 1) mod 256;
              (- (Z.of_nat (length p) + 1)) mod 256; 0xD4]
             (mkBufferedPort (frame_layout p ++ rest) txs t)
             (mkBufferedPort (p ++ [(- (0xD4 + sum p)) mod 256; 0x00] ++ rest) txs t)
             ((Z.of_nat (length p) + 1) mod 256)
             ((- (Z.of_nat (length p) + 1)) mod 256) 0xD4).
    + reflexivity.
    + discriminate.
    + unfold frame_layout. simpl. rewrite <- app_assoc. reflexivity.
    + reflexivity.
    + reflexivity.
    + reflexivity.
    + rewrite Zplus_mod_idemp_r. apply complement_byte_cancels.
    + discriminate.
Qed.

Lemma frame_roundtrip_firmware_version :
  (fst (get_device_response (1 # 2)
          (fresh (ACK ++ <[5%nat := 0xD5]> [0x00; 0x00; 0xFF; 0x02; 0xFE; 0xD4; 0x02; 0x2A; 0x00]
                      ++ []))) = Ok (Some [0x02]) /\
   device (snd (get_device_response (1 # 2)
          (fresh (ACK ++ <[5%nat := 0xD5]> [0x00; 0x00; 0xFF; 0x02; 0xFE; 0xD4; 0x02; 0x2A; 0x00]
                      ++ []))))
   = mkBufferedPort [] ([] ++ [ACK]) (1 # 2)) /\
  fst (get_device_response (1 # 2)
         (fresh (ACK ++ [0x00; 0x00; 0xFF; 0x02; 0xFE; 0xD4; 0x02; 0x2A; 0x00] ++ [])))
  = Ok None.
Proof.
  apply (frame_roundtrip_with_device_marker [0x02] []
           [0x00; 0x00; 0xFF; 0x02; 0xFE; 0xD4; 0x02; 0x2A; 0x00]
           (1 # 2) (1 # 2) [] ∅ ∅ []).
  - repeat (apply Forall_cons; split; [lia|]). apply Forall_nil. exact I.
  - simpl. lia.
  - reflexivity.
Defined.

(** ** Commands without a response *)

Section NoResponse.
Context {P : Type} `{SerialPort P}.

Lemma construct_frame_inv (data frame : list Z) (s : PN532 P) :
  fst (construct_frame data s) = Ok frame ->
  exists s1,
    construct_frame data s = (Ok frame, s1) /\
    frame = frame_layout data /\
    device s1 = device s /\
    register_cache s1 = register_cache s /\
    rf_configuration_cache s1 = rf_configuration_cache s.
Proof.
  rewrite construct_frame_run.
  destruct (forallb is_byte (frame_layout data)); simpl; [|discriminate].
  intros [= <-]. eexists. repeat split.
Qed.

(** Sending on a driver that differs only in its log or caches. *)
Lemma send_frame_none (frame : list Z) (t : Q) (s s1 : PN532 P) :
  device s1 = device s ->
  fst (send_frame frame t s) = Ok None ->
  exists s2, send_frame frame t s1 = (Ok None, s2).
Proof.
  intros Hdev Hnone.
  destruct (send_frame_device frame t s1 s Hdev) as [Hfst _].
  rewrite Hnone in Hfst.
  destruct (send_frame frame t s1) as [r s2]. simpl in Hfst. subst r.
  exists s2. reflexivity.
Qed.

Lemma execute_command_none (command : Z) (data frame : list Z) (t : Q)
    (s : PN532 P) :
  fst (construct_frame (command :: data) s) = Ok frame ->
  fst (send_frame frame t s) = Ok None ->
  exists s2, execute_command command data t s = (Ok None, s2).
Proof.
  intros Hframe Hnone.
  destruct (construct_frame_inv _ _ _ Hframe) as (s1 & Hrun & _ & Hdev & _).
  destruct (send_frame_none frame t s s1 Hdev Hnone) as [s2 Hsend].
  exists s2. unfold execute_command.
  rewrite (run_bind_ok _ _ _ _ _ Hrun), (run_bind_ok _ _ _ _ _ Hsend).
  reflexivity.
Qed.
End NoResponse.

(** C2, as stated, fails: on a port that returns nothing the two polls do
    not complete with a "no target" outcome, they raise [RuntimeError]. *)
Lemma poll_without_response_raises :
  fst (poll_a (fresh [])) = Raise (RuntimeError "No response for send poll_a frame." []) /\
  fst (poll_b (fresh [])) = Raise (RuntimeError "No response for send poll_b frame." []) /\
  fst (poll_a (fresh [])) <> Ok None.
Proof.
  repeat split; try reflexivity. vm_compute. discriminate.
Qed.

(** C2, amended: when the transport returns no response frame to the poll
    command, [poll_a] and [poll_b] raise [RuntimeError] ("No response for
    send poll_a frame." / "... poll_b frame."); [poll_a] completes normally
    with the "no target" outcome [None] when the response frame reports
    zero targets. *)
Theorem poll_without_response {P : Type} `{SerialPort P} (s : PN532 P) :
  (forall frame,
      fst (construct_frame [Command.IN_LIST_PASSIVE_TARGET; 0x01; 0x00] s) = Ok frame ->
      fst (send_frame frame (1 # 2) s) = Ok None ->
      fst (poll_a s) = Raise (RuntimeError "No response for send poll_a frame." [])) /\
  (forall frame,
      fst (construct_frame [Command.IN_LIST_PASSIVE_TARGET; 0x01; 0x03; 0x00] s) = Ok frame ->
      fst (send_frame frame (1 # 2) s) = Ok None ->
      fst (poll_b s) = Raise (RuntimeError "No response for send poll_b frame." [])) /\
  (forall frame code rest,
      fst (construct_frame [Command.IN_LIST_PASSIVE_TARGET; 0x01; 0x00] s) = Ok frame ->
      fst (send_frame frame (1 # 2) s) = Ok (Some (code :: 0 :: rest)) ->
      fst (poll_a s) = Ok None).
Proof.
  split; [|split].
  - intros frame Hframe Hnone.
    set (s0 := snd (log_debug "Polling A" [] s)).
    assert (Hframe0 : fst (construct_frame [Command.IN_LIST_PASSIVE_TARGET; 0x01; 0x00] s0)
                      = Ok frame).
    { rewrite construct_frame_run in *. exact Hframe. }
    destruct (construct_frame_inv _ _ _ Hframe0) as (s1 & Hrun & _ & Hdev & _).
    destruct (send_frame_none frame (1 # 2) s s1 Hdev Hnone) as [s2 Hsend].
    unfold poll_a.
    rewrite (run_bind_ok (log_debug "Polling A" []) _ s s0 () eq_refl).
    rewrite (run_bind_ok _ _ _ _ _ Hrun), (run_bind_ok _ _ _ _ _ Hsend).
    reflexivity.
  - intros frame Hframe Hnone.
    set (s0 := snd (log_debug "Polling B" [] s)).
    assert (Hframe0 :
      fst (construct_frame [Command.IN_LIST_PASSIVE_TARGET; 0x01; 0x03; 0x00] s0) = Ok frame).
    { rewrite construct_frame_run in *. exact Hframe. }
    destruct (construct_frame_inv _ _ _ Hframe0) as (s1 & Hrun & _ & Hdev & _).
    destruct (send_frame_none frame (1 # 2) s s1 Hdev Hnone) as [s2 Hsend].
    unfold poll_b.
    rewrite (run_bind_ok (log_debug "Polling B" []) _ s s0 () eq_refl).
    rewrite (run_bind_ok _ _ _ _ _ Hrun), (run_bind_ok _ _ _ _ _ Hsend).
    reflexivity.
  - intros frame code rest Hframe Hsome.
    set (s0 := snd (log_debug "Polling A" [] s)).
    assert (Hframe0 : fst (construct_frame [Command.IN_LIST_PASSIVE_TARGET; 0x01; 0x00] s0)
                      = Ok frame).
    { rewrite construct_frame_run in *. exact Hframe. }
    destruct (construct_frame_inv _ _ _ Hframe0) as (s1 & Hrun & _ & Hdev & _).
    destruct (send_frame_device frame (1 # 2) s1 s Hdev) as [Hfst _].
    rewrite Hsome in Hfst.
    destruct (send_frame frame (1 # 2) s1) as [r s2] eqn:Hsend.
    simpl in Hfst. subst r.
    unfold poll_a.
    rewrite (run_bind_ok (log_debug "Polling A" []) _ s s0 () eq_refl).
    rewrite (run_bind_ok _ _ _ _ _ Hrun), (run_bind_ok _ _ _ _ _ Hsend).
    cbv [falsy default id index del0 when mbind M_bind mret M_ret raise
         log_error log_emit lookup list_lookup].
    destruct (bool_decide (code ≠ Command.IN_LIST_PASSIVE_TARGET + 1)); reflexivity.
Qed.

Lemma poll_without_response_fresh :
  fst (poll_a (fresh [])) = Raise (RuntimeError "No response for send poll_a frame." []).
Proof.
  apply (proj1 (poll_without_response (fresh []))
               [0x00; 0x00; 0xFF; 0x04; 0xFC; 0xD4; 0x4A; 0x01; 0x00; 0xE1; 0x00]).
  - reflexivity.
  - reflexivity.
Defined.

(** ** Register reads and the raw exchange without a response *)

(** C10: in [read_registers], when the registers are not served from the
    cache and the device returns no response to READ_REGISTER, the failure
    branch evaluates the undefined name [args]: the call raises [NameError],
    not the [RuntimeError] whose message it was formatting. *)
Theorem read_registers_no_response {P : Type} `{SerialPort P}
    (registers data frame : list Z) (cache : bool) (s : PN532 P) :
  cache = false \/ all_in_cache (register_cache s) registers = Ok false ->
  join_pack_H registers = Ok data ->
  fst (construct_frame (Command.READ_REGISTER :: data) s) = Ok frame ->
  fst (send_frame frame (1 # 2) s) = Ok None ->
  fst (read_registers registers cache s) = Raise (NameError "args").
Proof.
  intros Hmiss Hdata Hframe Hnone.
  destruct (execute_command_none _ _ _ _ _ Hframe Hnone) as [s2 Hexec].
  unfold read_registers.
  rewrite (run_bind_ok get_register_cache _ s s (register_cache s) eq_refl).
  assert (Hhit : (if cache then lift (all_in_cache (register_cache s) registers)
                  else mret false) s = (Ok false, s)).
  { destruct Hmiss as [-> | Hall]; [reflexivity|].
    destruct cache; [|reflexivity]. unfold lift. rewrite Hall. reflexivity. }
  rewrite (run_bind_ok _ _ _ _ _ Hhit).
  assert (Hpack : lift (join_pack_H registers) s = (Ok data, s))
    by (unfold lift; rewrite Hdata; reflexivity).
  rewrite (run_bind_ok _ _ _ _ _ Hpack), (run_bind_ok _ _ _ _ _ Hexec).
  reflexivity.
Qed.

Lemma read_registers_no_response_tx_mode :
  fst (read_registers [REG.TX_MODE] false (fresh [])) = Raise (NameError "args").
Proof.
  apply (read_registers_no_response [REG.TX_MODE] [0x63; 0x02]
           (frame_layout [Command.READ_REGISTER; 0x63; 0x02]) false (fresh [])).
  - left. reflexivity.
  - reflexivity.
  - reflexivity.
  - reflexivity.
Defined.

(** C9: in [transceive_raw], once the configuration is through, a transport
    that returns no frame makes [execute_command] return [None], and the
    unguarded [rsp[0]] raises [TypeError]: the call does not return the
    absent "no data" result. *)
Theorem transceive_raw_no_response {P : Type} `{SerialPort P}
    (data data' frame : list Z) (type_ : string) (crc : bool) (bits bitrate : Z)
    (timeout : number) (cache_configuration : bool) (s s1 : PN532 P) :
  transceive_raw_configure data type_ crc bits bitrate timeout cache_configuration s
  = (Ok data', s1) ->
  fst (construct_frame (Command.IN_COMMUNICATE_THRU :: data') s1) = Ok frame ->
  fst (send_frame frame (1 # 2) s1) = Ok None ->
  fst (execute_command Command.IN_COMMUNICATE_THRU data' (1 # 2) s1) = Ok None /\
  fst (transceive_raw data type_ crc bits bitrate timeout cache_configuration s)
  = Raise TypeError /\
  fst (transceive_raw data type_ crc bits bitrate timeout cache_configuration s)
  <> Ok None.
Proof.
  intros Hconf Hframe Hnone.
  destruct (execute_command_none _ _ _ _ _ Hframe Hnone) as [s2 Hexec].
  assert (Hraw : fst (transceive_raw data type_ crc bits bitrate timeout
                                     cache_configuration s) = Raise TypeError).
  { unfold transceive_raw.
    rewrite (run_bind_ok _ _ _ _ _ Hconf), (run_bind_ok _ _ _ _ _ Hexec).
    reflexivity. }
  split; [rewrite Hexec; reflexivity|].
  split; [exact Hraw|]. rewrite Hraw. discriminate.
Qed.


Lemma transceive_raw_no_response_reqa :
  fst (execute_command Command.IN_COMMUNICATE_THRU [0x26] (1 # 2)
         (snd (transceive_raw_configure [0x26] "A" false 7 106 (PyInt 1) true configured_silent)))
  = Ok None /\
  fst (transceive_raw [0x26] "A" false 7 106 (PyInt 1) true configured_silent) = Raise TypeError /\
  fst (transceive_raw [0x26] "A" false 7 106 (PyInt 1) true configured_silent) <> Ok None.
Proof.
  apply (transceive_raw_no_response [0x26] [0x26]
           (frame_layout [Command.IN_COMMUNICATE_THRU; 0x26])
           "A" false 7 106 (PyInt 1) true configured_silent
           (snd (transceive_raw_configure [0x26] "A" false 7 106 (PyInt 1) true configured_silent))).
  - vm_compute. reflexivity.
  - vm_compute. reflexivity.
  - vm_compute. reflexivity.
Defined.

(** ** Register write elision *)

Lemma is_command_frame_ACK (cmd : Z) : is_command_frame cmd ACK = false.
Proof.
  unfold is_command_frame. apply bool_decide_eq_false.
  intros [Hmarker _]. discriminate Hmarker.
Qed.

Lemma is_command_frame_layout (cmd : Z) (data : list Z) :
  is_command_frame cmd (frame_layout (cmd :: data)) = true.
Proof.
  unfold is_command_frame. apply bool_decide_eq_true. split; reflexivity.
Qed.

(** On the buffered port the parser writes nothing, or the ACK. *)
Lemma get_device_response_tx (t : Q) (s : PN532 BufferedPort) :
  tx (device (snd (get_device_response t s))) = tx (device s) \/
  tx (device (snd (get_device_response t s))) = tx (device s) ++ [ACK].
Proof.
  destruct s as [[bytes txs to] rc rfc l].
  unfold_link.
  cbn [port_read port_write port_set_timeout BufferedPort_serial rx tx timeout].
  split_link;
    cbn [port_read port_write port_set_timeout BufferedPort_serial rx tx timeout
         device fst snd];
    first [left; reflexivity | right; reflexivity].
Qed.

Lemma send_frame_issues (cmd : Z) (frame : list Z) (t : Q) (s : PN532 BufferedPort) :
  commands_issued cmd (snd (send_frame frame t s)) =
  (commands_issued cmd s + (if is_command_frame cmd frame then 1 else 0))%nat.
Proof.
  unfold send_frame. rewrite run_bind. unfold device_write.
  set (s1 := mkPN532 (port_write frame (device s)) (register_cache s)
                     (rf_configuration_cache s) (log s)).
  unfold commands_issued.
  destruct (get_device_response_tx t s1) as [-> | ->]; subst s1; simpl;
    rewrite ?List.filter_app, ?length_app; simpl;
    rewrite ?is_command_frame_ACK; destruct (is_command_frame cmd frame); simpl; lia.
Qed.

(** A command whose bytes are well formed puts exactly one frame carrying
    its code on the wire, whatever comes back, and leaves the register
    cache alone. *)
Lemma execute_command_issues (cmd : Z) (data : list Z) (t : Q) (s : PN532 BufferedPort) :
  Forall (fun b => 0 <= b < 256) (cmd :: data) ->
  commands_issued cmd (snd (execute_command cmd data t s)) = S (commands_issued cmd s) /\
  register_cache (snd (execute_command cmd data t s)) = register_cache s.
Proof.
  intros Hbytes. unfold execute_command.
  rewrite (run_bind_ok _ _ _ _ _ (construct_frame_ok (cmd :: data) s Hbytes)).
  set (s1 := mkPN532 (device s) (register_cache s) (rf_configuration_cache s) _).
  assert (Hcount := send_frame_issues cmd (frame_layout (cmd :: data)) t s1).
  assert (Hcache := proj1 (send_frame_caches (frame_layout (cmd :: data)) t s1)).
  rewrite is_command_frame_layout in Hcount.
  rewrite run_bind.
  destruct (send_frame (frame_layout (cmd :: data)) t s1) as [[rsp|e] s2];
    simpl in Hcount, Hcache.
  - assert (Hpost : forall k : M BufferedPort (option (list Z)),
               (exists r, k s2 = (r, s2)) ->
               commands_issued cmd (snd (k s2)) = S (commands_issued cmd s) /\
               register_cache (snd (k s2)) = register_cache s).
    { intros k [r ->]. simpl. split; [rewrite Hcount; unfold commands_issued; simpl; lia|].
      exact Hcache. }
    apply Hpost.
    destruct rsp as [[|code rest]|]; simpl; try (eexists; reflexivity).
    cbv [index mbind M_bind mret M_ret raise del0 lookup list_lookup].
    destruct (bool_decide (code ≠ cmd + 1)); eexists; reflexivity.
  - simpl. split; [rewrite Hcount; unfold commands_issued; simpl; lia|exact Hcache].
Qed.

Lemma pack_HB_bytes (r v : Z) (bs : list Z) :
  pack_HB r v = Ok bs -> Forall (fun b => 0 <= b < 256) bs.
Proof.
  unfold pack_HB.
  destruct ((0 <=? r) && (r <? 65536)) eqn:Hr; simpl; [|discriminate].
  destruct (is_byte v) eqn:Hv; [|discriminate].
  intros [= <-].
  apply andb_true_iff in Hr as [Hlo Hhi].
  apply Z.leb_le in Hlo. apply Z.ltb_lt in Hhi. apply is_byte_spec in Hv.
  repeat (apply Forall_cons; split); try exact Hv; try (apply Forall_nil; exact I).
  - rewrite Z.shiftr_div_pow2 by lia. change (2 ^ 8) with 256.
    split; [apply Z.div_pos; lia|apply Z.div_lt_upper_bound; lia].
  - rewrite land_255. apply Z.mod_pos_bound. lia.
Qed.

(** One call on the single pair [{A: 1}] that does go to the device. *)
Lemma write_registers_single_sent (A : Z) (cache : bool) (s : PN532 BufferedPort)
    (r : result ()) (s' : PN532 BufferedPort) :
  cache = false \/ register_cache s !! A <> Some 1 ->
  write_registers [(A, 1)] cache s = (r, s') ->
  r = Ok () ->
  commands_issued Command.WRITE_REGISTER s' = S (commands_issued Command.WRITE_REGISTER s) /\
  register_cache s' = <[A := 1]> (register_cache s).
Proof.
  intros Hdiff Hrun ->. unfold write_registers in Hrun.
  rewrite (run_bind_ok get_register_cache _ s s (register_cache s) eq_refl) in Hrun.
  assert (Hfilter : negb cache || bool_decide (register_cache s !! A ≠ Some 1) = true).
  { destruct Hdiff as [-> | Hne]; [reflexivity|].
    rewrite (bool_decide_true _ Hne). apply orb_true_r. }
  cbn [List.filter fst snd] in Hrun. rewrite Hfilter in Hrun.
  cbn [join_pack_HB fst snd] in Hrun.
  destruct (pack_HB A 1) as [bs|e] eqn:Hpack; [|discriminate Hrun].
  assert (Hbytes : Forall (fun b => 0 <= b < 256) (Command.WRITE_REGISTER :: bs ++ [])).
  { apply Forall_cons; split; [unfold Command.WRITE_REGISTER; lia|].
    rewrite app_nil_r. eapply pack_HB_bytes, Hpack. }
  destruct (execute_command_issues Command.WRITE_REGISTER (bs ++ []) (1 # 2) s Hbytes)
    as [Hcount Hcache].
  rewrite (run_bind_ok (lift (Ok (bs ++ []))) _ s s (bs ++ []) eq_refl) in Hrun.
  rewrite run_bind in Hrun.
  destruct (execute_command Command.WRITE_REGISTER (bs ++ []) (1 # 2) s) as [[rsp|e] s1];
    [|discriminate Hrun].
  simpl in Hcount, Hcache.
  cbv [mbind M_bind get_register_cache set_register_cache merge_registers foldl fst snd]
    in Hrun.
  injection Hrun as <-. simpl. rewrite Hcache. split; [exact Hcount|reflexivity].
Qed.

Lemma write_registers_cached {P : Type} `{SerialPort P}
    (registers : list (Z * Z)) (s : PN532 P) :
  Forall (fun rv => register_cache s !! fst rv = Some (snd rv)) registers ->
  write_registers registers true s = (Ok (), s).
Proof.
  intros Hall. unfold write_registers.
  rewrite (run_bind_ok get_register_cache _ s s (register_cache s) eq_refl).
  assert (Hnone : List.filter
                    (fun rv => negb true || bool_decide (register_cache s !! fst rv ≠ Some (snd rv)))
                    registers = []).
  { induction Hall as [|rv rest Hrv _ IH]; [reflexivity|].
    simpl. rewrite bool_decide_false by (intros Hne; exact (Hne Hrv)). exact IH. }
  rewrite Hnone. reflexivity.
Qed.

(** C5: with caching enabled, a [write_registers] whose every pair equals
    the cached value issues no device command (the driver and its port are
    left as they were).  Hence two calls of [write_registers({A: 1})] that
    both return issue exactly one WRITE_REGISTER command with caching, from
    a cache that does not yet record [A: 1], and exactly two without. *)
Theorem write_registers_elision {P : Type} `{SerialPort P}
    (registers : list (Z * Z)) (sP : PN532 P) (A : Z) (s s' : PN532 BufferedPort) :
  (Forall (fun rv => register_cache sP !! fst rv = Some (snd rv)) registers ->
   write_registers registers true sP = (Ok (), sP)) /\
  (register_cache s !! A <> Some 1 ->
   (write_registers [(A, 1)] true;; write_registers [(A, 1)] true) s = (Ok (), s') ->
   commands_issued Command.WRITE_REGISTER s'
   = S (commands_issued Command.WRITE_REGISTER s)) /\
  ((write_registers [(A, 1)] false;; write_registers [(A, 1)] false) s = (Ok (), s') ->
   commands_issued Command.WRITE_REGISTER s'
   = S (S (commands_issued Command.WRITE_REGISTER s))).
Proof.
  split; [apply write_registers_cached|]. split.
  - intros Hne Hrun. rewrite run_bind in Hrun.
    destruct (write_registers [(A, 1)] true s) as [[[]|e] s1] eqn:Hfirst;
      [|discriminate Hrun].
    destruct (write_registers_single_sent A true s (Ok ()) s1 (or_intror Hne) Hfirst eq_refl)
      as [Hcount Hcache].
    rewrite write_registers_cached in Hrun.
    + injection Hrun as <-. exact Hcount.
    + apply Forall_cons; split; [|apply Forall_nil; exact I].
      simpl. rewrite Hcache. apply lookup_insert_eq.
  - intros Hrun. rewrite run_bind in Hrun.
    destruct (write_registers [(A, 1)] false s) as [[[]|e] s1] eqn:Hfirst;
      [|discriminate Hrun].
    destruct (write_registers_single_sent A false s (Ok ()) s1 (or_introl eq_refl)
                                          Hfirst eq_refl) as [Hcount1 _].
    destruct (write_registers [(A, 1)] false s1) as [r s2] eqn:Hsecond.
    injection Hrun as -> ->.
    destruct (write_registers_single_sent A false s1 (Ok ()) s' (or_introl eq_refl)
                                          Hsecond eq_refl) as [Hcount2 _].
    rewrite Hcount2, Hcount1. reflexivity.
Qed.

Lemma write_registers_elision_tx_mode :
  commands_issued Command.WRITE_REGISTER
    (snd ((write_registers [(REG.TX_MODE, 1)] true;;
           write_registers [(REG.TX_MODE, 1)] true) (fresh [])))
  = S (commands_issued Command.WRITE_REGISTER (fresh [])) /\
  commands_issued Command.WRITE_REGISTER
    (snd ((write_registers [(REG.TX_MODE, 1)] false;;
           write_registers [(REG.TX_MODE, 1)] false) (fresh [])))
  = S (S (commands_issued Command.WRITE_REGISTER (fresh []))).
Proof.
  split.
  - apply (proj1 (proj2 (write_registers_elision [] (fresh []) REG.TX_MODE (fresh [])
                   (snd ((write_registers [(REG.TX_MODE, 1)] true;;
                          write_registers [(REG.TX_MODE, 1)] true) (fresh [])))))).
    + vm_compute. discriminate.
    + vm_compute. reflexivity.
  - apply (proj2 (proj2 (write_registers_elision [] (fresh []) REG.TX_MODE (fresh [])
                   (snd ((write_registers [(REG.TX_MODE, 1)] false;;
                          write_registers [(REG.TX_MODE, 1)] false) (fresh [])))))).
    vm_compute. reflexivity.
Defined.

(** * Further properties *)

(** ** CRC_A *)

Lemma crc16a_step_range (w_crc byte : Z) : 0 <= crc16a_step w_crc byte < 65536.
Proof.
  unfold crc16a_step. change 0xFFFF with (Z.ones 16).
  rewrite Z.land_ones by lia. apply Z.mod_pos_bound. lia.
Qed.

Lemma crc16a_register_range (data : list Z) (w_crc : Z) :
  0 <= w_crc < 65536 -> 0 <= fold_left crc16a_step data w_crc < 65536.
Proof.
  revert w_crc. induction data as [|b data IH]; intros w_crc Hw; simpl; [exact Hw|].
  apply IH, crc16a_step_range.
Qed.

(** Feeding the register its own two bytes, low byte first, clears it. *)
Lemma crc16a_step_own_bytes (w_crc : Z) :
  0 <= w_crc < 65536 ->
  crc16a_step (crc16a_step w_crc (Z.land w_crc 0xFF)) (Z.land (Z.shiftr w_crc 8) 0xFF) = 0.
Proof.
  intros Hw.
  assert (Hhigh : 0 <= Z.shiftr w_crc 8 < 256).
  { rewrite Z.shiftr_div_pow2 by lia. change (2 ^ 8) with 256.
    split; [apply Z.div_pos; lia|apply Z.div_lt_upper_bound; lia]. }
  assert (Hfirst : crc16a_step w_crc (Z.land w_crc 0xFF) = Z.shiftr w_crc 8).
  { unfold crc16a_step. cbv zeta. rewrite Z.lxor_nilpotent.
    change (Z.shiftl 0 4) with 0. change (Z.lxor 0 0) with 0.
    change (Z.land 0 255) with 0. change (Z.shiftl 0 8) with 0.
    change (Z.shiftl 0 3) with 0. change (Z.shiftr 0 4) with 0.
    rewrite !Z.lxor_0_r. change 0xFFFF with (Z.ones 16).
    rewrite Z.land_ones by lia. apply Z.mod_small. lia. }
  rewrite Hfirst. unfold crc16a_step. cbv zeta.
  rewrite Z.lxor_nilpotent.
  change (Z.shiftl 0 4) with 0. change (Z.lxor 0 0) with 0.
  change (Z.land 0 255) with 0. change (Z.shiftl 0 8) with 0.
  change (Z.shiftl 0 3) with 0. change (Z.shiftr 0 4) with 0.
  rewrite !Z.lxor_0_r.
  rewrite Z.shiftr_shiftr by lia. simpl Z.add.
  rewrite Z.shiftr_div_pow2 by lia. rewrite Z.div_small by (change (2 ^ 16) with 65536; lia).
  reflexivity.
Qed.

(** X1: a message followed by its CRC_A checks out: whenever [with_crc16a]
    returns, the CRC_A of what it returns is [00 00]; the result is the
    message followed by two bytes and holds bytes only. *)
Theorem with_crc16a_residue (data out : list Z) :
  with_crc16a data = Ok out ->
  crc16a out = [0x00; 0x00] /\
  take (length data) out = data /\
  length out = (length data + 2)%nat /\
  Forall (fun b => 0 <= b < 256) out.
Proof.
  unfold with_crc16a. destruct (forallb is_byte data) eqn:Hbytes; [|discriminate].
  intros [= <-].
  assert (Hw := crc16a_register_range data 0x6363 ltac:(lia)).
  split; [|split; [|split]].
  - unfold crc16a at 1. rewrite fold_left_app. unfold crc16a. cbv zeta.
    cbn [fold_left]. rewrite crc16a_step_own_bytes by exact Hw. reflexivity.
  - apply take_app_length.
  - rewrite length_app. reflexivity.
  - apply Forall_app. split; [apply forallb_is_byte, Hbytes|].
    unfold crc16a. cbv zeta.
    repeat (apply Forall_cons; split; [rewrite land_255; apply Z.mod_pos_bound; lia|]).
    apply Forall_nil. exact I.
Qed.

Lemma with_crc16a_residue_wupb :
  crc16a [0x05; 0x00; 0x08; 0xE1; 0x10] = [0x00; 0x00] /\
  take (length [0x05; 0x00; 0x08]) [0x05; 0x00; 0x08; 0xE1; 0x10] = [0x05; 0x00; 0x08] /\
  length [0x05; 0x00; 0x08; 0xE1; 0x10] = (length [0x05; 0x00; 0x08] + 2)%nat /\
  Forall (fun b => 0 <= b < 256) [0x05; 0x00; 0x08; 0xE1; 0x10].
Proof.
  apply (with_crc16a_residue [0x05; 0x00; 0x08] [0x05; 0x00; 0x08; 0xE1; 0x10]).
  reflexivity.
Defined.

(** ** Recomputed registers *)

Lemma in_seqZ (x lo n : Z) : lo <= x < lo + n -> In x (seqZ lo n).
Proof. intros Hx. apply list_elem_of_In, elem_of_seqZ. exact Hx. Qed.

Lemma mode_fields_table :
  forallb (fun mode =>
    forallb (fun speed =>
      forallb (fun framing =>
        forallb (fun crc =>
          let mode' := set_crc_en (set_framing (set_speed mode speed) framing) crc in
          (mode' =? 128 * Z.b2z crc + 16 * speed + Z.land mode 0x0C + framing)
          && is_byte mode')
          [true; false])
        (seqZ 0 4))
      (seqZ 0 8))
    (seqZ 0 256) = true.
Proof. vm_compute. reflexivity. Qed.

(** X2: the three masked updates [transceive_raw] applies to TX_MODE and
    RX_MODE compose to a full re-packing of the register: of a read-back
    byte only bits 2 and 3 survive; bit 7 is the CRC flag, bits 4-6 the
    speed, bits 0-1 the framing; and the result is a byte again. *)
Theorem mode_register_fields (mode speed framing : Z) (crc : bool) :
  0 <= mode < 256 -> 0 <= speed < 8 -> 0 <= framing < 4 ->
  set_crc_en (set_framing (set_speed mode speed) framing) crc
  = 128 * Z.b2z crc + 16 * speed + Z.land mode 0x0C + framing /\
  0 <= set_crc_en (set_framing (set_speed mode speed) framing) crc < 256.
Proof.
  intros Hmode Hspeed Hframing.
  assert (Hrow := proj1 (forallb_forall _ _) mode_fields_table mode (in_seqZ _ _ _ Hmode)).
  cbv beta in Hrow.
  assert (Hcol := proj1 (forallb_forall _ _) Hrow speed (in_seqZ _ _ _ Hspeed)).
  cbv beta in Hcol.
  assert (Hcell := proj1 (forallb_forall _ _) Hcol framing (in_seqZ _ _ _ Hframing)).
  cbv beta in Hcell.
  assert (Hcrc := proj1 (forallb_forall _ _) Hcell crc
                        ltac:(destruct crc; simpl; tauto)).
  cbv beta zeta in Hcrc.
  apply andb_true_iff in Hcrc as [Heq Hbyte].
  split; [apply Z.eqb_eq, Heq|apply is_byte_spec, Hbyte].
Qed.

Lemma mode_register_fields_type_b :
  set_crc_en (set_framing (set_speed 0xA5 0x00) 0x03) true
  = 128 * Z.b2z true + 16 * 0x00 + Z.land 0xA5 0x0C + 0x03 /\
  0 <= set_crc_en (set_framing (set_speed 0xA5 0x00) 0x03) true < 256.
Proof.
  apply (mode_register_fields 0xA5 0x00 0x03 true); lia.
Defined.

Lemma single_fields_table :
  forallb (fun reg =>
    forallb (fun type_a =>
      let tx_auto := Z.lor (Z.land reg 0xBF) (Z.shiftl (Z.b2z type_a) 6) in
      (tx_auto =? Z.land reg 0xBF + 64 * Z.b2z type_a) && is_byte tx_auto)
      [true; false]
    && forallb (fun last =>
      let bit_frm := Z.lor (Z.land reg 0xF8) last in
      (bit_frm =? Z.land reg 0xF8 + last) && is_byte bit_frm)
      (seqZ 0 8))
    (seqZ 0 256) = true.
Proof. vm_compute. reflexivity. Qed.

(** X3: in TX_AUTO only bit 6 is rewritten (set exactly for type "A"), in
    BIT_FRAMING only the low three bits (to [bits] modulo 8, whatever
    integer [bits] is); read-back bytes stay bytes. *)
Theorem single_field_registers (tx_auto bit_frm bits : Z) (type_ : string) :
  0 <= tx_auto < 256 -> 0 <= bit_frm < 256 ->
  set_force_100_ask tx_auto type_
  = Z.land tx_auto 0xBF + 64 * Z.b2z (bool_decide (type_ = "A"%string)) /\
  0 <= set_force_100_ask tx_auto type_ < 256 /\
  set_tx_last_bits bit_frm bits = Z.land bit_frm 0xF8 + bits mod 8 /\
  0 <= set_tx_last_bits bit_frm bits < 256.
Proof.
  intros Hauto Hfrm.
  assert (Hbits : Z.land bits 0x07 = bits mod 8).
  { change 0x07 with (Z.ones 3). rewrite Z.land_ones by lia. reflexivity. }
  assert (Hlast : 0 <= bits mod 8 < 0 + 8) by (apply Z.mod_pos_bound; lia).
  assert (Hrow1 := proj1 (forallb_forall _ _) single_fields_table tx_auto
                         (in_seqZ _ _ _ Hauto)).
  assert (Hrow2 := proj1 (forallb_forall _ _) single_fields_table bit_frm
                         (in_seqZ _ _ _ Hfrm)).
  cbv beta in Hrow1, Hrow2.
  apply andb_true_iff in Hrow1 as [Hrow1 _].
  apply andb_true_iff in Hrow2 as [_ Hrow2].
  assert (Hcell1 := proj1 (forallb_forall _ _) Hrow1 (bool_decide (type_ = "A"%string))
                          ltac:(destruct (bool_decide (type_ = "A"%string)); simpl; tauto)).
  assert (Hcell2 := proj1 (forallb_forall _ _) Hrow2 (bits mod 8) (in_seqZ _ _ _ Hlast)).
  cbv beta zeta in Hcell1, Hcell2.
  apply andb_true_iff in Hcell1 as [Heq1 Hbyte1].
  apply andb_true_iff in Hcell2 as [Heq2 Hbyte2].
  unfold set_force_100_ask, set_tx_last_bits. rewrite Hbits.
  split; [apply Z.eqb_eq, Heq1|]. split; [apply is_byte_spec, Hbyte1|].
  split; [apply Z.eqb_eq, Heq2|apply is_byte_spec, Hbyte2].
Qed.

Lemma single_field_registers_short_frame :
  set_force_100_ask 0x00 "A"
  = Z.land 0x00 0xBF + 64 * Z.b2z (bool_decide ("A"%string = "A"%string)) /\
  0 <= set_force_100_ask 0x00 "A" < 256 /\
  set_tx_last_bits 0xFF 7 = Z.land 0xFF 0xF8 + 7 mod 8 /\
  0 <= set_tx_last_bits 0xFF 7 < 256.
Proof.
  apply (single_field_registers 0x00 0xFF 7 "A"); lia.
Defined.

(** ** Timeout index, continued *)

(** *** Shifting and rounding a mantissa *)

Lemma iter_pos_nat {A : Type} (f : A -> A) (p : positive) (x : A) :
  SpecFloat.iter_pos f p x = Nat.iter (Pos.to_nat p) f x.
Proof.
  revert x. induction p as [p IH|p IH|]; intros x; cbn [SpecFloat.iter_pos].
  - rewrite !IH, Pos2Nat.inj_xI.
    replace (S (2 * Pos.to_nat p)) with (Pos.to_nat p + S (Pos.to_nat p))%nat by lia.
    rewrite Nat.iter_add, Nat.iter_succ_r. reflexivity.
  - rewrite !IH, Pos2Nat.inj_xO.
    replace (2 * Pos.to_nat p)%nat with (Pos.to_nat p + Pos.to_nat p)%nat by lia.
    rewrite Nat.iter_add. reflexivity.
  - reflexivity.
Qed.

Lemma shr_1_nonneg (m : Z) (r s : bool) :
  0 <= m ->
  shr_1 (Build_shr_record m r s) = Build_shr_record (Z.div2 m) (Z.odd m) (r || s).
Proof. destruct m as [|[p|p|]|p]; simpl; intros Hm; try reflexivity; lia. Qed.

Lemma iter_shr_1 (M : Z) (j : nat) :
  0 <= M ->
  Nat.iter (S j) shr_1 (Build_shr_record M false false)
  = Build_shr_record (M / 2 ^ (Z.of_nat j + 1)) (Z.odd (M / 2 ^ Z.of_nat j))
      (negb (M mod 2 ^ Z.of_nat j =? 0)).
Proof.
  intros HM. induction j as [|j IH].
  - unfold Nat.iter. cbn [nat_rect]. rewrite shr_1_nonneg by exact HM.
    rewrite Z.div2_div. change (2 ^ (Z.of_nat 0 + 1)) with 2.
    change (2 ^ Z.of_nat 0) with 1. rewrite Z.div_1_r, Z.mod_1_r. reflexivity.
  - rewrite Nat.iter_succ, IH.
    assert (Hpow : 0 < 2 ^ Z.of_nat j) by (apply Z.pow_pos_nonneg; lia).
    assert (Hpow1 : 0 < 2 ^ (Z.of_nat j + 1)) by (apply Z.pow_pos_nonneg; lia).
    rewrite shr_1_nonneg by (apply Z.div_pos; [exact HM|exact Hpow1]).
    replace (Z.of_nat (S j)) with (Z.of_nat j + 1) by lia.
    f_equal.
    + rewrite Z.div2_div, Z.div_div by lia.
      rewrite (Z.pow_add_r 2 (Z.of_nat j + 1) 1) by lia. reflexivity.
    + rewrite (Z.pow_add_r 2 (Z.of_nat j) 1) by lia. change (2 ^ 1) with 2.
      rewrite Z.rem_mul_r by lia.
      assert (Ha := Z.mod_pos_bound M (2 ^ Z.of_nat j) Hpow).
      assert (Hb := Z.mod_pos_bound (M / 2 ^ Z.of_nat j) 2 ltac:(lia)).
      assert (Hodd := Zmod_odd (M / 2 ^ Z.of_nat j)).
      destruct (Z.odd (M / 2 ^ Z.of_nat j));
        destruct (Z.eqb_spec (M mod 2 ^ Z.of_nat j) 0) as [Ha0|Ha0];
        cbn [negb orb];
        match goal with
        | |- _ = negb (?x =? 0) => destruct (Z.eqb_spec x 0) as [H0|H0]
        end; cbn [negb]; try reflexivity; exfalso; nia.
Qed.

Lemma shr_exact (M e n : Z) :
  0 <= M -> 0 < n ->
  shr (Build_shr_record M false false) e n
  = (Build_shr_record (M / 2 ^ n) (Z.odd (M / 2 ^ (n - 1)))
       (negb (M mod 2 ^ (n - 1) =? 0)), e + n).
Proof.
  intros HM Hn. destruct n as [|p|p]; try lia. unfold shr. rewrite iter_pos_nat.
  destruct (Pos.to_nat p) as [|j] eqn:Hj; [lia|]. rewrite iter_shr_1 by exact HM.
  replace (Z.of_nat j + 1) with (Z.pos p) by lia.
  replace (Z.of_nat j) with (Z.pos p - 1) by lia. reflexivity.
Qed.

Lemma shr_none (mrs : shr_record) (e n : Z) : n <= 0 -> shr mrs e n = (mrs, e).
Proof. destruct n; [reflexivity|lia|reflexivity]. Qed.

Lemma round_half_even_0 (M : Z) : round_half_even M 0 = M.
Proof.
  unfold round_half_even. change (2 ^ 0) with 1.
  rewrite Z.mod_1_r, Z.div_1_r. reflexivity.
Qed.

Lemma round_shr (M n : Z) :
  0 <= M -> 0 < n ->
  round_nearest_even (M / 2 ^ n)
    (loc_of_shr_record
       (Build_shr_record (M / 2 ^ n) (Z.odd (M / 2 ^ (n - 1)))
          (negb (M mod 2 ^ (n - 1) =? 0))))
  = round_half_even M n.
Proof.
  intros HM Hn. unfold round_half_even.
  assert (Hhalf : 0 < 2 ^ (n - 1)) by (apply Z.pow_pos_nonneg; lia).
  assert (Hpow : 2 ^ n = 2 ^ (n - 1) * 2).
  { replace n with (n - 1 + 1) at 1 by lia. rewrite Z.pow_add_r by lia. reflexivity. }
  rewrite Hpow, Z.rem_mul_r by lia.
  assert (Ha := Z.mod_pos_bound M (2 ^ (n - 1)) Hhalf).
  assert (Hodd := Zmod_odd (M / 2 ^ (n - 1))).
  destruct (Z.odd (M / 2 ^ (n - 1)));
    destruct (Z.eqb_spec (M mod 2 ^ (n - 1)) 0) as [Ha0|Ha0];
    rewrite Hodd; cbn [negb loc_of_shr_record round_nearest_even];
    match goal with
    | |- _ = match ?x ?= ?y with _ => _ end => destruct (Z.compare_spec x y)
    end; try reflexivity; exfalso; nia.
Qed.

Lemma round_half_even_bounds (M n : Z) :
  M / 2 ^ n <= round_half_even M n <= M / 2 ^ n + 1.
Proof.
  unfold round_half_even.
  destruct (2 * (M mod 2 ^ n) ?= 2 ^ n); [destruct (Z.even _)| |]; lia.
Qed.

(** An even bound is kept exactly up to the midpoint above it. *)
Lemma round_half_even_le (M n K : Z) :
  0 <= n -> Z.even K = true ->
  round_half_even M n <= K <-> 2 * M <= (2 * K + 1) * 2 ^ n.
Proof.
  intros Hn HK. unfold round_half_even.
  assert (Hpow : 0 < 2 ^ n) by (apply Z.pow_pos_nonneg; lia).
  assert (Hdiv := Z.div_mod M (2 ^ n) ltac:(lia)).
  assert (Hrem := Z.mod_pos_bound M (2 ^ n) Hpow).
  set (q := M / 2 ^ n) in *. set (r := M mod 2 ^ n) in *.
  destruct (Z.compare_spec (2 * r) (2 ^ n)) as [Heq|Hlt|Hgt].
  - destruct (Z.even q) eqn:Hq.
    + split; intros Hle; nia.
    + assert (q <> K) by (intros ->; congruence). split; intros Hle; nia.
  - split; intros Hle; nia.
  - split; intros Hle; nia.
Qed.

Lemma digits2_pos_bounds (p : positive) :
  2 ^ (Z.pos (digits2_pos p) - 1) <= Z.pos p < 2 ^ Z.pos (digits2_pos p).
Proof.
  induction p as [p IH|p IH|]; cbn [digits2_pos]; [| |simpl; lia].
  - rewrite Pos2Z.inj_succ.
    replace (Z.succ (Z.pos (digits2_pos p)) - 1) with (Z.succ (Z.pos (digits2_pos p) - 1))
      by lia.
    rewrite !Z.pow_succ_r by lia. lia.
  - rewrite Pos2Z.inj_succ.
    replace (Z.succ (Z.pos (digits2_pos p)) - 1) with (Z.succ (Z.pos (digits2_pos p) - 1))
      by lia.
    rewrite !Z.pow_succ_r by lia. lia.
Qed.

Lemma Zdigits2_bounds (m : Z) :
  0 < m -> 2 ^ (Zdigits2 m - 1) <= m < 2 ^ Zdigits2 m /\ 0 < Zdigits2 m.
Proof.
  destruct m as [|p|p]; try lia. intros _. split; [apply digits2_pos_bounds|].
  simpl. lia.
Qed.

Lemma Zdigits2_le (m k : Z) : 0 <= m -> 0 <= k -> m < 2 ^ k -> Zdigits2 m <= k.
Proof.
  intros Hm Hk Hlt. destruct (Z.eq_dec m 0) as [->|Hne]; [simpl; lia|].
  destruct (Zdigits2_bounds m ltac:(lia)) as [[Hlow _] Hpos].
  destruct (Z_lt_le_dec k (Zdigits2 m)) as [Hgt|Hle]; [|exact Hle].
  exfalso. assert (2 ^ k <= 2 ^ (Zdigits2 m - 1)) by (apply Z.pow_le_mono_r; lia). lia.
Qed.

Lemma Zdigits2_gt (m k : Z) : 0 <= k -> 2 ^ k <= m -> k < Zdigits2 m.
Proof.
  intros Hk Hle.
  assert (Hm : 0 < m) by (assert (0 < 2 ^ k) by (apply Z.pow_pos_nonneg; lia); lia).
  destruct (Zdigits2_bounds m Hm) as [[_ Hup] Hpos].
  destruct (Z_lt_le_dec k (Zdigits2 m)) as [Hgt|Hle']; [exact Hgt|].
  exfalso. assert (2 ^ Zdigits2 m <= 2 ^ k) by (apply Z.pow_le_mono_r; lia). lia.
Qed.

Lemma binary_round_aux_53 (sx : bool) (M E : Z) :
  0 < M -> 53 <= Zdigits2 M ->
  binary_round_aux 53 1024 sx M E loc_Exact = round_binary64 sx M E.
Proof.
  intros HM Hd. unfold binary_round_aux, round_binary64, shr_fexp.
  cbn [shr_record_of_loc].
  set (n := Z.max (Zdigits2 M - 53) (-1074 - E)).
  assert (Hn : 0 <= n) by lia.
  assert (Hfexp : fexp 53 1024 (Zdigits2 M + E) - E = n).
  { unfold fexp, emin. lia. }
  rewrite Hfexp.
  destruct (Zdigits2_bounds M HM) as [[Hlow Hup] _].
  assert (Hq : M / 2 ^ n < 2 ^ 53).
  { apply Z.div_lt_upper_bound; [apply Z.pow_pos_nonneg; lia|].
    rewrite <- Z.pow_add_r by lia.
    assert (2 ^ Zdigits2 M <= 2 ^ (n + 53)) by (apply Z.pow_le_mono_r; lia). lia. }
  assert (Hq0 : 0 <= M / 2 ^ n) by (apply Z.div_pos; [lia|apply Z.pow_pos_nonneg; lia]).
  assert (Hround := round_half_even_bounds M n).
  assert (Hfirst :
    (let '(mrs', e') := shr (Build_shr_record M false false) E n in
     (round_nearest_even (shr_m mrs') (loc_of_shr_record mrs'), e'))
    = (round_half_even M n, E + n)).
  { destruct (Z.eq_dec n 0) as [Hn0|Hn0].
    - rewrite Hn0, shr_none, round_half_even_0 by lia.
      cbn [shr_m loc_of_shr_record round_nearest_even]. f_equal. lia.
    - rewrite shr_exact by lia. cbn [shr_m]. rewrite round_shr by lia. reflexivity. }
  destruct (shr (Build_shr_record M false false) E n) as [mrs' e'].
  injection Hfirst as -> ->.
  set (m := round_half_even M n) in *.
  destruct (Z.ltb_spec m (2 ^ 53)) as [Hsmall|Hcarry].
  - assert (Hdm : Zdigits2 m <= 53) by (apply Zdigits2_le; lia).
    rewrite shr_none by (unfold fexp, emin; lia).
    cbn [shr_m]. destruct m as [|p|p]; [reflexivity| |lia].
    cbn [Z.eqb]. rewrite Pos2Z.id. reflexivity.
  - assert (Hm : m = 2 ^ 53) by lia. rewrite Hm.
    change (Zdigits2 (2 ^ 53)) with 54.
    replace (fexp 53 1024 (54 + (E + n)) - (E + n)) with 1 by (unfold fexp, emin; lia).
    cbn. reflexivity.
Qed.

Lemma SFleb_finite (m1 : positive) (e1 : Z) (m2 : positive) (e2 : Z) :
  SFleb (S754_finite false m1 e1) (S754_finite false m2 e2)
  = (e1 <? e2) || ((e1 =? e2) && (Z.pos m1 <=? Z.pos m2)).
Proof.
  unfold SFleb, SFcompare. rewrite Pos.compare_cont_spec. cbn [Pos.switch_Eq].
  destruct (Z.compare_spec e1 e2) as [->|Hlt|Hgt].
  - rewrite Z.ltb_irrefl, Z.eqb_refl. cbn [orb andb].
    change (Z.pos m1 <=? Z.pos m2) with (Pos.leb m1 m2). unfold Pos.leb.
    destruct (m1 ?= m2)%positive; reflexivity.
  - rewrite (proj2 (Z.ltb_lt e1 e2) Hlt). reflexivity.
  - rewrite (proj2 (Z.ltb_ge e1 e2)) by lia.
    rewrite (proj2 (Z.eqb_neq e1 e2)) by lia. reflexivity.
Qed.

Lemma pow2_split (a b : Z) : 0 <= a <= b -> 2 ^ b = 2 ^ a * 2 ^ (b - a).
Proof. intros Hab. rewrite <- Z.pow_add_r by lia. f_equal. lia. Qed.

(** The rounded value is at most the table value [100 * 2 ^ k], the double
    [7036874417766400 * 2 ^ (k - 46)], exactly when the exact value
    [M * 2 ^ E] is at most the midpoint above it. *)
Lemma round_binary64_le (M E k : Z) :
  0 < M -> 53 <= Zdigits2 M -> -1199 <= E -> 0 <= k <= 14 ->
  SFleb (round_binary64 false M E) (S754_finite false 7036874417766400 (k - 46)) = true
  <-> M * 2 ^ (E + 1200) <= 14073748835532801 * 2 ^ (k + 1153).
Proof.
  intros HM Hd HE Hk. unfold round_binary64.
  set (n := Z.max (Zdigits2 M - 53) (-1074 - E)).
  assert (Hn : 0 <= n) by lia.
  destruct (Zdigits2_bounds M HM) as [[Hlow Hup] _].
  assert (Hpn : 0 < 2 ^ n) by (apply Z.pow_pos_nonneg; lia).
  assert (Hq : M / 2 ^ n < 2 ^ 53).
  { apply Z.div_lt_upper_bound; [exact Hpn|].
    rewrite <- Z.pow_add_r by lia.
    assert (2 ^ Zdigits2 M <= 2 ^ (n + 53)) by (apply Z.pow_le_mono_r; lia). lia. }
  assert (Hq0 : 0 <= M / 2 ^ n) by (apply Z.div_pos; [lia|exact Hpn]).
  assert (Hround := round_half_even_bounds M n).
  assert (Hthreshold := round_half_even_le M n 7036874417766400 Hn eq_refl).
  set (m := round_half_even M n) in *.
  assert (Hupper : M < 2 ^ (n + 53)).
  { assert (2 ^ Zdigits2 M <= 2 ^ (n + 53)) by (apply Z.pow_le_mono_r; lia). lia. }
  destruct (Z.lt_trichotomy (E + n) (k - 46)) as [Hbelow|[Hsame|Habove]].
  - (* below the binade of the table value *)
    split; [intros _|intros _].
    + assert (H1 : 2 ^ (n + 53) * 2 ^ (E + 1200) <= 2 ^ 53 * 2 ^ (k + 1153)).
      { rewrite <- !Z.pow_add_r by lia. apply Z.pow_le_mono_r; lia. }
      assert (0 < 2 ^ (E + 1200)) by (apply Z.pow_pos_nonneg; lia).
      assert (0 < 2 ^ (k + 1153)) by (apply Z.pow_pos_nonneg; lia).
      change (2 ^ 53) with 9007199254740992 in H1. nia.
    + destruct (Z.eqb_spec m 0) as [Hm0|Hm0]; [reflexivity|].
      destruct (Z.ltb_spec m (2 ^ 53)) as [Hsmall|Hcarry].
      * rewrite (proj2 (Z.leb_le (E + n) 971)) by lia.
        rewrite SFleb_finite, (proj2 (Z.ltb_lt (E + n) (k - 46)) Hbelow). reflexivity.
      * rewrite (proj2 (Z.leb_le (E + n + 1) 971)) by lia.
        rewrite SFleb_finite.
        destruct (Z.ltb_spec (E + n + 1) (k - 46)) as [Hlt|Hge]; [reflexivity|].
        rewrite (proj2 (Z.eqb_eq (E + n + 1) (k - 46))) by lia. reflexivity.
  - (* in the binade of the table value *)
    assert (Hscale : 2 ^ (k + 1153) = 2 ^ n * 2 ^ (E + 1199)).
    { rewrite <- Z.pow_add_r by lia. f_equal. lia. }
    assert (Hscale' : 2 ^ (E + 1200) = 2 * 2 ^ (E + 1199)).
    { replace (E + 1200) with (Z.succ (E + 1199)) by lia. apply Z.pow_succ_r. lia. }
    assert (Hp : 0 < 2 ^ (E + 1199)) by (apply Z.pow_pos_nonneg; lia).
    rewrite Hscale, Hscale'.
    assert (Hiff : m <= 7036874417766400 <->
                   M * (2 * 2 ^ (E + 1199))
                   <= 14073748835532801 * (2 ^ n * 2 ^ (E + 1199))).
    { rewrite Hthreshold. change (2 * 7036874417766400 + 1) with 14073748835532801.
      split; intros Hle; nia. }
    rewrite <- Hiff. clear Hiff.
    destruct (Z.eqb_spec m 0) as [Hm0|Hm0]; [split; [lia|reflexivity]|].
    destruct (Z.ltb_spec m (2 ^ 53)) as [Hsmall|Hcarry].
    + rewrite (proj2 (Z.leb_le (E + n) 971)) by lia.
      rewrite SFleb_finite, Hsame, Z.ltb_irrefl, Z.eqb_refl. cbn [orb andb].
      rewrite Z2Pos.id by lia. apply Z.leb_le.
    + rewrite (proj2 (Z.leb_le (E + n + 1) 971)) by lia.
      rewrite SFleb_finite.
      rewrite (proj2 (Z.ltb_ge (E + n + 1) (k - 46))) by lia.
      rewrite (proj2 (Z.eqb_neq (E + n + 1) (k - 46))) by lia. cbn [orb andb].
      change (2 ^ 53) with 9007199254740992 in Hcarry. split; [discriminate|lia].
  - (* above the binade of the table value *)
    assert (Hnormal : n = Zdigits2 M - 53) by lia.
    assert (Hlower : 2 ^ (n + 52) <= M).
    { replace (n + 52) with (Zdigits2 M - 1) by lia. exact Hlow. }
    assert (Hm : 2 ^ 52 <= m).
    { assert (2 ^ 52 <= M / 2 ^ n); [|lia].
      apply Z.div_le_lower_bound; [exact Hpn|].
      rewrite <- Z.pow_add_r by lia. exact Hlower. }
    change (2 ^ 52) with 4503599627370496 in Hm.
    split; [intros Hle|intros Hle]; exfalso.
    + destruct (Z.eqb_spec m 0) as [Hm0|Hm0]; [lia|].
      destruct (Z.ltb_spec m (2 ^ 53)) as [Hsmall|Hcarry].
      * destruct (E + n <=? 971); [|discriminate Hle].
        rewrite SFleb_finite in Hle.
        rewrite (proj2 (Z.ltb_ge (E + n) (k - 46))) in Hle by lia.
        rewrite (proj2 (Z.eqb_neq (E + n) (k - 46))) in Hle by lia. discriminate Hle.
      * destruct (E + n + 1 <=? 971); [|discriminate Hle].
        rewrite SFleb_finite in Hle.
        rewrite (proj2 (Z.ltb_ge (E + n + 1) (k - 46))) in Hle by lia.
        rewrite (proj2 (Z.eqb_neq (E + n + 1) (k - 46))) in Hle by lia. discriminate Hle.
    + assert (H1 : 2 ^ 54 * 2 ^ (k + 1153) <= 2 ^ (n + 52) * 2 ^ (E + 1200)).
      { rewrite <- !Z.pow_add_r by lia. apply Z.pow_le_mono_r; lia. }
      assert (0 < 2 ^ (E + 1200)) by (apply Z.pow_pos_nonneg; lia).
      assert (0 < 2 ^ (k + 1153)) by (apply Z.pow_pos_nonneg; lia).
      change (2 ^ 54) with 18014398509481984 in H1. nia.
Qed.

(** *** The product with 1000000 against the table values *)

Lemma float_of_int_1000000 :
  float_of_int 1000000 = S754_finite false 8589934592000000 (-33).
Proof. reflexivity. Qed.

Lemma float_of_int_table (k : Z) :
  0 <= k <= 14 ->
  float_of_int (100 * 2 ^ k) = S754_finite false 7036874417766400 (k - 46).
Proof.
  intros Hk.
  assert (Hcases : k = 0 \/ k = 1 \/ k = 2 \/ k = 3 \/ k = 4 \/ k = 5 \/ k = 6 \/ k = 7 \/
                   k = 8 \/ k = 9 \/ k = 10 \/ k = 11 \/ k = 12 \/ k = 13 \/ k = 14) by lia.
  repeat (destruct Hcases as [-> | Hcases]; [reflexivity|]). subst k. reflexivity.
Qed.

Lemma bounded_exponent (m : positive) (e : Z) :
  bounded 53 1024 m e = true -> -1074 <= e <= 971.
Proof.
  unfold bounded, canonical_mantissa, fexp, emin.
  intros Hb. apply andb_prop in Hb as [Hc He].
  apply Z.eqb_eq in Hc. apply Z.leb_le in He. lia.
Qed.

Lemma SFleb_round_negative (M E : Z) (m : positive) (e : Z) :
  SFleb (round_binary64 true M E) (S754_finite false m e) = true.
Proof.
  unfold round_binary64.
  repeat match goal with |- context [if ?b then _ else _] => destruct b end; reflexivity.
Qed.

(** Line 504's test [t >= timeout * 1000000] against the table value
    [100 * 2 ^ k], for a finite timeout: it holds exactly when the timeout
    in microseconds is at most [(100 + 2 ^ -47) * 2 ^ k], whether the
    timeout is an int or a double. *)
Lemma int_ge_product (t : number) (k : Z) :
  number_valid t = true -> 0 <= k <= 14 ->
  match t with PyFloat (S754_infinity _ | S754_nan) => False | _ => True end ->
  int_ge (100 * 2 ^ k) (number_mul_int t 1000000) = true
  <-> number_units t * 1000000 <= 14073748835532801 * 2 ^ (k + 1153).
Proof.
  intros Hvalid Hk Hfinite.
  assert (Hp : 0 < 2 ^ 1153) by (apply Z.pow_pos_nonneg; lia).
  assert (Hpk : 0 < 2 ^ k) by (apply Z.pow_pos_nonneg; lia).
  assert (Hpk' : 2 ^ k <= 2 ^ 14) by (apply Z.pow_le_mono_r; lia).
  change (2 ^ 14) with 16384 in Hpk'.
  destruct t as [z|[s|s| |s m e]]; try contradiction.
  - cbn [number_mul_int int_ge number_units].
    replace (2 ^ 1200) with (140737488355328 * 2 ^ 1153)
      by (change 140737488355328 with (2 ^ 47); rewrite <- Z.pow_add_r by lia; reflexivity).
    rewrite (Z.pow_add_r 2 k 1153) by lia.
    rewrite Z.leb_le. split; intros Hle; nia.
  - cbn [number_mul_int int_ge number_units]. rewrite float_of_int_1000000.
    rewrite float_of_int_table by exact Hk. cbn [SFmul].
    split; [intros _|intros _; reflexivity].
    assert (0 < 2 ^ (k + 1153)) by (apply Z.pow_pos_nonneg; lia). lia.
  - cbn [number_mul_int int_ge number_units]. rewrite float_of_int_1000000.
    rewrite float_of_int_table by exact Hk. cbn [SFmul].
    cbn [number_valid valid_binary] in Hvalid. apply bounded_exponent in Hvalid.
    assert (Hdigits : 53 <= Zdigits2 (Z.pos (m * 8589934592000000))).
    { assert (52 < Zdigits2 (Z.pos (m * 8589934592000000))); [|lia].
      apply Zdigits2_gt; [lia|]. change (2 ^ 52) with 4503599627370496. lia. }
    rewrite binary_round_aux_53 by (exact Hdigits || lia).
    destruct s; cbn [xorb cond_Zopp].
    + rewrite SFleb_round_negative. split; [intros _|reflexivity].
      assert (0 < 2 ^ (e + 1200)) by (apply Z.pow_pos_nonneg; lia).
      assert (0 < 2 ^ (k + 1153)) by (apply Z.pow_pos_nonneg; lia). nia.
    + rewrite round_binary64_le by lia.
      replace (e + -33 + 1200) with (e + 1167) by lia.
      replace (e + 1200) with (33 + (e + 1167)) by lia.
      rewrite (Z.pow_add_r 2 33 (e + 1167)) by lia.
      change (2 ^ 33) with 8589934592. rewrite Pos2Z.inj_mul.
      split; intros Hle; nia.
Qed.

(** A finite number is its value in units of [2 ^ -1200]. *)
Lemma number_value_units (t : number) (q : Q) :
  number_valid t = true -> number_value t = Some q ->
  (q * inject_Z (2 ^ 1200) == inject_Z (number_units t))%Q.
Proof.
  intros Hvalid Hvalue. destruct t as [z|[s|s| |s m e]]; try discriminate Hvalue.
  - injection Hvalue as <-. cbn [number_units]. rewrite inject_Z_mult. reflexivity.
  - injection Hvalue as <-. cbn [number_units]. rewrite Qmult_0_l. reflexivity.
  - injection Hvalue as <-. cbn [number_units].
    cbn [number_valid valid_binary] in Hvalid. apply bounded_exponent in Hvalid.
    rewrite inject_Z_mult, !Zpower_Qpower by lia.
    rewrite (Qpower_plus (inject_Z 2) e 1200) by discriminate.
    rewrite Qmult_assoc. reflexivity.
Qed.

Lemma number_units_le (t1 t2 : number) (q1 q2 : Q) :
  number_valid t1 = true -> number_valid t2 = true ->
  number_value t1 = Some q1 -> number_value t2 = Some q2 ->
  (q1 <= q2)%Q <-> number_units t1 <= number_units t2.
Proof.
  intros Hvalid1 Hvalid2 Hvalue1 Hvalue2.
  rewrite Zle_Qle.
  rewrite <- (number_value_units t1 q1 Hvalid1 Hvalue1).
  rewrite <- (number_value_units t2 q2 Hvalid2 Hvalue2).
  symmetry. apply Qmult_le_r.
  rewrite Zpower_Qpower by lia. apply Qpower_0_lt. reflexivity.
Qed.

Lemma number_value_finite (t : number) (q : Q) :
  number_value t = Some q ->
  match t with PyFloat (S754_infinity _ | S754_nan) => False | _ => True end.
Proof. destruct t as [z|[s|s| |s m e]]; try discriminate; intros _; exact I. Qed.

(** The index follows the tests against the table values. *)
Lemma timeout_index_le (t1 t2 : number) :
  (forall k : Z,
      0 <= k <= 14 ->
      int_ge (100 * 2 ^ k) (number_mul_int t2 1000000) = true ->
      int_ge (100 * 2 ^ k) (number_mul_int t1 1000000) = true) ->
  timeout_index t1 <= timeout_index t2.
Proof.
  intros Hfits. unfold timeout_index.
  destruct (List.find (fun it => int_ge (snd it) (number_mul_int t2 1000000)) _TIMEOUT)
    as [it2|] eqn:Hfind2.
  - apply find_first in Hfind2 as (i2 & Hi2 & Hfits2 & _).
    assert (Hlt2 : (i2 < 15)%nat).
    { rewrite <- _TIMEOUT_length. eapply lookup_lt_Some, Hi2. }
    assert (Hi2' := Hi2). rewrite _TIMEOUT_lookup in Hi2' by exact Hlt2.
    injection Hi2' as <-. cbn [fst snd] in Hfits2 |- *.
    apply Hfits in Hfits2; [|lia].
    destruct (List.find (fun it => int_ge (snd it) (number_mul_int t1 1000000)) _TIMEOUT)
      as [it1|] eqn:Hfind1.
    + apply find_first in Hfind1 as (i1 & Hi1 & _ & Hbefore).
      assert (Hlt1 : (i1 < 15)%nat).
      { rewrite <- _TIMEOUT_length. eapply lookup_lt_Some, Hi1. }
      rewrite _TIMEOUT_lookup in Hi1 by exact Hlt1. injection Hi1 as <-. cbn [fst].
      destruct (decide (i1 <= i2)%nat) as [Hok|Hlate]; [lia|]. exfalso.
      assert (Hj : (i2 < i1)%nat) by lia.
      assert (Hfalse := Hbefore _ _ Hj Hi2). cbn [fst snd] in Hfalse. congruence.
    + exfalso. assert (Hfalse := find_nowhere _ _ Hfind1 _ _ Hi2).
      cbn [fst snd] in Hfalse. congruence.
  - destruct (List.find (fun it => int_ge (snd it) (number_mul_int t1 1000000)) _TIMEOUT)
      as [it1|] eqn:Hfind1; [|lia].
    apply find_first in Hfind1 as (i1 & Hi1 & _ & _).
    assert (Hlt1 : (i1 < 15)%nat).
    { rewrite <- _TIMEOUT_length. eapply lookup_lt_Some, Hi1. }
    rewrite _TIMEOUT_lookup in Hi1 by exact Hlt1. injection Hi1 as <-. cbn [fst]. lia.
Qed.

(** X4: a longer timeout never selects a smaller index.  The timeouts are
    any two finite Python numbers, ints or doubles in any mix, ordered by
    their exact values; the rounding of the product with 1000000 keeps the
    order. *)
Theorem timeout_index_monotone (t1 t2 : number) (q1 q2 : Q) :
  number_valid t1 = true -> number_valid t2 = true ->
  number_value t1 = Some q1 -> number_value t2 = Some q2 ->
  (q1 <= q2)%Q ->
  timeout_index t1 <= timeout_index t2.
Proof.
  intros Hvalid1 Hvalid2 Hvalue1 Hvalue2 Hle.
  apply (number_units_le t1 t2 q1 q2 Hvalid1 Hvalid2 Hvalue1 Hvalue2) in Hle.
  apply timeout_index_le. intros k Hk.
  rewrite (int_ge_product t1 k Hvalid1 Hk (number_value_finite t1 q1 Hvalue1)).
  rewrite (int_ge_product t2 k Hvalid2 Hk (number_value_finite t2 q2 Hvalue2)).
  lia.
Qed.

Lemma timeout_index_monotone_doubles :
  timeout_index (PyFloat float_0_00005) <= timeout_index (PyFloat float_5_0).
Proof.
  apply (timeout_index_monotone (PyFloat float_0_00005) (PyFloat float_5_0)
           (7378697629483821 # 147573952589676412928)
           (5629499534213120 # 1125899906842624)); try reflexivity.
  vm_compute. discriminate.
Defined.

(** X28: for a finite timeout of exact value [q] seconds, an int or a
    double, the test of line 504 against the table entry n = 1 .. 15
    succeeds exactly when q * 10^6 <= (100 + 2^-47) * 2^(n-1).  Rounding
    the product to a double enlarges each table value by 2^(n-48)
    microseconds and changes nothing else. *)
Theorem timeout_index_threshold (t : number) (q : Q) (n : Z) :
  number_valid t = true -> number_value t = Some q -> 1 <= n <= 15 ->
  int_ge (100 * 2 ^ (n - 1)) (number_mul_int t 1000000) = true
  <-> (q * 1000000 <= (100 + 1 / 2 ^ 47) * 2 ^ (n - 1))%Q.
Proof.
  intros Hvalid Hvalue Hn.
  assert (Hk : 0 <= n - 1 <= 14) by lia.
  rewrite (int_ge_product t (n - 1) Hvalid Hk (number_value_finite t q Hvalue)).
  assert (Hunits := number_value_units t q Hvalid Hvalue).
  assert (Hscale : (0 < inject_Z (2 ^ 1200))%Q).
  { rewrite Zpower_Qpower by lia. apply Qpower_0_lt. reflexivity. }
  rewrite <- (Qmult_le_r _ _ _ Hscale).
  rewrite Zle_Qle, inject_Z_mult, <- Hunits.
  assert (Hrhs : ((100 + 1 / 2 ^ 47) * 2 ^ (n - 1) * inject_Z (2 ^ 1200)
                  == inject_Z (14073748835532801 * 2 ^ (n - 1 + 1153)))%Q).
  { rewrite inject_Z_mult, !Zpower_Qpower by lia.
    rewrite (Qpower_plus (inject_Z 2) (n - 1) 1153) by discriminate.
    replace 1200 with (47 + 1153) by lia.
    rewrite (Qpower_plus (inject_Z 2) 47 1153) by discriminate.
    set (p := (inject_Z 2 ^ 1153)%Q). set (pn := (inject_Z 2 ^ (n - 1))%Q).
    change (2 ^ (n - 1))%Q with pn.
    assert (H47 : ((100 + 1 / 2 ^ 47) * inject_Z 2 ^ 47 == inject_Z 14073748835532801)%Q)
      by reflexivity.
    rewrite <- H47. ring. }
  rewrite Hrhs.
  split; intros Hle.
  - eapply Qle_trans; [|exact Hle]. apply Qle_lteq. right. ring.
  - eapply Qle_trans; [|exact Hle]. apply Qle_lteq. right. ring.
Qed.

Lemma timeout_index_threshold_0_0001 :
  int_ge (100 * 2 ^ (1 - 1)) (number_mul_int (PyFloat float_0_0001) 1000000) = true
  <-> ((7378697629483821 # 73786976294838206464) * 1000000
       <= (100 + 1 / 2 ^ 47) * 2 ^ (1 - 1))%Q.
Proof.
  apply (timeout_index_threshold (PyFloat float_0_0001)
           (7378697629483821 # 73786976294838206464) 1); [reflexivity|reflexivity|lia].
Defined.

(** ** Link transport, continued *)

(** X5: of the checks the parser makes on a response, only the length
    checksum and the device marker are binding.  Whatever the six bytes
    read for the ACK, the three bytes of the start code, the data checksum
    and the postamble are, a head with a consistent length and the marker
    0xD5 yields the payload of [LEN - 1] bytes; the parser consumes exactly
    the frame, resets the port timeout to 0.5 and writes the ACK. *)
Theorem response_accepted_despite_noise
    (ack start p rest : list Z) (data_len length_checksum data_checksum postamble : Z)
    (t to : Q) (txs : list (list Z)) (rc : gmap Z Z) (rfc : gmap Z (list Z))
    (l : list log_record) :
  length ack = 6%nat ->
  length start = 3%nat ->
  (length_checksum + data_len) mod 256 = 0 ->
  data_len = Z.of_nat (length p) + 1 ->
  exists l',
    get_device_response t
      (mkPN532 (mkBufferedPort
                  (ack ++ start ++ [data_len; length_checksum; 0xD5] ++ p
                       ++ [data_checksum; postamble] ++ rest) txs to) rc rfc l)
    = (Ok (Some p), mkPN532 (mkBufferedPort rest (txs ++ [ACK]) (1 # 2)) rc rfc (l ++ l')).
Proof.
  intros Hack Hstart Hsum Hlen.
  destruct ack as [|a0 [|a1 [|a2 [|a3 [|a4 [|a5 [|]]]]]]]; try discriminate Hack.
  destruct start as [|b0 [|b1 [|b2 [|]]]]; try discriminate Hstart.
  destruct (get_device_response_success t
           (mkPN532 (mkBufferedPort
                       ([a0; a1; a2; a3; a4; a5] ++ [b0; b1; b2]
                          ++ [data_len; length_checksum; 0xD5] ++ p
                          ++ [data_checksum; postamble] ++ rest) txs to) rc rfc l)
           [a0; a1; a2; a3; a4; a5]
           [b0; b1; b2; data_len; length_checksum; 0xD5]
           p [data_checksum] [postamble]
           (mkBufferedPort ([b0; b1; b2] ++ [data_len; length_checksum; 0xD5] ++ p
                              ++ [data_checksum; postamble] ++ rest) txs t)
           (mkBufferedPort (p ++ [data_checksum; postamble] ++ rest) txs t)
           (mkBufferedPort ([data_checksum; postamble] ++ rest) txs t)
           (mkBufferedPort ([postamble] ++ rest) txs t)
           (mkBufferedPort rest txs t)
           data_len length_checksum data_checksum postamble) as [l' Hrun];
    try reflexivity; try discriminate; try exact Hsum.
  - rewrite buffered_read, Hlen.
    replace (Z.to_nat (Z.of_nat (length p) + 1 - 1)) with (length p) by lia.
    rewrite take_app_length, drop_app_length. reflexivity.
  - exists l'. rewrite Hrun. reflexivity.
Qed.

Lemma response_accepted_despite_noise_example :
  exists l',
    get_device_response (1 # 2)
      (mkPN532 (mkBufferedPort
                  ([1; 2; 3; 4; 5; 6] ++ [7; 8; 9] ++ [0x02; 0xFE; 0xD5] ++ [0x03]
                     ++ [0x55; 0x66] ++ [0x77]) [] 5) ∅ ∅ [])
    = (Ok (Some [0x03]), mkPN532 (mkBufferedPort [0x77] ([] ++ [ACK]) (1 # 2)) ∅ ∅ ([] ++ l')).
Proof.
  apply (response_accepted_despite_noise [1; 2; 3; 4; 5; 6] [7; 8; 9] [0x03] [0x77]
           0x02 0xFE 0x55 0x66 (1 # 2) 5 [] ∅ ∅ []); reflexivity.
Defined.

(** X6: a response head cut short by the timeout is not reported as "no
    response": when the second read returns between one and four bytes
    the parser raises [IndexError]. *)
Theorem truncated_head_raises {P : Type} `{SerialPort P}
    (t : Q) (s : PN532 P) (ack frame : list Z) (d1 d2 : P) :
  port_read 6 (port_set_timeout t (device s)) = (ack, d1) ->
  ack <> [] ->
  port_read 6 d1 = (frame, d2) ->
  (1 <= length frame <= 4)%nat ->
  fst (get_device_response t s) = Raise IndexError /\
  device (snd (get_device_response t s)) = d2.
Proof.
  intros Hack Hne Hframe Hlen.
  destruct s as [d rc rfc l]. simpl in Hack.
  unfold_link. rewrite Hack.
  rewrite (bool_decide_false (length ack = 0%nat))
    by (destruct ack; [contradiction|discriminate]).
  simpl_state.
  destruct (bool_decide (ack ≠ ACK)); simpl_state; rewrite Hframe;
    (rewrite (bool_decide_false (length frame = 0%nat))
      by (destruct frame; simpl in Hlen; [lia|discriminate]));
    (destruct (bool_decide (take 3 frame ≠ [0; 0; 255])); simpl_state;
     destruct frame as [|f0 [|f1 [|f2 [|f3 [|f4 rest]]]]]; simpl in Hlen; try lia;
     simpl; split; reflexivity).
Qed.

Lemma truncated_head_raises_example :
  fst (get_device_response (1 # 2) (fresh (ACK ++ [0x00; 0x00; 0xFF; 0x02])))
  = Raise IndexError /\
  device (snd (get_device_response (1 # 2) (fresh (ACK ++ [0x00; 0x00; 0xFF; 0x02]))))
  = mkBufferedPort [] [] (1 # 2).
Proof.
  apply (truncated_head_raises (1 # 2) (fresh (ACK ++ [0x00; 0x00; 0xFF; 0x02]))
           ACK [0x00; 0x00; 0xFF; 0x02]
           (mkBufferedPort [0x00; 0x00; 0xFF; 0x02] [] (1 # 2))
           (mkBufferedPort [] [] (1 # 2))).
  - reflexivity.
  - discriminate.
  - reflexivity.
  - simpl. lia.
Defined.

(** ** Command dispatch *)

Lemma frame_layout_bytes_inv (data : list Z) :
  forallb is_byte (frame_layout data) = true -> Forall (fun b => 0 <= b < 256) data.
Proof.
  intros Hall. apply forallb_is_byte in Hall. unfold frame_layout in Hall.
  apply Forall_app in Hall as [_ Hall]. apply Forall_app in Hall as [Hdata _].
  exact Hdata.
Qed.

(** X7: what [execute_command] makes of the response: no frame or an empty
    payload gives [None]; a payload whose first byte is the command code
    plus one gives the rest of the payload; any other first byte raises
    [RuntimeError]; a failure of the transport is passed on. *)
Theorem execute_command_outcome {P : Type} `{SerialPort P}
    (command : Z) (data frame : list Z) (t : Q) (s : PN532 P) :
  fst (construct_frame (command :: data) s) = Ok frame ->
  fst (execute_command command data t s) =
  match fst (send_frame frame t s) with
  | Ok (Some (code :: rest)) =>
      if bool_decide (code = command + 1) then Ok (Some rest)
      else Raise (RuntimeError "Response code {rsp[0]} does not match the command {command}"
                               [code; command])
  | Ok _ => Ok None
  | Raise e => Raise e
  end.
Proof.
  intros Hframe.
  destruct (construct_frame_inv _ _ _ Hframe) as (s1 & Hrun & _ & Hdev & _).
  destruct (send_frame_device frame t s1 s Hdev) as [Hfst _].
  unfold execute_command.
  rewrite (run_bind_ok _ _ _ _ _ Hrun), run_bind.
  destruct (send_frame frame t s1) as [[rsp|e] s2]; simpl in Hfst; rewrite <- Hfst;
    [|reflexivity].
  destruct rsp as [[|code rest]|]; try reflexivity.
  cbv [falsy index_opt index mbind M_bind mret M_ret raise del0 default id
       lookup list_lookup].
  destruct (decide (code = command + 1)) as [Heq|Hne].
  - rewrite (bool_decide_false (code ≠ command + 1)) by (intros Hne; exact (Hne Heq)).
    rewrite (bool_decide_true (code = command + 1)) by exact Heq. reflexivity.
  - rewrite (bool_decide_true (code ≠ command + 1)) by exact Hne.
    rewrite (bool_decide_false (code = command + 1)) by exact Hne. reflexivity.
Qed.

Lemma execute_command_outcome_read_register :
  fst (execute_command Command.READ_REGISTER [0x63; 0x02] (1 # 2)
         (fresh (ACK ++ [0x00; 0x00; 0xFF; 0x03; 0xFD; 0xD5; 0x07; 0x80; 0xA4; 0x00])))
  = match fst (send_frame (frame_layout [Command.READ_REGISTER; 0x63; 0x02]) (1 # 2)
                 (fresh (ACK ++ [0x00; 0x00; 0xFF; 0x03; 0xFD; 0xD5; 0x07; 0x80; 0xA4; 0x00])))
    with
    | Ok (Some (code :: rest)) =>
        if bool_decide (code = Command.READ_REGISTER + 1) then Ok (Some rest)
        else Raise (RuntimeError "Response code {rsp[0]} does not match the command {command}"
                                 [code; Command.READ_REGISTER])
    | Ok _ => Ok None
    | Raise e => Raise e
    end.
Proof.
  apply (execute_command_outcome Command.READ_REGISTER [0x63; 0x02]
           (frame_layout [Command.READ_REGISTER; 0x63; 0x02])).
  reflexivity.
Defined.

(** X8: a command code or argument that is not a byte is refused before
    anything is written: [execute_command] raises [ValueError] and leaves
    the driver and its port as they were. *)
Theorem execute_command_rejects_non_bytes {P : Type} `{SerialPort P}
    (command : Z) (data : list Z) (t : Q) (s : PN532 P) :
  ~ Forall (fun b => 0 <= b < 256) (command :: data) ->
  execute_command command data t s = (Raise ValueError, s).
Proof.
  intros Hbad. unfold execute_command.
  apply run_bind_raise. rewrite construct_frame_run.
  destruct (forallb is_byte (frame_layout (command :: data))) eqn:Hall; [|reflexivity].
  exfalso. apply Hbad, frame_layout_bytes_inv, Hall.
Qed.

Lemma execute_command_rejects_non_bytes_example :
  execute_command Command.WRITE_REGISTER [0x63; 0x3D; 256] (1 # 2) (fresh [])
  = (Raise ValueError, fresh []).
Proof.
  apply (execute_command_rejects_non_bytes Command.WRITE_REGISTER [0x63; 0x3D; 256]
           (1 # 2) (fresh [])).
  intros Hall. apply forallb_is_byte in Hall. vm_compute in Hall. discriminate Hall.
Defined.

(** ** Register cache *)

Section Caches.
Context {P : Type} `{SerialPort P}.

(** A command leaves both caches alone, however it ends. *)
Lemma execute_command_caches (command : Z) (data : list Z) (t : Q) (s : PN532 P) :
  register_cache (snd (execute_command command data t s)) = register_cache s /\
  rf_configuration_cache (snd (execute_command command data t s))
  = rf_configuration_cache s.
Proof.
  unfold execute_command. rewrite run_bind, construct_frame_run.
  destruct (forallb is_byte (frame_layout (command :: data))); [|split; reflexivity].
  set (s1 := mkPN532 (device s) (register_cache s) (rf_configuration_cache s) _).
  assert (Hcaches := send_frame_caches (frame_layout (command :: data)) t s1).
  rewrite run_bind.
  destruct (send_frame (frame_layout (command :: data)) t s1) as [[rsp|e] s2];
    simpl in Hcaches; [|exact Hcaches].
  destruct rsp as [[|code rest]|]; try exact Hcaches.
  cbv [falsy index_opt index mbind M_bind mret M_ret raise del0 default id
       lookup list_lookup].
  destruct (bool_decide (code ≠ command + 1)); exact Hcaches.
Qed.
End Caches.

Lemma merge_registers_other (registers : list (Z * Z)) (c : gmap Z Z) (a : Z) :
  a ∉ map fst registers -> merge_registers c registers !! a = c !! a.
Proof.
  revert c. induction registers as [|[r v] rest IH]; intros c Hout; [reflexivity|].
  simpl in Hout. apply not_elem_of_cons in Hout as [Hne Hrest].
  unfold merge_registers in *. simpl. rewrite IH by exact Hrest.
  apply lookup_insert_ne. congruence.
Qed.

Lemma merge_registers_lookup (registers : list (Z * Z)) (c : gmap Z Z) (r v : Z) :
  NoDup (map fst registers) -> (r, v) ∈ registers ->
  merge_registers c registers !! r = Some v.
Proof.
  revert c. induction registers as [|[r0 v0] rest IH]; intros c Hnodup Hin.
  - apply elem_of_nil in Hin. contradiction.
  - simpl in Hnodup. apply NoDup_cons in Hnodup as [Hfresh Hnodup].
    apply elem_of_cons in Hin as [Hhead|Htail].
    + injection Hhead as -> ->.
      change (merge_registers c ((r0, v0) :: rest))
        with (merge_registers (<[r0 := v0]> c) rest).
      rewrite merge_registers_other by exact Hfresh. apply lookup_insert_eq.
    + change (merge_registers c ((r0, v0) :: rest))
        with (merge_registers (<[r0 := v0]> c) rest).
      apply IH; assumption.
Qed.

Lemma filter_nil_all {A : Type} (f : A -> bool) (xs : list A) :
  List.filter f xs = [] -> forall x, x ∈ xs -> f x = false.
Proof.
  induction xs as [|a xs IH]; intros Hnil x Hin.
  - apply elem_of_nil in Hin. contradiction.
  - simpl in Hnil. destruct (f a) eqn:Ha; [discriminate|].
    apply elem_of_cons in Hin as [-> | Hin]; [exact Ha|apply IH; assumption].
Qed.

Section RegisterAccess.
Context {P : Type} `{SerialPort P}.

(** A returning [write_registers] either sent nothing and changed nothing,
    or merged the whole mapping into the cache. *)
Lemma write_registers_returns (registers : list (Z * Z)) (cache : bool) (s s' : PN532 P) :
  write_registers registers cache s = (Ok (), s') ->
  (List.filter (fun rv => negb cache || bool_decide (register_cache s !! fst rv ≠ Some (snd rv)))
               registers = [] /\ s' = s) \/
  register_cache s' = merge_registers (register_cache s) registers.
Proof.
  unfold write_registers.
  rewrite (run_bind_ok get_register_cache _ s s (register_cache s) eq_refl).
  destruct (List.filter _ registers) as [|rv difference]; [intros [= <-]; left; split; reflexivity|].
  intros Hrun. right.
  rewrite run_bind in Hrun. unfold lift in Hrun.
  destruct (join_pack_HB (rv :: difference)) as [data|e]; [|discriminate Hrun].
  rewrite run_bind in Hrun.
  assert (Hcache := proj1 (execute_command_caches Command.WRITE_REGISTER data (1 # 2) s)).
  destruct (execute_command Command.WRITE_REGISTER data (1 # 2) s) as [[rsp|e] s1];
    [|discriminate Hrun].
  simpl in Hcache.
  cbv [mbind M_bind get_register_cache set_register_cache] in Hrun.
  injection Hrun as <-. simpl. rewrite Hcache. reflexivity.
Qed.
End RegisterAccess.

(** X9: after a [write_registers] that returns, whether it went to the
    device or was elided, the register cache maps every address of the
    mapping to the value given for it and is unchanged at all other
    addresses. *)
Theorem write_registers_records {P : Type} `{SerialPort P}
    (registers : list (Z * Z)) (cache : bool) (s s' : PN532 P) :
  NoDup (map fst registers) ->
  write_registers registers cache s = (Ok (), s') ->
  (forall r v, (r, v) ∈ registers -> register_cache s' !! r = Some v) /\
  (forall a, a ∉ map fst registers -> register_cache s' !! a = register_cache s !! a).
Proof.
  intros Hnodup Hrun.
  destruct (write_registers_returns _ _ _ _ Hrun) as [[Hnil ->] | Hmerge].
  - split; [|reflexivity]. intros r v Hin.
    assert (Hsame := filter_nil_all _ _ Hnil (r, v) Hin). simpl in Hsame.
    apply orb_false_iff in Hsame as [_ Hsame].
    apply bool_decide_eq_false in Hsame.
    destruct (decide (register_cache s !! r = Some v)) as [Hyes|Hno];
      [exact Hyes|contradiction].
  - rewrite Hmerge. split.
    + intros r v Hin. apply merge_registers_lookup; assumption.
    + intros a Hout. apply merge_registers_other, Hout.
Qed.

Lemma write_registers_records_example :
  (forall r v, (r, v) ∈ [(REG.TX_MODE, 0x80); (REG.RX_MODE, 0x83)] ->
               register_cache
                 (snd (write_registers [(REG.TX_MODE, 0x80); (REG.RX_MODE, 0x83)] true
                                       (fresh []))) !! r = Some v) /\
  (forall a, a ∉ map fst [(REG.TX_MODE, 0x80); (REG.RX_MODE, 0x83)] ->
             register_cache
               (snd (write_registers [(REG.TX_MODE, 0x80); (REG.RX_MODE, 0x83)] true
                                     (fresh []))) !! a
             = register_cache (fresh []) !! a).
Proof.
  apply (write_registers_records [(REG.TX_MODE, 0x80); (REG.RX_MODE, 0x83)] true (fresh [])).
  - apply (bool_decide_unpack _). vm_compute. exact I.
  - vm_compute. reflexivity.
Defined.

Lemma all_in_cache_hit (c : gmap Z Z) (registers : list (Z * Z)) :
  Forall (fun rv => is_Register (fst rv) = true) registers ->
  (forall r v, (r, v) ∈ registers -> c !! r = Some v) ->
  all_in_cache c (map fst registers) = Ok true /\
  lookup_all c (map fst registers) = Ok (map snd registers).
Proof.
  induction registers as [|[r v] rest IH]; intros Hmembers Hcached; [split; reflexivity|].
  apply Forall_cons in Hmembers as [Hmember Hmembers].
  assert (Hrv : c !! r = Some v) by (apply Hcached; left).
  destruct IH as [Hall Hvalues];
    [exact Hmembers|intros r' v' Hin; apply Hcached; right; exact Hin|].
  simpl in Hmember. simpl. rewrite Hmember, Hrv.
  rewrite (bool_decide_true (is_Some (Some v))) by (eexists; reflexivity).
  rewrite Hall, Hvalues. split; reflexivity.
Qed.

(** X10: write, then read back: after a [write_registers] that returns, a
    cached [read_registers] of the addresses just written returns the
    values just written, in order, without any traffic (the driver and its
    port stay as the write left them). *)
Theorem write_then_cached_read {P : Type} `{SerialPort P}
    (registers : list (Z * Z)) (cache : bool) (s s' : PN532 P) :
  NoDup (map fst registers) ->
  Forall (fun rv => is_Register (fst rv) = true) registers ->
  write_registers registers cache s = (Ok (), s') ->
  read_registers (map fst registers) true s' = (Ok (map snd registers), s').
Proof.
  intros Hnodup Hmembers Hrun.
  assert (Hcached : forall r v, (r, v) ∈ registers -> register_cache s' !! r = Some v).
  { destruct (write_registers_returns _ _ _ _ Hrun) as [[Hnil ->] | Hmerge].
    - intros r v Hin.
      assert (Hsame := filter_nil_all _ _ Hnil (r, v) Hin). simpl in Hsame.
      apply orb_false_iff in Hsame as [_ Hsame].
      apply bool_decide_eq_false in Hsame.
      destruct (decide (register_cache s !! r = Some v)) as [Hyes|Hno];
        [exact Hyes|contradiction].
    - rewrite Hmerge. intros r v Hin. apply merge_registers_lookup; assumption. }
  destruct (all_in_cache_hit (register_cache s') registers Hmembers Hcached)
    as [Hall Hvalues].
  unfold read_registers.
  rewrite (run_bind_ok get_register_cache _ s' s' (register_cache s') eq_refl).
  unfold lift. rewrite run_bind, Hall, Hvalues. reflexivity.
Qed.

Lemma write_then_cached_read_example :
  read_registers (map fst [(REG.TX_MODE, 0x80); (REG.RX_MODE, 0x83)]) true
    (snd (write_registers [(REG.TX_MODE, 0x80); (REG.RX_MODE, 0x83)] false (fresh [])))
  = (Ok (map snd [(REG.TX_MODE, 0x80); (REG.RX_MODE, 0x83)]),
     snd (write_registers [(REG.TX_MODE, 0x80); (REG.RX_MODE, 0x83)] false (fresh []))).
Proof.
  apply (write_then_cached_read [(REG.TX_MODE, 0x80); (REG.RX_MODE, 0x83)] false (fresh [])).
  - apply (bool_decide_unpack _). vm_compute. exact I.
  - repeat (apply Forall_cons; split; [reflexivity|]). apply Forall_nil. exact I.
  - vm_compute. reflexivity.
Defined.

(** X11: [write_registers] does not look at the response.  Without
    caching, when the device returns no response frame to WRITE_REGISTER
    the call still returns normally and records the whole mapping in the
    register cache. *)
Theorem write_registers_unanswered {P : Type} `{SerialPort P}
    (registers : list (Z * Z)) (data frame : list Z) (s : PN532 P) :
  registers <> [] ->
  join_pack_HB registers = Ok data ->
  fst (construct_frame (Command.WRITE_REGISTER :: data) s) = Ok frame ->
  fst (send_frame frame (1 # 2) s) = Ok None ->
  exists s',
    write_registers registers false s = (Ok (), s') /\
    register_cache s' = merge_registers (register_cache s) registers.
Proof.
  intros Hsome Hdata Hframe Hnone.
  destruct (execute_command_none _ _ _ _ _ Hframe Hnone) as [s2 Hexec].
  assert (Hcache := proj1 (execute_command_caches Command.WRITE_REGISTER data (1 # 2) s)).
  rewrite Hexec in Hcache. simpl in Hcache.
  assert (Hall : List.filter
                   (fun rv => negb false
                              || bool_decide (register_cache s !! fst rv ≠ Some (snd rv)))
                   registers = registers).
  { clear. induction registers as [|rv rest IH]; [reflexivity|].
    simpl. f_equal. exact IH. }
  eexists. split.
  - unfold write_registers.
    rewrite (run_bind_ok get_register_cache _ s s (register_cache s) eq_refl).
    rewrite Hall. destruct registers as [|rv rest]; [contradiction|].
    unfold lift. rewrite run_bind, Hdata.
    rewrite (run_bind_ok _ _ _ _ _ Hexec).
    cbv [mbind M_bind get_register_cache set_register_cache]. reflexivity.
  - simpl. rewrite Hcache. reflexivity.
Qed.

Lemma write_registers_unanswered_example :
  exists s',
    write_registers [(REG.BIT_FRAMING, 0x07)] false (fresh []) = (Ok (), s') /\
    register_cache s' = merge_registers (register_cache (fresh [])) [(REG.BIT_FRAMING, 0x07)].
Proof.
  apply (write_registers_unanswered [(REG.BIT_FRAMING, 0x07)] [0x63; 0x3D; 0x07]
           (frame_layout [Command.WRITE_REGISTER; 0x63; 0x3D; 0x07]) (fresh [])).
  - discriminate.
  - reflexivity.
  - reflexivity.
  - reflexivity.
Defined.

Lemma lookup_all_cached (c : gmap Z Z) (registers : list Z) :
  Forall (fun r => is_Register r = true /\ is_Some (c !! r)) registers ->
  all_in_cache c registers = Ok true /\
  exists values,
    lookup_all c registers = Ok values /\
    Forall2 (fun r v => c !! r = Some v) registers values.
Proof.
  induction 1 as [|r rest [Hmember [v Hv]] _ [Hall (values & Hvalues & Hrel)]].
  - split; [reflexivity|]. exists []. split; [reflexivity|constructor].
  - simpl. rewrite Hmember, Hv.
    rewrite (bool_decide_true (is_Some (Some v))) by (eexists; reflexivity).
    rewrite Hall, Hvalues. split; [reflexivity|].
    exists (v :: values). split; [reflexivity|]. constructor; assumption.
Qed.

(** X12: a cached [read_registers] whose addresses are all members of
    [Register] and all present in the cache returns the cached values in
    request order and touches nothing: no command, no log record. *)
Theorem read_registers_cache_hit {P : Type} `{SerialPort P}
    (registers : list Z) (s : PN532 P) :
  Forall (fun r => is_Register r = true /\ is_Some (register_cache s !! r)) registers ->
  exists values,
    read_registers registers true s = (Ok values, s) /\
    Forall2 (fun r v => register_cache s !! r = Some v) registers values.
Proof.
  intros Hall.
  destruct (lookup_all_cached _ _ Hall) as [Hhit (values & Hvalues & Hrel)].
  exists values. split; [|exact Hrel].
  unfold read_registers.
  rewrite (run_bind_ok get_register_cache _ s s (register_cache s) eq_refl).
  unfold lift. rewrite run_bind, Hhit, Hvalues. reflexivity.
Qed.

Lemma read_registers_cache_hit_example :
  exists values,
    read_registers [REG.BIT_FRAMING; REG.TX_MODE] true configured_silent
    = (Ok values, configured_silent) /\
    Forall2 (fun r v => register_cache configured_silent !! r = Some v)
            [REG.BIT_FRAMING; REG.TX_MODE] values.
Proof.
  apply (read_registers_cache_hit [REG.BIT_FRAMING; REG.TX_MODE] configured_silent).
  repeat (apply Forall_cons; split; [split; [reflexivity|eexists; reflexivity]|]).
  apply Forall_nil. exact I.
Defined.

(** X13: [read_registers] never writes the register cache: values fetched
    from the device are returned but not remembered, so only
    [write_registers] ever fills the cache. *)
Theorem read_registers_keeps_cache {P : Type} `{SerialPort P}
    (registers : list Z) (cache : bool) (s : PN532 P) :
  register_cache (snd (read_registers registers cache s)) = register_cache s /\
  rf_configuration_cache (snd (read_registers registers cache s))
  = rf_configuration_cache s.
Proof.
  unfold read_registers.
  rewrite (run_bind_ok get_register_cache _ s s (register_cache s) eq_refl).
  rewrite run_bind.
  assert (Hpure : forall r : result bool,
             (if cache then lift r else mret false) s
             = ((if cache then r else Ok false), s))
    by (intros r; destruct cache; reflexivity).
  rewrite Hpure.
  destruct (if cache then all_in_cache (register_cache s) registers else Ok false)
    as [[|]|e]; [unfold lift; simpl; split; reflexivity| |simpl; split; reflexivity].
  rewrite run_bind. unfold lift.
  destruct (join_pack_H registers) as [data|e]; [|simpl; split; reflexivity].
  rewrite run_bind.
  assert (Hcaches := execute_command_caches Command.READ_REGISTER data (1 # 2) s).
  destruct (execute_command Command.READ_REGISTER data (1 # 2) s) as [[rsp|e] s1];
    simpl in Hcaches; [|exact Hcaches].
  destruct (falsy rsp); exact Hcaches.
Qed.

(** X14: with caching requested, an address that is no member of
    [Register] makes [read_registers] raise [ValueError] as soon as the
    addresses before it are found in the cache; nothing is sent. *)
Theorem read_registers_unknown_address {P : Type} `{SerialPort P}
    (before after : list Z) (r : Z) (s : PN532 P) :
  Forall (fun a => is_Register a = true /\ is_Some (register_cache s !! a)) before ->
  is_Register r = false ->
  read_registers (before ++ r :: after) true s = (Raise ValueError, s).
Proof.
  intros Hbefore Hunknown.
  assert (Hall : all_in_cache (register_cache s) (before ++ r :: after) = Raise ValueError).
  { induction Hbefore as [|a rest [Hmember Hcached] _ IH].
    - simpl. rewrite Hunknown. reflexivity.
    - simpl. rewrite Hmember, (bool_decide_true _ Hcached). exact IH. }
  unfold read_registers.
  rewrite (run_bind_ok get_register_cache _ s s (register_cache s) eq_refl).
  unfold lift. rewrite run_bind, Hall. reflexivity.
Qed.

Lemma read_registers_unknown_address_example :
  read_registers ([REG.TX_MODE] ++ 0x6300 :: [REG.RX_MODE]) true configured_silent
  = (Raise ValueError, configured_silent).
Proof.
  apply (read_registers_unknown_address [REG.TX_MODE] [REG.RX_MODE] 0x6300 configured_silent).
  - repeat (apply Forall_cons; split; [split; [reflexivity|eexists; reflexivity]|]).
    apply Forall_nil. exact I.
  - reflexivity.
Defined.

(** ** RF configuration *)

(** X15: after an [rf_configuration] that returns, with or without
    caching, the RF configuration cache holds the value applied for the
    item, and applying the same value again with caching is a no-op on the
    driver and its port. *)
Theorem rf_configuration_then_cached {P : Type} `{SerialPort P}
    (cfg_item : Z) (value : list Z) (cache : bool) (s s' : PN532 P) :
  rf_configuration cfg_item value cache s = (Ok (), s') ->
  rf_configuration_cache s' !! cfg_item = Some value /\
  rf_configuration cfg_item value true s' = (Ok (), s').
Proof.
  intros Hrun.
  assert (Hcached : rf_configuration_cache s' !! cfg_item = Some value).
  { unfold rf_configuration in Hrun.
    rewrite (run_bind_ok get_rf_configuration_cache _ s s (rf_configuration_cache s) eq_refl)
      in Hrun.
    destruct (cache && bool_decide (rf_configuration_cache s !! cfg_item = Some value))
      eqn:Hhit.
    - injection Hrun as <-. apply andb_true_iff in Hhit as [_ Hhit].
      apply bool_decide_eq_true in Hhit. exact Hhit.
    - rewrite run_bind in Hrun.
      destruct (execute_command Command.RF_CONFIGURATION (cfg_item :: value) (1 # 2) s)
        as [[rsp|e] s1]; [|discriminate Hrun].
      cbv [mbind M_bind get_rf_configuration_cache set_rf_configuration_cache] in Hrun.
      injection Hrun as <-. simpl. apply lookup_insert_eq. }
  split; [exact Hcached|].
  unfold rf_configuration.
  rewrite (run_bind_ok get_rf_configuration_cache _ s' s' (rf_configuration_cache s') eq_refl).
  rewrite (bool_decide_true _ Hcached). reflexivity.
Qed.

Lemma rf_configuration_then_cached_example :
  rf_configuration_cache
    (snd (rf_configuration RFConfigItem.VARIOUS_TIMINGS [0x00; 0x0B; 0x0A] false (fresh [])))
  !! RFConfigItem.VARIOUS_TIMINGS = Some [0x00; 0x0B; 0x0A] /\
  rf_configuration RFConfigItem.VARIOUS_TIMINGS [0x00; 0x0B; 0x0A] true
    (snd (rf_configuration RFConfigItem.VARIOUS_TIMINGS [0x00; 0x0B; 0x0A] false (fresh [])))
  = (Ok (),
     snd (rf_configuration RFConfigItem.VARIOUS_TIMINGS [0x00; 0x0B; 0x0A] false (fresh []))).
Proof.
  apply (rf_configuration_then_cached RFConfigItem.VARIOUS_TIMINGS [0x00; 0x0B; 0x0A]
           false (fresh [])).
  vm_compute. reflexivity.
Defined.

(** ** Raw exchange *)

Lemma run_bind_ok_inv {P A B} (m : M P A) (f : A -> M P B) (s s' : PN532 P) (b : B) :
  (m ≫= f) s = (Ok b, s') ->
  exists a s1, m s = (Ok a, s1) /\ f a s1 = (Ok b, s').
Proof.
  rewrite run_bind. destruct (m s) as [[a|e] s1]; [|discriminate].
  intros Hrest. exists a, s1. split; [reflexivity|exact Hrest].
Qed.

Lemma key_some {P K V : Type} `{EqDecision K} (d : list (K * V)) (k : K) (v : V)
    (s : PN532 P) :
  assoc k d = Some v -> key d k s = (Ok v, s).
Proof. intros Hfound. unfold key. rewrite Hfound. reflexivity. Qed.

Lemma key_none {P K V : Type} `{EqDecision K} (d : list (K * V)) (k : K) (s : PN532 P) :
  assoc k d = None -> key d k s = (Raise KeyError, s).
Proof. intros Hmissing. unfold key. rewrite Hmissing. reflexivity. Qed.

Lemma _BITRATE_missing (bitrate : Z) :
  bitrate ∉ [106; 212; 424; 848] -> assoc bitrate _BITRATE = None.
Proof.
  intros Hout. unfold assoc, _BITRATE. simpl.
  repeat (rewrite bool_decide_false
           by (intros <-; apply Hout; repeat first [left; fail | right]; left));
  reflexivity.
Qed.

Lemma preset_missing (type_ : string) :
  type_ ∉ ["A"%string; "B"%string; "F"%string] ->
  assoc type_ _REGISTER_CONFIGURATION_FOR_TYPE = None.
Proof.
  intros Hout. unfold assoc, _REGISTER_CONFIGURATION_FOR_TYPE. simpl.
  repeat (rewrite bool_decide_false
           by (intros <-; apply Hout; repeat first [left; fail | right]; left));
  reflexivity.
Qed.

(** X16: an unsupported bit rate or type is found out late.  Once the RF
    timing has been applied and the four mode registers read,
    [transceive_raw] raises [KeyError] for a bit rate other than 106, 212,
    424, 848 or a type other than "A", "B", "F" ("DEP" included, which has
    a framing code but no preset); no register is written. *)
Theorem transceive_raw_unsupported {P : Type} `{SerialPort P}
    (data : list Z) (type_ : string) (crc : bool) (bits bitrate : Z) (timeout : number)
    (cache_configuration : bool) (s s1 s2 : PN532 P)
    (tx_mode rx_mode tx_auto bit_frm : Z) :
  rf_configuration RFConfigItem.VARIOUS_TIMINGS [0x00; 0x0B; timeout_index timeout]
                   cache_configuration s = (Ok (), s1) ->
  read_registers [REG.TX_MODE; REG.RX_MODE; REG.TX_AUTO; REG.BIT_FRAMING]
                 cache_configuration s1
  = (Ok [tx_mode; rx_mode; tx_auto; bit_frm], s2) ->
  bitrate ∉ [106; 212; 424; 848] \/ type_ ∉ ["A"%string; "B"%string; "F"%string] ->
  transceive_raw data type_ crc bits bitrate timeout cache_configuration s
  = (Raise KeyError, s2).
Proof.
  intros Hrf Hread Hbad.
  unfold transceive_raw. apply run_bind_raise.
  unfold transceive_raw_configure. cbv zeta.
  rewrite (run_bind_ok _ _ _ _ _ Hrf), (run_bind_ok _ _ _ _ _ Hread).
  destruct (assoc bitrate _BITRATE) as [speed|] eqn:Hspeed;
    [|apply run_bind_raise, key_none, Hspeed].
  destruct Hbad as [Hrate|Htype];
    [rewrite _BITRATE_missing in Hspeed by exact Hrate; discriminate Hspeed|].
  rewrite (run_bind_ok _ _ _ _ _ (key_some _ _ _ s2 Hspeed)).
  destruct (assoc type_ _FRAMING) as [framing|] eqn:Hframing;
    [|apply run_bind_raise, key_none, Hframing].
  rewrite (run_bind_ok _ _ _ _ _ (key_some _ _ _ s2 Hframing)).
  apply run_bind_raise, key_none, preset_missing, Htype.
Qed.

Lemma transceive_raw_unsupported_dep :
  transceive_raw [0x26] "DEP" true 8 106 (PyInt 1) true configured_silent
  = (Raise KeyError,
     snd (rf_configuration RFConfigItem.VARIOUS_TIMINGS [0x00; 0x0B; timeout_index (PyInt 1)]
                           true configured_silent)).
Proof.
  apply (transceive_raw_unsupported [0x26] "DEP" true 8 106 (PyInt 1) true configured_silent
           (snd (rf_configuration RFConfigItem.VARIOUS_TIMINGS [0x00; 0x0B; timeout_index (PyInt 1)]
                                  true configured_silent))
           (snd (rf_configuration RFConfigItem.VARIOUS_TIMINGS [0x00; 0x0B; timeout_index (PyInt 1)]
                                  true configured_silent))
           0x80 0x80 0x40 0x00).
  - vm_compute. reflexivity.
  - vm_compute. reflexivity.
  - right. apply (bool_decide_unpack _). vm_compute. exact I.
Defined.

(** X17: how [transceive_raw] reads the answer of the exchange: a payload
    whose status byte is 0 gives the bytes after it, any other status byte
    gives [None], and a payload that was only the echoed command code
    raises [IndexError]. *)
Theorem transceive_raw_status {P : Type} `{SerialPort P}
    (data data' payload : list Z) (type_ : string) (crc : bool) (bits bitrate : Z)
    (timeout : number) (cache_configuration : bool) (s s1 : PN532 P) :
  transceive_raw_configure data type_ crc bits bitrate timeout cache_configuration s
  = (Ok data', s1) ->
  fst (execute_command Command.IN_COMMUNICATE_THRU data' (1 # 2) s1) = Ok (Some payload) ->
  fst (transceive_raw data type_ crc bits bitrate timeout cache_configuration s)
  = match payload with
    | [] => Raise IndexError
    | status :: rest => Ok (if bool_decide (status = 0) then Some rest else None)
    end.
Proof.
  intros Hconf Hexec. unfold transceive_raw.
  rewrite (run_bind_ok _ _ _ _ _ Hconf), run_bind.
  destruct (execute_command Command.IN_COMMUNICATE_THRU data' (1 # 2) s1) as [r s2].
  simpl in Hexec. subst r.
  destruct payload as [|status rest]; [reflexivity|].
  cbv [index_opt index mbind M_bind mret M_ret raise del0 default id lookup list_lookup].
  destruct (decide (status = 0)) as [-> | Hne].
  - reflexivity.
  - rewrite (bool_decide_true (status ≠ 0)) by exact Hne.
    rewrite (bool_decide_false (status = 0)) by exact Hne. reflexivity.
Qed.

(** A silent port whose caches make the whole configuration a no-op. *)
Lemma transceive_raw_status_example :
  fst (transceive_raw [0x26] "A" false 7 106 (PyInt 1) true
         (mkPN532 (mkBufferedPort (ACK ++ [0x00; 0x00; 0xFF; 0x03; 0xFD; 0xD5; 0x43; 0x01;
                                           0xE7; 0x00]) [] (1 # 2))
                  (register_cache
                     (snd (transceive_raw_configure [0x26] "A" false 7 106 (PyInt 1) true
                                                    configured_silent)))
                  (rf_configuration_cache
                     (snd (transceive_raw_configure [0x26] "A" false 7 106 (PyInt 1) true
                                                    configured_silent)))
                  []))
  = match [0x01] with
    | [] => Raise IndexError
    | status :: rest => Ok (if bool_decide (status = 0) then Some rest else None)
    end.
Proof.
  eapply (transceive_raw_status [0x26] [0x26] [0x01] "A" false 7 106 (PyInt 1) true).
  - vm_compute. reflexivity.
  - vm_compute. reflexivity.
Defined.

Lemma key_ok_inv {P K V : Type} `{EqDecision K} (d : list (K * V)) (k : K) (v : V)
    (s s' : PN532 P) :
  key d k s = (Ok v, s') -> assoc k d = Some v /\ s' = s.
Proof.
  unfold key. destruct (assoc k d) as [v'|]; [|discriminate].
  intros [= -> ->]. split; reflexivity.
Qed.

Lemma preset_keys_nodup (type_ : string) (preset : list (Z * Z)) :
  assoc type_ _REGISTER_CONFIGURATION_FOR_TYPE = Some preset ->
  NoDup ([REG.TX_MODE; REG.RX_MODE; REG.TX_AUTO; REG.BIT_FRAMING] ++ map fst preset).
Proof.
  unfold assoc, _REGISTER_CONFIGURATION_FOR_TYPE. simpl.
  repeat (match goal with
          | |- context [bool_decide ?Q] => destruct (bool_decide Q)
          end; simpl);
    try discriminate; intros [= <-]; apply (bool_decide_unpack _); vm_compute; exact I.
Qed.

(** X18: when the configuration part of [transceive_raw] returns, the
    bytes handed to the exchange are the caller's, with the length prefix
    [len(data) + 1] put in front for type "F" only; and the register cache
    holds every register of the type's analog preset at its preset value. *)
Theorem transceive_raw_configure_returns {P : Type} `{SerialPort P}
    (data data' : list Z) (type_ : string) (crc : bool) (bits bitrate : Z)
    (timeout : number) (cache_configuration : bool) (s s1 : PN532 P) :
  transceive_raw_configure data type_ crc bits bitrate timeout cache_configuration s
  = (Ok data', s1) ->
  data' = (if bool_decide (type_ = "F"%string)
           then Z.of_nat (length data) + 1 :: data else data) /\
  exists preset,
    assoc type_ _REGISTER_CONFIGURATION_FOR_TYPE = Some preset /\
    forall r v, (r, v) ∈ preset -> register_cache s1 !! r = Some v.
Proof.
  unfold transceive_raw_configure. cbv zeta. intros Hrun.
  apply run_bind_ok_inv in Hrun as ([] & sa & _ & Hrun).
  apply run_bind_ok_inv in Hrun as (regs & sb & _ & Hrun).
  destruct regs as [|tx_mode [|rx_mode [|tx_auto [|bit_frm [|extra regs]]]]];
    try discriminate Hrun.
  apply run_bind_ok_inv in Hrun as (speed & sc & Hspeed & Hrun).
  apply key_ok_inv in Hspeed as [_ ->].
  apply run_bind_ok_inv in Hrun as (framing & sd & Hframing & Hrun).
  apply key_ok_inv in Hframing as [_ ->].
  apply run_bind_ok_inv in Hrun as (preset & se & Hpreset & Hrun).
  apply key_ok_inv in Hpreset as [Hpreset ->].
  apply run_bind_ok_inv in Hrun as ([] & sf & Hwrite & Hrun).
  injection Hrun as <- <-.
  split; [reflexivity|]. exists preset. split; [exact Hpreset|].
  intros r v Hin.
  set (registers := [(REG.TX_MODE, _); (REG.RX_MODE, _); (REG.TX_AUTO, _);
                     (REG.BIT_FRAMING, _)] ++ preset) in Hwrite.
  assert (Hnodup : NoDup (map fst registers)).
  { subst registers. rewrite map_app. exact (preset_keys_nodup type_ preset Hpreset). }
  assert (Hmember : (r, v) ∈ registers).
  { subst registers. apply elem_of_app. right. exact Hin. }
  destruct (write_registers_returns _ _ _ _ Hwrite) as [[Hnil ->] | Hmerge].
  - assert (Hsame := filter_nil_all _ _ Hnil (r, v) Hmember). simpl in Hsame.
    apply orb_false_iff in Hsame as [_ Hsame].
    apply bool_decide_eq_false in Hsame.
    destruct (decide (register_cache sb !! r = Some v)) as [Hyes|Hno];
      [exact Hyes|contradiction].
  - rewrite Hmerge. apply merge_registers_lookup; assumption.
Qed.

Lemma transceive_raw_configure_returns_felica :
  [0x06; 0x00; 0xFF; 0xFF; 0x00; 0x00]
  = (if bool_decide ("F"%string = "F"%string)
     then Z.of_nat (length [0x00; 0xFF; 0xFF; 0x00; 0x00]) + 1
          :: [0x00; 0xFF; 0xFF; 0x00; 0x00]
     else [0x00; 0xFF; 0xFF; 0x00; 0x00]) /\
  exists preset,
    assoc "F"%string _REGISTER_CONFIGURATION_FOR_TYPE = Some preset /\
    forall r v, (r, v) ∈ preset ->
      register_cache
        (snd (transceive_raw_configure [0x00; 0xFF; 0xFF; 0x00; 0x00] "F" true 8 212 (PyInt 1) true
                                       configured_silent)) !! r = Some v.
Proof.
  apply (transceive_raw_configure_returns [0x00; 0xFF; 0xFF; 0x00; 0x00]
           [0x06; 0x00; 0xFF; 0xFF; 0x00; 0x00] "F" true 8 212 (PyInt 1) true configured_silent).
  vm_compute. reflexivity.
Defined.

(** ** Target discovery and data exchange *)

Lemma slice_to_app (xs ys : list Z) : slice_to (Z.of_nat (length xs)) (xs ++ ys) = xs.
Proof.
  unfold slice_to. rewrite (proj2 (Z.ltb_ge _ _)) by lia.
  rewrite Nat2Z.id. apply take_app_length.
Qed.

Lemma del_slice_to_app (xs ys : list Z) :
  del_slice_to (Z.of_nat (length xs)) (xs ++ ys) = ys.
Proof.
  unfold del_slice_to. rewrite (proj2 (Z.ltb_ge _ _)) by lia.
  rewrite Nat2Z.id. apply drop_app_length.
Qed.


Ltac eval_parse :=
  cbv [falsy default id index index_opt del0 when mbind M_bind mret M_ret raise
       log_error log_debug log_emit lookup list_lookup].

(** X19: [poll_a] decodes a response announcing a target field by field:
    after the echoed command code and a non-zero target count come the
    target id, two bytes of sense response, the select response, the
    identifier behind its length byte, and the answer-to-select behind a
    length byte that counts itself; bytes after the answer-to-select are
    ignored. *)
Theorem poll_a_decodes {P : Type} `{SerialPort P}
    (frame nfcid ats rest : list Z) (code num tg s0 s1 sel : Z) (s : PN532 P) :
  fst (construct_frame [Command.IN_LIST_PASSIVE_TARGET; 0x01; 0x00] s) = Ok frame ->
  fst (send_frame frame (1 # 2) s)
  = Ok (Some (code :: num :: tg :: s0 :: s1 :: sel :: Z.of_nat (length nfcid)
                :: nfcid ++ (Z.of_nat (length ats) + 1) :: ats ++ rest)) ->
  num <> 0 ->
  fst (poll_a s) = Ok (Some (mkTypeATag tg [s0; s1] sel nfcid ats)).
Proof.
  intros Hframe Hsome Hnum.
  set (st0 := snd (log_debug "Polling A" [] s)).
  assert (Hframe0 : fst (construct_frame [Command.IN_LIST_PASSIVE_TARGET; 0x01; 0x00] st0)
                    = Ok frame).
  { rewrite construct_frame_run in *. exact Hframe. }
  destruct (construct_frame_inv _ _ _ Hframe0) as (st1 & Hrun & _ & Hdev & _).
  destruct (send_frame_device frame (1 # 2) st1 s Hdev) as [Hfst _].
  rewrite Hsome in Hfst.
  destruct (send_frame frame (1 # 2) st1) as [r st2] eqn:Hsend.
  simpl in Hfst. subst r.
  unfold poll_a.
  rewrite (run_bind_ok (log_debug "Polling A" []) _ s st0 () eq_refl).
  rewrite (run_bind_ok _ _ _ _ _ Hrun), (run_bind_ok _ _ _ _ _ Hsend).
  change (del_slice_to 2) with (del_slice_to (Z.of_nat (length [s0; s1]))).
  change (slice_to 2) with (slice_to (Z.of_nat (length [s0; s1]))).
  eval_parse.
  rewrite (bool_decide_false (num = 0)) by exact Hnum.
  change (s0 :: s1 :: sel :: Z.of_nat (length nfcid)
             :: nfcid ++ (Z.of_nat (length ats) + 1) :: ats ++ rest)
    with ([s0; s1] ++ sel :: Z.of_nat (length nfcid)
             :: nfcid ++ (Z.of_nat (length ats) + 1) :: ats ++ rest).
  rewrite slice_to_app, del_slice_to_app.
  rewrite slice_to_app, del_slice_to_app.
  replace (Z.of_nat (length ats) + 1 - 1) with (Z.of_nat (length ats)) by lia.
  rewrite slice_to_app.
  destruct (bool_decide (code ≠ Command.IN_LIST_PASSIVE_TARGET + 1)); reflexivity.
Qed.

Lemma poll_a_decodes_example :
  fst (poll_a (fresh (ACK ++ [0x00; 0x00; 0xFF; 0x0F; 0xF1; 0xD5; 0x4B; 0x01; 0x01; 0x00;
                              0x04; 0x20; 0x04; 0x01; 0x02; 0x03; 0x04; 0x02; 0x75; 0x00;
                              0x3A; 0x00])))
  = Ok (Some (mkTypeATag 0x01 [0x00; 0x04] 0x20 [0x01; 0x02; 0x03; 0x04] [0x75])).
Proof.
  apply (poll_a_decodes (frame_layout [Command.IN_LIST_PASSIVE_TARGET; 0x01; 0x00])
           [0x01; 0x02; 0x03; 0x04] [0x75] [0x00] 0x4B 0x01 0x01 0x00 0x04 0x20).
  - reflexivity.
  - reflexivity.
  - discriminate.
Defined.

(** X20: a target without answer-to-select is not handled: when the
    response ends with the identifier (as for a tag that is not
    ISO 14443-4), [poll_a] raises [IndexError] on the missing length
    byte. *)
Theorem poll_a_without_ats {P : Type} `{SerialPort P}
    (frame nfcid : list Z) (code num tg s0 s1 sel : Z) (s : PN532 P) :
  fst (construct_frame [Command.IN_LIST_PASSIVE_TARGET; 0x01; 0x00] s) = Ok frame ->
  fst (send_frame frame (1 # 2) s)
  = Ok (Some (code :: num :: tg :: s0 :: s1 :: sel :: Z.of_nat (length nfcid) :: nfcid)) ->
  num <> 0 ->
  fst (poll_a s) = Raise IndexError.
Proof.
  intros Hframe Hsome Hnum.
  set (st0 := snd (log_debug "Polling A" [] s)).
  assert (Hframe0 : fst (construct_frame [Command.IN_LIST_PASSIVE_TARGET; 0x01; 0x00] st0)
                    = Ok frame).
  { rewrite construct_frame_run in *. exact Hframe. }
  destruct (construct_frame_inv _ _ _ Hframe0) as (st1 & Hrun & _ & Hdev & _).
  destruct (send_frame_device frame (1 # 2) st1 s Hdev) as [Hfst _].
  rewrite Hsome in Hfst.
  destruct (send_frame frame (1 # 2) st1) as [r st2] eqn:Hsend.
  simpl in Hfst. subst r.
  unfold poll_a.
  rewrite (run_bind_ok (log_debug "Polling A" []) _ s st0 () eq_refl).
  rewrite (run_bind_ok _ _ _ _ _ Hrun), (run_bind_ok _ _ _ _ _ Hsend).
  change (del_slice_to 2) with (del_slice_to (Z.of_nat (length [s0; s1]))).
  change (slice_to 2) with (slice_to (Z.of_nat (length [s0; s1]))).
  eval_parse.
  rewrite (bool_decide_false (num = 0)) by exact Hnum.
  change (s0 :: s1 :: sel :: Z.of_nat (length nfcid) :: nfcid)
    with ([s0; s1] ++ sel :: Z.of_nat (length nfcid) :: nfcid).
  rewrite slice_to_app, del_slice_to_app.
  assert (Hdrop : del_slice_to (Z.of_nat (length nfcid)) nfcid = []).
  { rewrite <- (app_nil_r nfcid) at 2. apply del_slice_to_app. }
  rewrite Hdrop.
  destruct (bool_decide (code ≠ Command.IN_LIST_PASSIVE_TARGET + 1)); reflexivity.
Qed.

Lemma poll_a_without_ats_example :
  fst (poll_a (fresh (ACK ++ [0x00; 0x00; 0xFF; 0x0C; 0xF4; 0xD5; 0x4B; 0x01; 0x01; 0x00;
                              0x44; 0x00; 0x04; 0x01; 0x02; 0x03; 0x04; 0x91; 0x00])))
  = Raise IndexError.
Proof.
  apply (poll_a_without_ats (frame_layout [Command.IN_LIST_PASSIVE_TARGET; 0x01; 0x00])
           [0x01; 0x02; 0x03; 0x04] 0x4B 0x01 0x01 0x00 0x44 0x00).
  - reflexivity.
  - reflexivity.
  - discriminate.
Defined.

Lemma construct_frame_fst {P : Type} `{SerialPort P} (data : list Z) (s : PN532 P) :
  fst (construct_frame data s)
  = if forallb is_byte (frame_layout data) then Ok (frame_layout data)
    else Raise ValueError.
Proof.
  rewrite construct_frame_run. destruct (forallb is_byte (frame_layout data)); reflexivity.
Qed.

(** X21: [verify_firmware_version] raises [RuntimeError] when no response
    (or an empty one) comes back, and otherwise answers whether the
    response is exactly five bytes long, starts with the command code plus
    one (0x03) and carries the IC code 0x32 in its second byte. *)
Theorem verify_firmware_version_outcome {P : Type} `{SerialPort P}
    (frame : list Z) (s : PN532 P) :
  fst (construct_frame [Command.GET_FIRMWARE_VERSION] s) = Ok frame ->
  fst (verify_firmware_version s) =
  match fst (send_frame (_LONG_PREAMBLE ++ frame) (1 # 2) s) with
  | Ok (Some (code :: rest)) =>
      Ok (bool_decide (code = Command.GET_FIRMWARE_VERSION + 1
                       /\ length rest = 4%nat /\ rest !! 0%nat = Some 0x32))
  | Ok _ => Raise (RuntimeError "No response for GetFirmwareVersion" [])
  | Raise e => Raise e
  end.
Proof.
  intros Hframe.
  set (st0 := snd (log_debug "Checking firmware version" [] s)).
  assert (Hframe0 : fst (construct_frame [Command.GET_FIRMWARE_VERSION] st0) = Ok frame).
  { rewrite construct_frame_run in *. exact Hframe. }
  destruct (construct_frame_inv _ _ _ Hframe0) as (st1 & Hrun & _ & Hdev & _).
  destruct (send_frame_device (_LONG_PREAMBLE ++ frame) (1 # 2) st1 s Hdev) as [Hfst _].
  unfold verify_firmware_version.
  rewrite (run_bind_ok (log_debug "Checking firmware version" []) _ s st0 () eq_refl).
  rewrite (run_bind_ok _ _ _ _ _ Hrun), run_bind.
  destruct (send_frame (_LONG_PREAMBLE ++ frame) (1 # 2) st1) as [[rsp|e] st2];
    cbn [fst] in Hfst; rewrite <- Hfst; [|reflexivity].
  destruct rsp as [[|code rest]|]; try reflexivity.
  eval_parse. cbn [length].
  destruct (decide (code = Command.GET_FIRMWARE_VERSION + 1)) as [Hcode|Hcode].
  - rewrite (bool_decide_false (code ≠ _)) by (intros Hne; exact (Hne Hcode)).
    destruct (decide (length rest = 4%nat)) as [Hlen|Hlen].
    + rewrite (bool_decide_false (S (length rest) ≠ 5%nat)) by lia.
      destruct rest as [|version rest]; [discriminate Hlen|].
      simpl. f_equal.
      destruct (decide (version = 0x32)) as [-> | Hversion].
      * rewrite !bool_decide_true; [reflexivity| |reflexivity].
        repeat split; [exact Hcode|exact Hlen].
      * rewrite !bool_decide_false; [reflexivity| |exact Hversion].
        intros (_ & _ & [= Heq]). exact (Hversion Heq).
    + rewrite (bool_decide_true (S (length rest) ≠ 5%nat)) by lia.
      simpl. f_equal. symmetry. apply bool_decide_false.
      intros (_ & Heq & _). exact (Hlen Heq).
  - rewrite (bool_decide_true (code ≠ _)) by exact Hcode.
    simpl. f_equal. symmetry. apply bool_decide_false.
    intros (Heq & _). exact (Hcode Heq).
Qed.

Lemma verify_firmware_version_outcome_example :
  fst (verify_firmware_version
         (fresh (ACK ++ [0x00; 0x00; 0xFF; 0x06; 0xFA; 0xD5; 0x03; 0x32; 0x01; 0x06; 0x07;
                         0xE8; 0x00])))
  = match fst (send_frame (_LONG_PREAMBLE ++ frame_layout [Command.GET_FIRMWARE_VERSION])
                 (1 # 2)
                 (fresh (ACK ++ [0x00; 0x00; 0xFF; 0x06; 0xFA; 0xD5; 0x03; 0x32; 0x01; 0x06;
                                 0x07; 0xE8; 0x00])))
    with
    | Ok (Some (code :: rest)) =>
        Ok (bool_decide (code = Command.GET_FIRMWARE_VERSION + 1
                         /\ length rest = 4%nat /\ rest !! 0%nat = Some 0x32))
    | Ok _ => Raise (RuntimeError "No response for GetFirmwareVersion" [])
    | Raise e => Raise e
    end.
Proof.
  apply (verify_firmware_version_outcome (frame_layout [Command.GET_FIRMWARE_VERSION])).
  reflexivity.
Defined.

(** X22: [transceive] never raises over the response code: no response
    gives [None]; otherwise the first byte is dropped whatever it is, a
    status byte 0 gives the bytes after it and any other status gives
    [None]; only a response of a single byte raises ([IndexError]). *)
Theorem transceive_outcome {P : Type} `{SerialPort P}
    (data frame : list Z) (s : PN532 P) :
  fst (construct_frame (Command.IN_DATA_EXCHANGE :: data) s) = Ok frame ->
  fst (transceive data s) =
  match fst (send_frame frame 5 s) with
  | Ok (Some (code :: status :: rest)) =>
      Ok (if bool_decide (status = 0) then Some rest else None)
  | Ok (Some [code]) => Raise IndexError
  | Ok _ => Ok None
  | Raise e => Raise e
  end.
Proof.
  intros Hframe.
  set (st0 := snd (log_debug "Transceive" [] s)).
  assert (Hframe0 : fst (construct_frame (Command.IN_DATA_EXCHANGE :: data) st0) = Ok frame).
  { rewrite construct_frame_fst in *. exact Hframe. }
  destruct (construct_frame_inv _ _ _ Hframe0) as (st1 & Hrun & _ & Hdev & _).
  destruct (send_frame_device frame 5 st1 s Hdev) as [Hfst _].
  unfold transceive.
  rewrite (run_bind_ok (log_debug "Transceive" []) _ s st0 () eq_refl).
  rewrite (run_bind_ok _ _ _ _ _ Hrun), run_bind.
  destruct (send_frame frame 5 st1) as [[rsp|e] st2];
    cbn [fst] in Hfst; rewrite <- Hfst; [|reflexivity].
  destruct rsp as [[|code [|status rest]]|]; try reflexivity.
  - eval_parse. destruct (bool_decide (code ≠ _)); reflexivity.
  - eval_parse.
    destruct (decide (status = 0)) as [-> | Hstatus].
    + destruct (bool_decide (code ≠ _)); reflexivity.
    + rewrite (bool_decide_true (status ≠ 0)) by exact Hstatus.
      rewrite (bool_decide_false (status = 0)) by exact Hstatus.
      destruct (bool_decide (code ≠ _)); reflexivity.
Qed.

Lemma transceive_outcome_example :
  fst (transceive [0x01; 0x00; 0xA4]
         (fresh (ACK ++ [0x00; 0x00; 0xFF; 0x05; 0xFB; 0xD5; 0x99; 0x00; 0x90; 0x00;
                         0x02; 0x00])))
  = match fst (send_frame (frame_layout [Command.IN_DATA_EXCHANGE; 0x01; 0x00; 0xA4]) 5
                 (fresh (ACK ++ [0x00; 0x00; 0xFF; 0x05; 0xFB; 0xD5; 0x99; 0x00; 0x90; 0x00;
                                 0x02; 0x00])))
    with
    | Ok (Some (code :: status :: rest)) =>
        Ok (if bool_decide (status = 0) then Some rest else None)
    | Ok (Some [code]) => Raise IndexError
    | Ok _ => Ok None
    | Raise e => Raise e
    end.
Proof.
  apply (transceive_outcome [0x01; 0x00; 0xA4]
           (frame_layout [Command.IN_DATA_EXCHANGE; 0x01; 0x00; 0xA4])).
  reflexivity.
Defined.

(** ** What goes on the wire *)

Lemma commands_issued_device (cmd : Z) (s s' : PN532 BufferedPort) :
  device s' = device s -> commands_issued cmd s' = commands_issued cmd s.
Proof. intros Hdev. unfold commands_issued. rewrite Hdev. reflexivity. Qed.

(** X23: [mute] and [unmute] are never elided: each call puts exactly one
    RF_CONFIGURATION command on the wire, whatever the RF configuration
    cache already holds and whatever comes back; a call that returns
    leaves the field state it asked for in the cache. *)
Theorem field_control_always_sent (s : PN532 BufferedPort) :
  commands_issued Command.RF_CONFIGURATION (snd (mute s))
  = S (commands_issued Command.RF_CONFIGURATION s) /\
  commands_issued Command.RF_CONFIGURATION (snd (unmute s))
  = S (commands_issued Command.RF_CONFIGURATION s) /\
  (forall s', mute s = (Ok (), s') ->
              rf_configuration_cache s' !! RFConfigItem.RF_FIELD = Some [0x02]) /\
  (forall s', unmute s = (Ok (), s') ->
              rf_configuration_cache s' !! RFConfigItem.RF_FIELD = Some [0x03]).
Proof.
  assert (Hsent : forall (msg : string) (state : Z),
             0 <= state < 256 ->
             let m := log_debug msg [];;
                      rf_configuration RFConfigItem.RF_FIELD [state] false in
             commands_issued Command.RF_CONFIGURATION (snd (m s))
             = S (commands_issued Command.RF_CONFIGURATION s) /\
             forall s', m s = (Ok (), s') ->
                        rf_configuration_cache s' !! RFConfigItem.RF_FIELD = Some [state]).
  { intros msg state Hstate m. subst m.
    set (s0 := snd (log_debug msg [] s)).
    rewrite (run_bind_ok (log_debug msg []) _ s s0 () eq_refl).
    unfold rf_configuration.
    rewrite (run_bind_ok get_rf_configuration_cache _ s0 s0 (rf_configuration_cache s0)
                         eq_refl).
    cbn [andb]. rewrite run_bind.
    destruct (execute_command_issues Command.RF_CONFIGURATION
                [RFConfigItem.RF_FIELD; state] (1 # 2) s0) as [Hcount _].
    { repeat (apply Forall_cons; split;
              [first [exact Hstate
                     | unfold Command.RF_CONFIGURATION, RFConfigItem.RF_FIELD; lia]|]).
      apply Forall_nil. exact I. }
    rewrite (commands_issued_device _ s s0 eq_refl) in Hcount.
    destruct (execute_command Command.RF_CONFIGURATION [RFConfigItem.RF_FIELD; state]
                              (1 # 2) s0) as [[rsp|e] s1]; simpl in Hcount.
    - cbv [mbind M_bind get_rf_configuration_cache set_rf_configuration_cache].
      split; [exact Hcount|]. intros s' [= <-]. simpl. apply lookup_insert_eq.
    - split; [exact Hcount|]. discriminate. }
  destruct (Hsent "Muting"%string 0x02 ltac:(lia)) as [Hmute Hmuted].
  destruct (Hsent "Unmuting"%string 0x03 ltac:(lia)) as [Hunmute Hunmuted].
  repeat split; assumption.
Qed.

Lemma field_control_always_sent_twice :
  rf_configuration_cache (snd (mute (snd (mute (fresh [])))))
  !! RFConfigItem.RF_FIELD = Some [0x02].
Proof.
  apply (proj1 (proj2 (proj2 (field_control_always_sent (snd (mute (fresh []))))))).
  vm_compute. reflexivity.
Defined.


Ltac track_wire :=
  simpl; split; [unfold commands_issued in *; simpl in *; lia|congruence].

(** X24: [send_broadcast] writes BIT_FRAMING on the device behind the
    register cache: on every path it puts exactly one WRITE_REGISTER frame
    on the wire and leaves the cache as it was, so a cached write of the
    value the cache held for BIT_FRAMING is elided afterwards. *)
Theorem send_broadcast_bypasses_cache (broadcast : list Z) (s : PN532 BufferedPort) :
  commands_issued Command.WRITE_REGISTER (snd (send_broadcast broadcast s))
  = S (commands_issued Command.WRITE_REGISTER s) /\
  register_cache (snd (send_broadcast broadcast s)) = register_cache s /\
  (forall v, register_cache s !! REG.BIT_FRAMING = Some v ->
             write_registers [(REG.BIT_FRAMING, v)] true (snd (send_broadcast broadcast s))
             = (Ok (), snd (send_broadcast broadcast s))).
Proof.
  assert (Hmain :
    commands_issued Command.WRITE_REGISTER (snd (send_broadcast broadcast s))
    = S (commands_issued Command.WRITE_REGISTER s) /\
    register_cache (snd (send_broadcast broadcast s)) = register_cache s).
  { unfold send_broadcast.
    set (s0 := snd (log_debug "Sending broadcast %s" broadcast s)).
    rewrite (run_bind_ok (log_debug "Sending broadcast %s" broadcast) _ s s0 () eq_refl).
    rewrite run_bind, construct_frame_run.
    change (forallb is_byte (frame_layout [Command.WRITE_REGISTER; 0x63; 0x3D; 0x00]))
      with true. cbv iota.
    set (frame1 := frame_layout [Command.WRITE_REGISTER; 0x63; 0x3D; 0x00]).
    set (s1 := mkPN532 (device s0) (register_cache s0) (rf_configuration_cache s0) _).
    assert (Hcount1 := send_frame_issues Command.WRITE_REGISTER frame1 (1 # 2) s1).
    assert (Hcache1 := proj1 (send_frame_caches frame1 (1 # 2) s1)).
    change (is_command_frame Command.WRITE_REGISTER frame1) with true in Hcount1.
    rewrite run_bind.
    destruct (send_frame frame1 (1 # 2) s1) as [[rsp1|e1] s2];
      simpl in Hcount1, Hcache1; [|track_wire].
    rewrite run_bind. unfold lift.
    destruct (with_crc16a broadcast) as [payload|e]; [|track_wire].
    rewrite run_bind, construct_frame_run.
    destruct (forallb is_byte (frame_layout (Command.IN_COMMUNICATE_THRU :: payload)));
      [|track_wire].
    set (frame2 := frame_layout (Command.IN_COMMUNICATE_THRU :: payload)).
    set (s3 := mkPN532 (device s2) (register_cache s2) (rf_configuration_cache s2) _).
    assert (Hcount2 := send_frame_issues Command.WRITE_REGISTER frame2 (1 # 2) s3).
    assert (Hcache2 := proj1 (send_frame_caches frame2 (1 # 2) s3)).
    change (is_command_frame Command.WRITE_REGISTER frame2) with false in Hcount2.
    rewrite run_bind.
    destruct (send_frame frame2 (1 # 2) s3) as [[rsp2|e2] s4];
      simpl in Hcount2, Hcache2; [|track_wire].
    destruct (falsy rsp2); track_wire. }
  destruct Hmain as [Hcount Hcache].
  split; [exact Hcount|]. split; [exact Hcache|].
  intros v Hv. apply write_registers_cached.
  apply Forall_cons. split; [|apply Forall_nil; exact I].
  simpl. rewrite Hcache. exact Hv.
Qed.

Lemma send_broadcast_bypasses_cache_example :
  write_registers [(REG.BIT_FRAMING, 0x00)] true
    (snd (send_broadcast [0xC2] configured_silent))
  = (Ok (), snd (send_broadcast [0xC2] configured_silent)).
Proof.
  apply (proj2 (proj2 (send_broadcast_bypasses_cache [0xC2] configured_silent)) 0x00).
  reflexivity.
Defined.

Lemma frames_sent_device (s s' : PN532 BufferedPort) :
  device s' = device s -> frames_sent s' = frames_sent s.
Proof. intros Hdev. unfold frames_sent. rewrite Hdev. reflexivity. Qed.

Lemma frame_layout_not_ACK (data : list Z) : frame_layout data <> ACK.
Proof. intros Heq. apply (f_equal (fun frame => frame !! 5%nat)) in Heq. discriminate Heq. Qed.

Lemma send_frame_frames_sent (frame : list Z) (t : Q) (s s' : PN532 BufferedPort)
    (r : result (option (list Z))) :
  frame <> ACK ->
  send_frame frame t s = (r, s') ->
  frames_sent s' = frames_sent s ++ [frame].
Proof.
  intros Hframe Hrun. unfold send_frame in Hrun. rewrite run_bind in Hrun.
  unfold device_write in Hrun.
  set (s1 := mkPN532 (port_write frame (device s)) (register_cache s)
                     (rf_configuration_cache s) (log s)) in Hrun.
  assert (Htx := get_device_response_tx t s1).
  cbv iota beta in Hrun. rewrite Hrun in Htx. simpl in Htx.
  unfold frames_sent.
  destruct Htx as [-> | ->]; rewrite ?List.filter_app; simpl;
    rewrite (bool_decide_false (frame = ACK)) by exact Hframe; simpl;
    rewrite ?app_nil_r; reflexivity.
Qed.

Lemma construct_frame_ok_inv {P : Type} `{SerialPort P} (data frame : list Z)
    (s s1 : PN532 P) :
  construct_frame data s = (Ok frame, s1) ->
  frame = frame_layout data /\ device s1 = device s.
Proof.
  intros Hrun.
  destruct (construct_frame_inv data frame s) as (s1' & Hrun' & Hlayout & Hdev & _).
  { rewrite Hrun. reflexivity. }
  rewrite Hrun in Hrun'. injection Hrun' as <-. split; assumption.
Qed.

Lemma log_emit_inv {P : Type} `{SerialPort P} (lv : level) (msg : string) (args : list Z)
    (s s' : PN532 P) (u : ()) :
  log_emit lv msg args s = (Ok u, s') -> device s' = device s.
Proof. intros Hrun. inversion Hrun. reflexivity. Qed.

Lemma when_log_inv {P : Type} `{SerialPort P} (b : bool) (msg : string) (args : list Z)
    (s s' : PN532 P) (u : ()) :
  when b (log_error msg args) s = (Ok u, s') -> device s' = device s.
Proof. destruct b; intros Hrun; inversion Hrun; reflexivity. Qed.

Lemma index_inv {P : Type} (xs : list Z) (i : nat) (x : Z) (s s' : PN532 P) :
  index xs i s = (Ok x, s') -> xs !! i = Some x /\ s' = s.
Proof.
  unfold index. destruct (xs !! i) as [y|]; [|discriminate].
  intros [= -> ->]. split; reflexivity.
Qed.

Lemma del0_inv {P : Type} (xs ys : list Z) (s s' : PN532 P) :
  del0 xs s = (Ok ys, s') -> s' = s.
Proof. destruct xs; [discriminate|]. intros [= _ ->]. reflexivity. Qed.

Lemma del0_cons_inv {P : Type} (xs ys : list Z) (s s' : PN532 P) :
  del0 xs s = (Ok ys, s') -> exists x : Z, xs = x :: ys /\ s' = s.
Proof.
  destruct xs as [|x xs]; [discriminate|]. intros [= <- ->].
  exists x. split; reflexivity.
Qed.

Lemma lift_with_crc16a_inv {P : Type} (data out : list Z) (s s' : PN532 P) :
  lift (with_crc16a data) s = (Ok out, s') -> out = data ++ crc16a data /\ s' = s.
Proof.
  unfold lift, with_crc16a. destruct (forallb is_byte data); [|discriminate].
  intros [= <- <-]. split; reflexivity.
Qed.

(** A returning [send_broadcast] has sent the BIT_FRAMING write and the
    broadcast with its CRC_A, in this order. *)
Lemma send_broadcast_wire (broadcast : list Z) (s s' : PN532 BufferedPort) :
  send_broadcast broadcast s = (Ok (), s') ->
  frames_sent s' =
  frames_sent s ++ [frame_layout [Command.WRITE_REGISTER; 0x63; 0x3D; 0x00];
                    frame_layout (Command.IN_COMMUNICATE_THRU
                                    :: broadcast ++ crc16a broadcast)].
Proof.
  unfold send_broadcast. intros Hrun.
  apply run_bind_ok_inv in Hrun as (u0 & s0 & Hlog & Hrun).
  apply log_emit_inv in Hlog.
  apply run_bind_ok_inv in Hrun as (frame1 & s1 & Hframe1 & Hrun).
  apply construct_frame_ok_inv in Hframe1 as [-> Hdev1].
  apply run_bind_ok_inv in Hrun as (rsp1 & s2 & Hsend1 & Hrun).
  apply send_frame_frames_sent in Hsend1; [|apply frame_layout_not_ACK].
  apply run_bind_ok_inv in Hrun as (payload & s3 & Hcrc & Hrun).
  apply lift_with_crc16a_inv in Hcrc as [-> ->].
  apply run_bind_ok_inv in Hrun as (frame2 & s4 & Hframe2 & Hrun).
  apply construct_frame_ok_inv in Hframe2 as [-> Hdev4].
  apply run_bind_ok_inv in Hrun as (rsp2 & s5 & Hsend2 & Hrun).
  apply send_frame_frames_sent in Hsend2; [|apply frame_layout_not_ACK].
  destruct (falsy rsp2); [discriminate Hrun|]. injection Hrun as <-.
  rewrite Hsend2, (frames_sent_device s2 s4 Hdev4), Hsend1,
          (frames_sent_device s0 s1 Hdev1), (frames_sent_device s s0 Hlog).
  rewrite <- app_assoc. reflexivity.
Qed.

(** X25: what a successful [poll_b] has put on the wire, in order: the
    passive-target poll for type B, a BIT_FRAMING write, a broadcast whose
    payload is 194 zero bytes with their CRC_A ([bytearray(0xC2)] is a
    buffer of that length, not the byte 0xC2), a second BIT_FRAMING write,
    and the WUPB command [05 afi 08] with its CRC_A, where [afi] is the
    second byte of the payload the device returned to the poll.  The tag
    returned has target id 3 and holds, as its SENSB_RES, the non-empty
    payload the device returned to the WUPB command. *)
Theorem poll_b_wire (s s' : PN532 BufferedPort) (tag : TypeBTag) :
  poll_b s = (Ok tag, s') ->
  exists (code afi : Z) (rest : list Z) (st : PN532 BufferedPort),
    fst (send_frame (frame_layout [Command.IN_LIST_PASSIVE_TARGET; 0x01; 0x03; 0x00])
                    (1 # 2) s)
    = Ok (Some (code :: afi :: rest)) /\
    frames_sent st =
    frames_sent s ++
      [frame_layout [Command.IN_LIST_PASSIVE_TARGET; 0x01; 0x03; 0x00];
       frame_layout [Command.WRITE_REGISTER; 0x63; 0x3D; 0x00];
       frame_layout (Command.IN_COMMUNICATE_THRU
                       :: replicate 194 0x00 ++ crc16a (replicate 194 0x00));
       frame_layout [Command.WRITE_REGISTER; 0x63; 0x3D; 0x00]] /\
    send_frame (frame_layout (Command.IN_COMMUNICATE_THRU
                                :: [0x05; afi; 0x08] ++ crc16a [0x05; afi; 0x08]))
               (1 # 2) st
    = (Ok (Some (sensb_res tag)), s') /\
    sensb_res tag <> [] /\
    frames_sent s' =
    frames_sent s ++
      [frame_layout [Command.IN_LIST_PASSIVE_TARGET; 0x01; 0x03; 0x00];
       frame_layout [Command.WRITE_REGISTER; 0x63; 0x3D; 0x00];
       frame_layout (Command.IN_COMMUNICATE_THRU
                       :: replicate 194 0x00 ++ crc16a (replicate 194 0x00));
       frame_layout [Command.WRITE_REGISTER; 0x63; 0x3D; 0x00];
       frame_layout (Command.IN_COMMUNICATE_THRU
                       :: [0x05; afi; 0x08] ++ crc16a [0x05; afi; 0x08])] /\
    target_id_b tag = 0x03.
Proof.
  unfold poll_b. intros Hrun.
  apply run_bind_ok_inv in Hrun as (u0 & s0 & Hlog & Hrun).
  apply log_emit_inv in Hlog.
  apply run_bind_ok_inv in Hrun as (frame1 & s1 & Hframe1 & Hrun).
  apply construct_frame_ok_inv in Hframe1 as [-> Hdev1].
  apply run_bind_ok_inv in Hrun as (rsp1 & s2 & Hsend1 & Hrun).
  assert (Hpoll : fst (send_frame
                         (frame_layout [Command.IN_LIST_PASSIVE_TARGET; 0x01; 0x03; 0x00])
                         (1 # 2) s) = Ok rsp1).
  { assert (Hdev : device s = device s1) by congruence.
    rewrite (proj1 (send_frame_device _ (1 # 2) s s1 Hdev)), Hsend1. reflexivity. }
  apply send_frame_frames_sent in Hsend1; [|apply frame_layout_not_ACK].
  destruct (falsy rsp1); [discriminate Hrun|]. cbv zeta in Hrun.
  apply run_bind_ok_inv in Hrun as (code & s3 & Hcode & Hrun).
  apply index_inv in Hcode as [Hcode ->].
  apply run_bind_ok_inv in Hrun as (u1 & s4 & Hwhen & Hrun).
  apply when_log_inv in Hwhen.
  apply run_bind_ok_inv in Hrun as (rsp1' & s5 & Hdel & Hrun).
  apply del0_cons_inv in Hdel as (code' & Hrsp1 & ->).
  apply run_bind_ok_inv in Hrun as (afi & s6 & Hafi & Hrun).
  apply index_inv in Hafi as [Hafi ->].
  assert (Hpayload : exists rest : list Z, rsp1 = Some (code :: afi :: rest)).
  { destruct rsp1 as [payload|]; [|discriminate Hrsp1]. simpl in Hrsp1, Hcode.
    subst payload. injection Hcode as ->.
    destruct rsp1' as [|afi' rest]; [discriminate Hafi|]. injection Hafi as ->.
    exists rest. reflexivity. }
  destruct Hpayload as [rest ->].
  apply run_bind_ok_inv in Hrun as (u2 & s7 & Hbroadcast & Hrun).
  destruct u2. apply send_broadcast_wire in Hbroadcast.
  apply run_bind_ok_inv in Hrun as (frame2 & s8 & Hframe2 & Hrun).
  apply construct_frame_ok_inv in Hframe2 as [-> Hdev8].
  apply run_bind_ok_inv in Hrun as (rsp2 & s9 & Hsend2 & Hrun).
  apply send_frame_frames_sent in Hsend2; [|apply frame_layout_not_ACK].
  apply run_bind_ok_inv in Hrun as (payload & s10 & Hcrc & Hrun).
  apply lift_with_crc16a_inv in Hcrc as [-> ->].
  apply run_bind_ok_inv in Hrun as (frame3 & s11 & Hframe3 & Hrun).
  apply construct_frame_ok_inv in Hframe3 as [-> Hdev11].
  apply run_bind_ok_inv in Hrun as (rsp3 & s12 & Hsend3 & Hrun).
  assert (Hwupb := Hsend3).
  apply send_frame_frames_sent in Hsend3; [|apply frame_layout_not_ACK].
  destruct rsp3 as [[|b sensb]|]; try discriminate Hrun.
  simpl in Hrun. injection Hrun as <- <-.
  assert (Hbefore : frames_sent s11 =
    frames_sent s ++
      [frame_layout [Command.IN_LIST_PASSIVE_TARGET; 0x01; 0x03; 0x00];
       frame_layout [Command.WRITE_REGISTER; 0x63; 0x3D; 0x00];
       frame_layout (Command.IN_COMMUNICATE_THRU
                       :: replicate 194 0x00 ++ crc16a (replicate 194 0x00));
       frame_layout [Command.WRITE_REGISTER; 0x63; 0x3D; 0x00]]).
  { rewrite (frames_sent_device s9 s11 Hdev11), Hsend2,
            (frames_sent_device s7 s8 Hdev8), Hbroadcast,
            (frames_sent_device s2 s4 Hwhen), Hsend1,
            (frames_sent_device s0 s1 Hdev1), (frames_sent_device s s0 Hlog).
    rewrite <- !app_assoc. reflexivity. }
  exists code, afi, rest, s11.
  split; [exact Hpoll|]. split; [exact Hbefore|]. split; [exact Hwupb|].
  split; [discriminate|]. split; [|reflexivity].
  rewrite Hsend3, Hbefore, <- app_assoc. reflexivity.
Qed.

Lemma poll_b_wire_session :
  exists (code afi : Z) (rest : list Z) (st : PN532 BufferedPort),
    fst (send_frame (frame_layout [Command.IN_LIST_PASSIVE_TARGET; 0x01; 0x03; 0x00])
                    (1 # 2) (fresh type_b_session))
    = Ok (Some (code :: afi :: rest)) /\
    frames_sent st =
    frames_sent (fresh type_b_session) ++
      [frame_layout [Command.IN_LIST_PASSIVE_TARGET; 0x01; 0x03; 0x00];
       frame_layout [Command.WRITE_REGISTER; 0x63; 0x3D; 0x00];
       frame_layout (Command.IN_COMMUNICATE_THRU
                       :: replicate 194 0x00 ++ crc16a (replicate 194 0x00));
       frame_layout [Command.WRITE_REGISTER; 0x63; 0x3D; 0x00]] /\
    send_frame (frame_layout (Command.IN_COMMUNICATE_THRU
                                :: [0x05; afi; 0x08] ++ crc16a [0x05; afi; 0x08]))
               (1 # 2) st
    = (Ok (Some (sensb_res (mkTypeBTag 0x03 [0x43; 0x00]))),
       snd (poll_b (fresh type_b_session))) /\
    sensb_res (mkTypeBTag 0x03 [0x43; 0x00]) <> [] /\
    frames_sent (snd (poll_b (fresh type_b_session))) =
    frames_sent (fresh type_b_session) ++
      [frame_layout [Command.IN_LIST_PASSIVE_TARGET; 0x01; 0x03; 0x00];
       frame_layout [Command.WRITE_REGISTER; 0x63; 0x3D; 0x00];
       frame_layout (Command.IN_COMMUNICATE_THRU
                       :: replicate 194 0x00 ++ crc16a (replicate 194 0x00));
       frame_layout [Command.WRITE_REGISTER; 0x63; 0x3D; 0x00];
       frame_layout (Command.IN_COMMUNICATE_THRU
                       :: [0x05; afi; 0x08] ++ crc16a [0x05; afi; 0x08])] /\
    target_id_b (mkTypeBTag 0x03 [0x43; 0x00]) = 0x03.
Proof.
  apply (poll_b_wire (fresh type_b_session) (snd (poll_b (fresh type_b_session)))
           (mkTypeBTag 0x03 [0x43; 0x00])).
  vm_compute. reflexivity.
Defined.

(** ** Malformed register traffic *)

(** X26: the number of values READ_REGISTER returns is not checked where
    they are read, only where they are unpacked: when the read of the four
    mode registers yields any other number of values, [transceive_raw]
    raises [ValueError], after the RF timing was applied and before any
    register is written. *)
Theorem transceive_raw_wrong_register_count {P : Type} `{SerialPort P}
    (data regs : list Z) (type_ : string) (crc : bool) (bits bitrate : Z) (timeout : number)
    (cache_configuration : bool) (s s1 s2 : PN532 P) :
  rf_configuration RFConfigItem.VARIOUS_TIMINGS [0x00; 0x0B; timeout_index timeout]
                   cache_configuration s = (Ok (), s1) ->
  read_registers [REG.TX_MODE; REG.RX_MODE; REG.TX_AUTO; REG.BIT_FRAMING]
                 cache_configuration s1 = (Ok regs, s2) ->
  length regs <> 4%nat ->
  transceive_raw data type_ crc bits bitrate timeout cache_configuration s
  = (Raise ValueError, s2).
Proof.
  intros Hrf Hread Hcount.
  unfold transceive_raw. apply run_bind_raise.
  unfold transceive_raw_configure. cbv zeta.
  rewrite (run_bind_ok _ _ _ _ _ Hrf), (run_bind_ok _ _ _ _ _ Hread).
  destruct regs as [|tx_mode [|rx_mode [|tx_auto [|bit_frm [|extra regs]]]]];
    try reflexivity.
  contradiction Hcount. reflexivity.
Qed.

Lemma transceive_raw_wrong_register_count_example :
  transceive_raw [0x26] "A" false 7 106 (PyInt 1) false
    (fresh (ACK ++ [0x00; 0x00; 0xFF; 0x02; 0xFE; 0xD5; 0x33; 0xF8; 0x00]
            ++ ACK ++ [0x00; 0x00; 0xFF; 0x03; 0xFD; 0xD5; 0x07; 0x80; 0xA4; 0x00]))
  = (Raise ValueError,
     snd (read_registers [REG.TX_MODE; REG.RX_MODE; REG.TX_AUTO; REG.BIT_FRAMING] false
            (snd (rf_configuration RFConfigItem.VARIOUS_TIMINGS
                    [0x00; 0x0B; timeout_index (PyInt 1)] false
                    (fresh (ACK ++ [0x00; 0x00; 0xFF; 0x02; 0xFE; 0xD5; 0x33; 0xF8; 0x00]
                            ++ ACK ++ [0x00; 0x00; 0xFF; 0x03; 0xFD; 0xD5; 0x07; 0x80;
                                       0xA4; 0x00])))))).
Proof.
  eapply (transceive_raw_wrong_register_count [0x26] [0x80] "A" false 7 106 (PyInt 1) false).
  - vm_compute. reflexivity.
  - vm_compute. reflexivity.
  - simpl. lia.
Defined.

Lemma join_pack_HB_bad (registers : list (Z * Z)) :
  Exists (fun rv => ~ (0 <= fst rv < 65536 /\ 0 <= snd rv < 256)) registers ->
  join_pack_HB registers = Raise StructError.
Proof.
  induction 1 as [rv rest Hbad|rv rest _ IH]; simpl.
  - unfold pack_HB.
    destruct ((0 <=? fst rv) && (fst rv <? 65536) && is_byte (snd rv)) eqn:Hok;
      [|reflexivity].
    exfalso. apply Hbad.
    apply andb_true_iff in Hok as [Hreg Hval].
    apply andb_true_iff in Hreg as [Hlo Hhi].
    apply Z.leb_le in Hlo. apply Z.ltb_lt in Hhi. apply is_byte_spec in Hval. lia.
  - rewrite IH. unfold pack_HB.
    destruct ((0 <=? fst rv) && (fst rv <? 65536) && is_byte (snd rv)); reflexivity.
Qed.

(** X27: without caching, a mapping that holds an address outside 16 bits
    or a value outside a byte makes [write_registers] fail while packing
    ([struct.error]): nothing is sent and neither the driver nor its cache
    changes, the well-formed pairs included. *)
Theorem write_registers_rejects_unpackable {P : Type} `{SerialPort P}
    (registers : list (Z * Z)) (s : PN532 P) :
  Exists (fun rv => ~ (0 <= fst rv < 65536 /\ 0 <= snd rv < 256)) registers ->
  write_registers registers false s = (Raise StructError, s).
Proof.
  intros Hbad.
  assert (Hall : List.filter
                   (fun rv => negb false
                              || bool_decide (register_cache s !! fst rv ≠ Some (snd rv)))
                   registers = registers).
  { clear. induction registers as [|rv rest IH]; [reflexivity|].
    simpl. f_equal. exact IH. }
  unfold write_registers.
  rewrite (run_bind_ok get_register_cache _ s s (register_cache s) eq_refl).
  rewrite Hall. destruct registers as [|rv rest]; [inversion Hbad|].
  apply run_bind_raise. unfold lift.
  rewrite (join_pack_HB_bad _ Hbad). reflexivity.
Qed.

Lemma write_registers_rejects_unpackable_example :
  write_registers [(REG.TX_MODE, 0x80); (REG.RX_MODE, 0x100)] false (fresh [])
  = (Raise StructError, fresh []).
Proof.
  apply (write_registers_rejects_unpackable [(REG.TX_MODE, 0x80); (REG.RX_MODE, 0x100)]
           (fresh [])).
  apply Exists_cons. right. apply Exists_cons. left. simpl. lia.
Defined.
